(** * Company research agent: orchestrator, briefing synthesizer, auditor

    A shallow embedding of the Python sources

      - [application.py]            (process_research, qa_stream, job_status,
                                     LATEST_REPORT)
      - [backend/nodes/briefing.py] (Briefing.generate_category_briefing,
                                     Briefing.create_briefings)
      - [backend/nodes/researchers/auditor.py]
                                    (OnlineEcommerceAuditor.analyze)

    Python dictionaries are insertion-ordered association lists with unique
    keys, the [defaultdict] registry [job_status] is a [gmap], exceptions and
    the mutable process state are threaded through a state-and-exception
    monad, and the semaphore-gated fan-out of [create_briefings] is a step
    relation on an explicit scheduler state. *)

From Stdlib Require Import String Ascii List ZArith QArith Lia DecimalString.
From Stdlib Require Import Permutation Sorted.
From stdpp Require Import gmap strings list fin_maps.

Open Scope string_scope.
Open Scope list_scope.
Open Scope nat_scope.

(** ** Python strings *)

(** The newline character of the f-strings. *)
Definition nl : string := String (ascii_of_nat 10) EmptyString.

(** [str.isspace] on the code points below 256: TAB..CR, FS..US, space,
    NEL and the no-break space. *)
Definition is_space (c : ascii) : bool :=
  let n := nat_of_ascii c in
  ((9 <=? n) && (n <=? 13)) || ((28 <=? n) && (n <=? 31))
  || (n =? 32) || (n =? 133) || (n =? 160).

Fixpoint lstrip (s : string) : string :=
  match s with
  | EmptyString => EmptyString
  | String c t => if is_space c then lstrip t else s
  end.

Fixpoint rstrip (s : string) : string :=
  match s with
  | EmptyString => EmptyString
  | String c t =>
      match rstrip t with
      | EmptyString => if is_space c then EmptyString else String c EmptyString
      | t' => String c t'
      end
  end.

(** [s.strip()] *)
Definition strip (s : string) : string := rstrip (lstrip s).

(** A string made of white space only (the empty string included). *)
Fixpoint all_space (s : string) : bool :=
  match s with
  | EmptyString => true
  | String c t => is_space c && all_space t
  end.

(** [s[:n]] *)
Fixpoint str_take (n : nat) (s : string) : string :=
  match n, s with
  | S n', String c t => String c (str_take n' t)
  | _, _ => EmptyString
  end.

(** [str(i)] for a non-negative integer. *)
Definition str_of_nat (i : nat) : string :=
  NilEmpty.string_of_uint (Nat.to_uint i).

(** [c * n] for a one-character string. *)
Fixpoint str_repeat (c : ascii) (n : nat) : string :=
  match n with
  | O => EmptyString
  | S n' => String c (str_repeat c n')
  end.

(** [sep.join(parts)] *)
Fixpoint str_join (sep : string) (parts : list string) : string :=
  match parts with
  | [] => EmptyString
  | [p] => p
  | p :: rest => p +:+ sep +:+ str_join sep rest
  end.

(** ** Python dictionaries

    A [dict] keeps its keys unique and in insertion order; assigning to an
    existing key keeps the key's position. *)

Definition pydict (V : Type) : Type := list (string * V).

Fixpoint dict_get {V} (d : pydict V) (k : string) : option V :=
  match d with
  | [] => None
  | (k', v) :: rest => if String.eqb k' k then Some v else dict_get rest k
  end.

(** [d[k] = v] *)
Fixpoint dict_set {V} (d : pydict V) (k : string) (v : V) : pydict V :=
  match d with
  | [] => [(k, v)]
  | (k', v') :: rest =>
      if String.eqb k' k then (k, v) :: rest else (k', v') :: dict_set rest k v
  end.

(** [d.update(s)] *)
Definition dict_update {V} (d s : pydict V) : pydict V :=
  fold_left (fun acc kv => dict_set acc (fst kv) (snd kv)) s d.

Definition dict_keys {V} (d : pydict V) : list string := map fst d.

(** ** Documents and Python values *)

(** The [evaluation] sub-dictionary of a curated document. *)
Record Evaluation := { overall_score : option Q }.

(** A well-formed search document: the keys the code reads or writes.
    [None] is an absent key (for [raw_content] also the value [None],
    which the code treats alike).  Scores are the finite values of Python
    floats, as rationals.  A dictionary with an entry that the record
    cannot hold, such as an evaluation that is [None], is written as a
    [PDict] below and read by [as_doc]. *)
Record Document := {
  url : option string;
  title : option string;
  raw_content : option string;
  content : option string;
  query : option string;
  source : option string;
  score : option Q;
  evaluation : option Evaluation
}.

(** [docs: Union[Dict[str, Any], List[Dict[str, Any]]]] *)
Inductive Docs :=
| DocsDict (d : pydict Document)
| DocsList (l : list Document).

#[local] Unset Elimination Schemes.
Inductive pyval :=
| PNone
| PBool (b : bool)
| PInt (n : Z)
| PFloat (q : Q)                    (* a finite float *)
| PStr (s : string)
| PObject                           (* an opaque object, e.g. the manager *)
| PDoc (doc : Document)             (* a dictionary that is a document *)
| PList (l : list pyval)
| PDict (d : list (string * pyval)).
#[local] Set Elimination Schemes.

(** The number of keys of a document. *)
Definition doc_size (doc : Document) : nat :=
  let present {A} (o : option A) : nat :=
    match o with Some _ => 1 | None => 0 end in
  present (url doc) + present (title doc) + present (raw_content doc)
  + present (content doc) + present (query doc) + present (source doc)
  + present (score doc) + present (evaluation doc).

(** [bool(v)] *)
Definition truthy (v : pyval) : bool :=
  match v with
  | PNone => false
  | PBool b => b
  | PInt n => negb (n =? 0)%Z
  | PFloat q => negb (Qeq_bool q 0)
  | PStr s => negb (String.eqb s "")
  | PObject => true
  | PDoc doc => negb (Nat.eqb (doc_size doc) 0)
  | PList l => negb (Nat.eqb (length l) 0)
  | PDict d => negb (Nat.eqb (length d) 0)
  end.

(** [d.get(k)]: [None] for an absent key. *)
Definition get (d : pydict pyval) (k : string) : pyval :=
  match dict_get d k with Some v => v | None => PNone end.

(** [d.get(k, default)] *)
Definition get_or (d : pydict pyval) (k : string) (default : pyval) : pyval :=
  match dict_get d k with Some v => v | None => default end.

(** The value of an optional string-valued key. *)
Definition optional_text (o : option string) : pyval :=
  match o with Some s => PStr s | None => PNone end.

(** [doc.get(k)] on a document. *)
Definition doc_get (doc : Document) (k : string) : pyval :=
  if String.eqb k "url" then optional_text (url doc)
  else if String.eqb k "title" then optional_text (title doc)
  else if String.eqb k "raw_content" then optional_text (raw_content doc)
  else if String.eqb k "content" then optional_text (content doc)
  else if String.eqb k "query" then optional_text (query doc)
  else if String.eqb k "source" then optional_text (source doc)
  else if String.eqb k "score" then
    match score doc with Some q => PFloat q | None => PNone end
  else if String.eqb k "evaluation" then
    match evaluation doc with
    | Some ev =>
        PDict match overall_score ev with
              | Some q => [("overall_score", PFloat q)]
              | None => []
              end
    | None => PNone
    end
  else PNone.

(** [isinstance(v, dict)] *)
Definition is_dict (v : pyval) : bool :=
  match v with PDict _ | PDoc _ => true | _ => false end.

(** [a or b] *)
Definition py_or (a b : pyval) : pyval := if truthy a then a else b.

(** [type(v).__name__], as the messages of the interpreter spell it; an
    opaque object stands for an instance of [object]. *)
Definition type_name (v : pyval) : string :=
  match v with
  | PNone => "NoneType"
  | PBool _ => "bool"
  | PInt _ => "int"
  | PFloat _ => "float"
  | PStr _ => "str"
  | PObject => "object"
  | PDoc _ | PDict _ => "dict"
  | PList _ => "list"
  end.

(** ** Exceptions *)

(** An instance of a subclass of [Exception]: its class and [str(e)]. *)
Record exn := Exn { exn_class : string; exn_str : string }.

(** What [v.attribute] raises on a value without that attribute. *)
Definition no_attribute (v : pyval) (attribute : string) : exn :=
  Exn "AttributeError"
      ("'" +:+ type_name v +:+ "' object has no attribute '" +:+ attribute
       +:+ "'").

Inductive result (A : Type) :=
| Ok (a : A)
| Raise (e : exn).
Arguments Ok {A} a.
Arguments Raise {A} e.

(** [len(v)] *)
Definition py_len (v : pyval) : result nat :=
  match v with
  | PStr s => Ok (String.length s)
  | PDoc doc => Ok (doc_size doc)
  | PList l => Ok (length l)
  | PDict d => Ok (length d)
  | _ =>
      Raise (Exn "TypeError"
                 ("object of type '" +:+ type_name v +:+ "' has no len()"))
  end.

(** [str(v)] and the rendering of [v] in an f-string.  Scalars are
    rendered as Python does; [repr] stands for the rendering of objects and
    containers. *)
Definition py_str (repr : pyval -> string) (v : pyval) : string :=
  match v with
  | PNone => "None"
  | PBool true => "True"
  | PBool false => "False"
  | PInt (Z.neg n) => "-" +:+ NilEmpty.string_of_uint (Pos.to_uint n)
  | PInt n => NilEmpty.string_of_uint (N.to_uint (Z.to_N n))
  | PStr s => s
  | _ => repr v
  end.

(** State-and-exception monad: a computation mutates the store [S] and
    either returns or raises; what it wrote before raising stays written. *)
Definition M (S A : Type) : Type := S -> S * result A.

Definition ret {S A} (a : A) : M S A := fun s => (s, Ok a).

Definition bind {S A B} (m : M S A) (k : A -> M S B) : M S B :=
  fun s =>
    match m s with
    | (s', Ok a) => k a s'
    | (s', Raise e) => (s', Raise e)
    end.

Definition raise {S A} (e : exn) : M S A := fun s => (s, Raise e).

(** [try: body  except Exception as e: handler(e)] *)
Definition try_except {S A} (body : M S A) (handler : exn -> M S A) : M S A :=
  fun s =>
    match body s with
    | (s', Ok a) => (s', Ok a)
    | (s', Raise e) => handler e s'
    end.

Definition lift {S A} (r : result A) : M S A := fun s => (s, r).

Definition modify {S} (f : S -> S) : M S unit := fun s => (f s, Ok tt).

Definition gets {S A} (f : S -> A) : M S A := fun s => (s, Ok (f s)).

Notation "x <- m ;; k" := (bind m (fun x => k))
  (at level 100, m at next level, right associativity).
Notation "m ;;; k" := (bind m (fun _ => k))
  (at level 100, right associativity).

(** [if c: body] *)
Definition when {S} (c : bool) (body : M S unit) : M S unit :=
  if c then body else ret tt.

(** [for x in xs: body(x)] *)
Fixpoint for_each {S A} (xs : list A) (body : A -> M S unit) : M S unit :=
  match xs with
  | [] => ret tt
  | x :: rest => body x ;;; for_each rest body
  end.

(** ** Status broadcaster *)

(** The payload handed to [send_status_update]. *)
Record StatusEvent := {
  ev_job_id : pyval;
  ev_status : string;
  ev_message : string;
  ev_result : pyval;
  ev_error : pyval
}.

(** Modelled from the spec: [WebSocketManager.send_status_update]
    ([backend/services/websocket_manager.py] is not part of the sources).
    It builds the event and delivers it to the observers registered for the
    job id; a delivery fault removes the observer and is not raised to the
    caller, and the broadcaster keeps no history and no job record.  The
    embedding records the published events in order. *)
Definition send_status_update {S} (log : S -> list StatusEvent)
    (set_log : list StatusEvent -> S -> S)
    (job_id : pyval) (status message : string) (res err : pyval) : M S unit :=
  modify (fun s =>
    set_log (log s ++ [ {| ev_job_id := job_id; ev_status := status;
                           ev_message := message; ev_result := res;
                           ev_error := err |} ]) s).

(** ** Briefing synthesizer ([backend/nodes/briefing.py]) *)

(** [sorted(items, key=key, reverse=reverse)].  The built-in is a stable
    sort; with [reverse=True] it reverses the list, sorts it stably in
    ascending order and reverses the outcome, which keeps elements of equal
    key in their original order. *)
Section PySorted.
Context {A : Type} (key : A -> Q).

Fixpoint insert_asc (x : A) (l : list A) : list A :=
  match l with
  | [] => [x]
  | y :: t => if Qle_bool (key x) (key y) then x :: l else y :: insert_asc x t
  end.

Definition sort_asc (l : list A) : list A := fold_right insert_asc [] l.

Definition sorted (reverse : bool) (l : list A) : list A :=
  if reverse then rev (sort_asc (rev l)) else sort_asc l.
End PySorted.

(** [enumerate(l)] *)
Definition enumerate {A} (l : list A) : list (nat * A) :=
  combine (seq 0 (length l)) l.

(** [self.max_doc_length] *)
Definition max_doc_length : Z := 8000.

(** The literal bound of the document loop. *)
Definition max_total_length : Z := 120000.

Definition truncation_marker : string := "... [content truncated]".

Definition len (s : string) : Z := Z.of_nat (String.length s).

(** [float(x[1].get('evaluation', {}).get('overall_score', '0'))] *)
Definition score_key (x : string * Document) : Q :=
  match evaluation (snd x) with
  | Some ev => match overall_score ev with Some q => q | None => 0%Q end
  | None => 0%Q
  end.

(** Lines 193-196: [docs] as a list of [(url, doc)] pairs. *)
Definition items_of (docs : Docs) : list (string * Document) :=
  match docs with
  | DocsDict d => d
  | DocsList l =>
      map (fun id : nat * Document =>
             (match url (snd id) with
              | Some u => u
              | None => "doc_" +:+ str_of_nat (fst id)
              end, snd id))
          (enumerate l)
  end.

(** Lines 197-202. *)
Definition sorted_items (docs : Docs) : list (string * Document) :=
  sorted score_key true (items_of docs).

(** [doc.get('raw_content') or doc.get('content', '')] *)
Definition doc_content (doc : Document) : string :=
  match raw_content doc with
  | Some r => if String.eqb r "" then default "" (content doc) else r
  | None => default "" (content doc)
  end.

(** Lines 209-210. *)
Definition truncate (content : string) : string :=
  if (max_doc_length <? len content)%Z
  then str_take (Z.to_nat max_doc_length) content +:+ truncation_marker
  else content.

(** Lines 207-211. *)
Definition doc_entry (doc : Document) : string :=
  "Title: " +:+ default "" (title doc) +:+ nl +:+ nl +:+ "Content: "
  +:+ truncate (doc_content doc).

(** Lines 206-216: the loop over the ranked documents, with its [break]. *)
Fixpoint collect_docs (items : list (string * Document))
    (doc_texts : list string) (total_length : Z) : list string :=
  match items with
  | [] => doc_texts
  | (_, doc) :: rest =>
      if (total_length + len (doc_entry doc) <? max_total_length)%Z
      then collect_docs rest (doc_texts ++ [doc_entry doc])
                        (total_length + len (doc_entry doc))%Z
      else doc_texts
  end.

Definition doc_texts_of (docs : Docs) : list string :=
  collect_docs (sorted_items docs) [] 0%Z.

Definition separator : string := nl +:+ str_repeat "-" 40 +:+ nl.

(** What the briefing stage can observe and change outside the research
    state: the events published and the prompts sent to the model. *)
Record Outbox := {
  sent : list StatusEvent;
  requests : list string
}.

Definition publish (job_id : pyval) (status message : string)
    (res err : pyval) : M Outbox unit :=
  send_status_update sent
    (fun l o => {| sent := l; requests := requests o |})
    job_id status message res err.

(** [{'content': ...}], the value of [generate_category_briefing]. *)
Record BriefingResult := { briefing_content : string }.

(** *** Reading the [docs] argument

    [generate_category_briefing] is handed a Python value.  Lines 194-216
    call [get] on every member, [float] on the score of its evaluation and
    [len] on its content.  A member on which one of these raises ends the
    call with that exception; a member on which none does is read as the
    document it stands for. *)

(** The text of a string value; a value of another type has none. *)
Definition text_of (v : pyval) : option string :=
  match v with PStr s => Some s | _ => None end.

(** The text of a scalar in an f-string.  The rendering of a float, of an
    object and of a container is not fixed by the embedding; as a title
    such a value is left out. *)
Definition scalar_text (v : pyval) : option string :=
  match v with
  | PNone | PBool _ | PInt _ | PStr _ => Some (py_str (fun _ => EmptyString) v)
  | _ => None
  end.

Definition digit_of (c : ascii) : option Z :=
  let n := nat_of_ascii c in
  if (48 <=? n) && (n <=? 57) then Some (Z.of_nat (n - 48)) else None.

(** The digits at the head of a string, single underscores between them
    skipped: their value, their number, and what follows them. *)
Fixpoint read_digits (s : string) (value : Z) (count : nat)
    : Z * nat * string :=
  match s with
  | EmptyString => (value, count, s)
  | String c t =>
      match digit_of c with
      | Some d => read_digits t (10 * value + d)%Z (S count)
      | None =>
          if Ascii.eqb c "_" && (0 <? count) then
            match t with
            | String c' _ =>
                match digit_of c' with
                | Some _ => read_digits t value count
                | None => (value, count, s)
                end
            | EmptyString => (value, count, s)
            end
          else (value, count, s)
      end
  end.

Definition read_sign (s : string) : bool * string :=
  match s with
  | String c t =>
      if Ascii.eqb c "-" then (true, t)
      else if Ascii.eqb c "+" then (false, t)
      else (false, s)
  | EmptyString => (false, s)
  end.

(** [float(s)] on a string: the value of a decimal literal (sign, digits,
    point, digits, exponent) with the white space around it dropped, and
    nothing where [float] raises [ValueError].  The value is the exact
    one of the literal; the spellings of infinity and of NaN have no
    finite value and are not read. *)
Definition float_of_str (s : string) : option Q :=
  let (negative, s1) := read_sign (strip s) in
  let '(whole, n_whole, s2) := read_digits s1 0%Z 0 in
  let '(frac, n_frac, s3) :=
    match s2 with
    | String c t =>
        if Ascii.eqb c "." then read_digits t 0%Z 0 else (0%Z, 0, s2)
    | EmptyString => (0%Z, 0, s2)
    end in
  if Nat.eqb (n_whole + n_frac) 0 then None
  else
    let exponent :=
      match s3 with
      | EmptyString => Some 0%Z
      | String c t =>
          if Ascii.eqb c "e" || Ascii.eqb c "E" then
            let (down, t1) := read_sign t in
            let '(e, n_e, t2) := read_digits t1 0%Z 0 in
            match n_e, t2 with
            | S _, EmptyString => Some (if down then - e else e)%Z
            | _, _ => None
            end
          else None
      end in
    match exponent with
    | None => None
    | Some e =>
        let mantissa :=
          (inject_Z (whole * 10 ^ Z.of_nat n_frac + frac)
           / inject_Z (10 ^ Z.of_nat n_frac))%Q in
        let scaled :=
          if (0 <=? e)%Z then (mantissa * inject_Z (10 ^ e))%Q
          else (mantissa / inject_Z (10 ^ (- e)))%Q in
        Some (if negative then (- scaled)%Q else scaled)
    end.

(** [float(v)] *)
Definition py_float (v : pyval) : result Q :=
  match v with
  | PFloat q => Ok q
  | PInt n => Ok (inject_Z n)
  | PBool b => Ok (if b then 1%Q else 0%Q)
  | PStr s =>
      match float_of_str s with
      | Some q => Ok q
      | None =>
          Raise (Exn "ValueError"
                     ("could not convert string to float: '" +:+ s +:+ "'"))
      end
  | _ =>
      Raise (Exn "TypeError"
                 ("float() argument must be a string or a real number, not '"
                  +:+ type_name v +:+ "'"))
  end.

(** Line 200: [doc.get('evaluation', {}).get('overall_score', '0')] and
    its [float].  An evaluation that is not a dictionary has no [get]. *)
Definition read_evaluation (d : pydict pyval) : result (option Evaluation) :=
  match dict_get d "evaluation" with
  | None => Ok None
  | Some (PDict ev) =>
      match dict_get ev "overall_score" with
      | None => Ok (Some {| overall_score := None |})
      | Some v =>
          match py_float v with
          | Ok q => Ok (Some {| overall_score := Some q |})
          | Raise e => Raise e
          end
      end
  | Some (PDoc _) => Ok (Some {| overall_score := None |})
  | Some v => Raise (no_attribute v "get")
  end.

(** Lines 208-209: what [len(content)] raises on a member, if anything. *)
Definition content_error (d : pydict pyval) : option exn :=
  let raw := get d "raw_content" in
  let content := if truthy raw then raw else get_or d "content" (PStr "") in
  match py_len content with
  | Raise e => Some e
  | Ok _ => None
  end.

(** A member of a document collection: the document it stands for, and
    what the loop raises when it reaches it (line 209).  A document of the
    record is itself; a dictionary written out key by key is read entry
    by entry, the texts of the record from its strings (a title also from
    a scalar, as the f-string renders it), and an entry of a type the
    record cannot hold (a content that is a container) is left out.
    Anything else has no [get]. *)
Definition as_doc (v : pyval) : result (Document * option exn) :=
  match v with
  | PDoc doc => Ok (doc, None)
  | PDict d =>
      match read_evaluation d with
      | Raise e => Raise e
      | Ok ev =>
          Ok ({| url := text_of (get d "url");
                 title := match dict_get d "title" with
                          | Some t => scalar_text t
                          | None => None
                          end;
                 raw_content := text_of (get d "raw_content");
                 content := text_of (get d "content");
                 query := text_of (get d "query");
                 source := text_of (get d "source");
                 score := match get d "score" with
                          | PFloat q => Some q
                          | PInt n => Some (inject_Z n)
                          | _ => None
                          end;
                 evaluation := ev |},
              content_error d)
      end
  | _ => Raise (no_attribute v "get")
  end.

Fixpoint as_doc_list (l : list pyval)
    : result (list (Document * option exn)) :=
  match l with
  | [] => Ok []
  | v :: rest =>
      match as_doc v, as_doc_list rest with
      | Ok doc, Ok docs => Ok (doc :: docs)
      | Raise e, _ => Raise e
      | _, Raise e => Raise e
      end
  end.

Fixpoint as_doc_dict (d : list (string * pyval))
    : result (pydict (Document * option exn)) :=
  match d with
  | [] => Ok []
  | (k, v) :: rest =>
      match as_doc v, as_doc_dict rest with
      | Ok doc, Ok docs => Ok ((k, doc) :: docs)
      | Raise e, _ => Raise e
      | _, Raise e => Raise e
      end
  end.

(** Lines 206-216 as far as they can raise: the loop takes the ranked
    documents in turn, raises on the first one whose content has no
    length, and is over at the first one that does not fit. *)
Fixpoint first_bad (items : list ((string * Document) * option exn))
    (total_length : Z) : option exn :=
  match items with
  | [] => None
  | (_, Some e) :: _ => Some e
  | ((_, doc), None) :: rest =>
      if (total_length + len (doc_entry doc) <? max_total_length)%Z
      then first_bad rest (total_length + len (doc_entry doc))%Z
      else None
  end.

(** The documents read, once the loop has raised nothing on them. *)
Definition checked (ds : Docs) (errors : list (option exn)) : result Docs :=
  match first_bad
          (sorted (fun x => score_key (fst x)) true
             (combine (items_of ds) errors)) 0%Z with
  | Some e => Raise e
  | None => Ok ds
  end.

(** The entries of a document, as the dictionary holds them. *)
Definition doc_items (doc : Document) : pydict pyval :=
  List.filter
    (fun kv => match snd kv with PNone => false | _ => true end)
    (map (fun k => (k, doc_get doc k))
         [ "url"; "title"; "raw_content"; "content"; "query"; "source";
           "score"; "evaluation" ]).

(** Lines 194-202 on a dictionary: the sort key calls [get] on every
    value in turn. *)
Definition as_docs_dict (d : list (string * pyval)) : result Docs :=
  match as_doc_dict d with
  | Ok members =>
      checked (DocsDict (map (fun m => (fst m, fst (snd m))) members))
              (map (fun m => snd (snd m)) members)
  | Raise e => Raise e
  end.

(** The argument [docs] of [generate_category_briefing] read as a
    collection of documents.  On a list, line 195 calls [get] on every
    member before the sort key of line 200 is taken on the first; a
    string is iterated character by character, and a character has no
    [get]. *)
Definition as_docs (docs : pyval) : result Docs :=
  match docs with
  | PDict d => as_docs_dict d
  | PDoc doc => as_docs_dict (doc_items doc)
  | PList l =>
      match List.find (fun v => negb (is_dict v)) l with
      | Some v => Raise (no_attribute v "get")
      | None =>
          match as_doc_list l with
          | Ok members => checked (DocsList (map fst members)) (map snd members)
          | Raise e => Raise e
          end
      end
  | PStr EmptyString => Ok (DocsList [])
  | PStr _ => Raise (no_attribute docs "get")
  | _ =>
      Raise (Exn "TypeError"
                 ("'" +:+ type_name docs +:+ "' object is not iterable"))
  end.

(** A typed collection as the Python value it stands for. *)
Definition of_docs (ds : Docs) : pyval :=
  match ds with
  | DocsDict d => PDict (map (fun kv => (fst kv, PDoc (snd kv))) d)
  | DocsList l => PList (map PDoc l)
  end.

(** One entry of [briefing_tasks]. *)
Record Task := {
  category : string;
  briefing_key : string;
  data_field : string;
  curated_data : pyval
}.

(** The store of [create_briefings]: the research state and the local
    variables of the function, the events and requests sent, and the
    scheduler's view of the [process_briefing] coroutines handed to
    [asyncio.gather]. *)
Record Fanout := {
  state : pydict pyval;
  context : pydict pyval;
  briefings : pydict pyval;
  outbox : Outbox;
  semaphore : nat;                  (* value of [briefing_semaphore] *)
  waiting : list Task;              (* not yet past [async with] *)
  in_flight : list (Task * string); (* awaiting the model, with the prompt *)
  raised : list exn;                (* coroutines ended by an exception *)
  results : list (pydict pyval);    (* values of the finished coroutines *)
  calls : list string               (* categories handed to
                                       [generate_category_briefing] *)
}.

Definition set_state (st : pydict pyval) (f : Fanout) : Fanout :=
  {| state := st; context := context f; briefings := briefings f;
     outbox := outbox f; semaphore := semaphore f; waiting := waiting f;
     in_flight := in_flight f; raised := raised f; results := results f;
     calls := calls f |}.

Definition set_outbox (o : Outbox) (f : Fanout) : Fanout :=
  {| state := state f; context := context f; briefings := briefings f;
     outbox := o; semaphore := semaphore f; waiting := waiting f;
     in_flight := in_flight f; raised := raised f; results := results f;
     calls := calls f |}.

(** Run a computation on the outbox inside the larger store. *)
Definition on_outbox {A} (m : M Outbox A) : M Fanout A :=
  fun f => let (o, r) := m (outbox f) in (set_outbox o f, r).

(** Lines 292-298. *)
Definition categories : pydict (string * string) :=
  [ ("financial_data", ("financial", "financial_briefing"));
    ("news_data", ("news", "news_briefing"));
    ("industry_data", ("industry", "industry_briefing"));
    ("company_data", ("company", "company_briefing"));
    ("auditor_data", ("auditor", "auditor_briefing")) ].

Definition curated_key (data_field : string) : string :=
  "curated_" +:+ data_field.

Section Briefing.
(** The category templates (lines 55-191), instantiated with company,
    industry and location, and the fallback template of line 219: their
    wording is left open. *)
Variable prompts : pyval -> pyval -> pyval -> pydict string.
Variable default_prompt : string.

(** [self.openai_client.chat.completions.create]: the model's answer to
    a prompt, either an exception or the [message.content] of each entry
    of [response.choices] ([None] when the message has no text). *)
Variable chat_completions_create : string -> result (list (option string)).

(** Lines 36-225: the start event and the prompt. *)
Definition briefing_prompt (docs : pyval) (category : string)
    (context : pydict pyval) : M Outbox string :=
  let company := get_or context "company" (PStr "Unknown") in
  let industry := get_or context "industry" (PStr "Unknown") in
  let hq_location := get_or context "hq_location" (PStr "Unknown") in
  total_docs <- lift (py_len docs) ;;
  let websocket_manager := get context "websocket_manager" in
  when (truthy websocket_manager)
    (let job_id := get context "job_id" in
     when (truthy job_id)
       (publish job_id "briefing_start"
          ("Generating " +:+ category +:+ " briefing")
          (PDict [("step", PStr "Briefing"); ("category", PStr category);
                  ("total_docs", PInt (Z.of_nat total_docs))])
          PNone)) ;;;
  ds <- lift (as_docs docs) ;;
  let doc_texts := doc_texts_of ds in
  ret (default default_prompt
         (dict_get (prompts company industry hq_location) category)
       +:+ nl +:+ nl
       +:+ "Analyze the following documents and extract key information. Provide only the briefing, no explanations or commentary:"
       +:+ nl +:+ nl
       +:+ separator +:+ str_join separator doc_texts +:+ separator
       +:+ nl +:+ nl).

(** Line 229: the awaited call; the request is recorded. *)
Definition await_completion (prompt : string)
    : M Outbox (result (list (option string))) :=
  modify (fun o => {| sent := sent o; requests := requests o ++ [prompt] |}) ;;;
  ret (chat_completions_create prompt).

(** [response.choices[0].message.content.strip()] *)
Definition first_content (choices : list (option string)) : result string :=
  match choices with
  | [] => Raise (Exn "IndexError" "list index out of range")
  | None :: _ =>
      Raise (Exn "AttributeError"
                 "'NoneType' object has no attribute 'strip'")
  | Some c :: _ => Ok (strip c)
  end.

(** Lines 227-265: the [try] block once the call has answered
    [response], and its handler. *)
Definition briefing_completion (category : string) (context : pydict pyval)
    (response : result (list (option string))) : M Outbox BriefingResult :=
  try_except
    (choices <- lift response ;;
     content <- lift (first_content choices) ;;
     if String.eqb content "" then ret {| briefing_content := "" |}
     else
       let websocket_manager := get context "websocket_manager" in
       when (truthy websocket_manager)
         (let job_id := get context "job_id" in
          when (truthy job_id)
            (publish job_id "briefing_complete"
               ("Completed " +:+ category +:+ " briefing")
               (PDict [("step", PStr "Briefing"); ("category", PStr category)])
               PNone)) ;;;
       ret {| briefing_content := content |})
    (fun e => ret {| briefing_content := "" |}).

(** Lines 32-265. *)
Definition generate_category_briefing (docs : pyval) (category : string)
    (context : pydict pyval) : M Outbox BriefingResult :=
  prompt <- briefing_prompt docs category context ;;
  response <- await_completion prompt ;;
  briefing_completion category context response.

(** Lines 304-320: one turn of the loop over [categories]. *)
Definition plan_category (entry : string * (string * string))
    : M Fanout unit :=
  let data_field := fst entry in
  let cat := fst (snd entry) in
  let briefing_key := snd (snd entry) in
  fun f =>
    let curated_data := get_or (state f) (curated_key data_field) (PDict []) in
    if truthy curated_data then
      match py_len curated_data with
      | Raise e => (f, Raise e)
      | Ok _ =>
          ({| state := state f; context := context f;
              briefings := briefings f; outbox := outbox f;
              semaphore := semaphore f;
              waiting := waiting f ++
                [ {| category := cat; briefing_key := briefing_key;
                     data_field := data_field;
                     curated_data := curated_data |} ];
              in_flight := in_flight f; raised := raised f;
              results := results f; calls := calls f |}, Ok tt)
      end
    else (set_state (dict_set (state f) briefing_key (PStr "")) f, Ok tt).

(** Lines 269-325, up to the creation of the semaphore. *)
Definition plan_briefings : M Fanout unit :=
  websocket_manager <- gets (fun f => get (state f) "websocket_manager") ;;
  job_id <- gets (fun f => get (state f) "job_id") ;;
  when (truthy websocket_manager && truthy job_id)
    (on_outbox (publish job_id "processing" "Starting research briefings"
                  (PDict [("step", PStr "Briefing")]) PNone)) ;;;
  modify (fun f =>
    {| state := state f;
       context :=
         [ ("company", get_or (state f) "company" (PStr "Unknown Company"));
           ("industry", get_or (state f) "industry" (PStr "Unknown"));
           ("hq_location", get_or (state f) "hq_location" (PStr "Unknown"));
           ("websocket_manager", websocket_manager);
           ("job_id", job_id) ];
       briefings := []; outbox := outbox f; semaphore := semaphore f;
       waiting := []; in_flight := in_flight f; raised := raised f;
       results := results f; calls := calls f |}) ;;;
  for_each categories plan_category ;;;
  modify (fun f =>
    {| state := state f; context := context f; briefings := briefings f;
       outbox := outbox f;
       semaphore := match waiting f with [] => 0 | _ => 2 end;
       waiting := waiting f; in_flight := in_flight f; raised := raised f;
       results := results f; calls := calls f |}).

(** [create_briefings] is entered with the research state and nothing
    scheduled. *)
Definition enter (st : pydict pyval) (o : Outbox) : Fanout :=
  {| state := st; context := []; briefings := []; outbox := o;
     semaphore := 0; waiting := []; in_flight := []; raised := [];
     results := []; calls := [] |}.

(** Lines 336-348: what [process_briefing] does with the briefing. *)
Definition record_briefing (task : Task) (res : BriefingResult)
    (f : Fanout) : Fanout :=
  let c := briefing_content res in
  {| state := if String.eqb c ""
              then dict_set (state f) (briefing_key task) (PStr "")
              else dict_set (state f) (briefing_key task) (PStr c);
     context := context f;
     briefings := if String.eqb c "" then briefings f
                  else dict_set (briefings f) (category task) (PStr c);
     outbox := outbox f; semaphore := semaphore f; waiting := waiting f;
     in_flight := in_flight f; raised := raised f;
     results := results f ++
       [ [ ("category", PStr (category task));
           ("success", PBool (negb (String.eqb c "")));
           ("length", PInt (if String.eqb c "" then 0 else len c)) ] ];
     calls := calls f |}.

(** A waiting coroutine enters [async with briefing_semaphore] and runs
    [generate_category_briefing] up to the awaited model call; if that
    part raises, the semaphore is released again at once. *)
Definition acquire (i : nat) (f : Fanout) : option Fanout :=
  match semaphore f, waiting f !! i with
  | S n, Some task =>
      let (o, r) := briefing_prompt (curated_data task) (category task)
                      (context f) (outbox f) in
      Some
        match r with
        | Ok prompt =>
            {| state := state f; context := context f;
               briefings := briefings f;
               outbox := {| sent := sent o;
                            requests := requests o ++ [prompt] |};
               semaphore := n; waiting := delete i (waiting f);
               in_flight := in_flight f ++ [(task, prompt)];
               raised := raised f; results := results f;
               calls := calls f ++ [category task] |}
        | Raise e =>
            {| state := state f; context := context f;
               briefings := briefings f; outbox := o;
               semaphore := S n; waiting := delete i (waiting f);
               in_flight := in_flight f; raised := raised f ++ [e];
               results := results f;
               calls := calls f ++ [category task] |}
        end
  | _, _ => None
  end.

(** The model answers a coroutine in flight: the rest of
    [generate_category_briefing] and of [process_briefing] runs and the
    semaphore is released. *)
Definition complete (i : nat) (f : Fanout) : option Fanout :=
  match in_flight f !! i with
  | Some (task, prompt) =>
      let (o, r) := briefing_completion (category task) (context f)
                      (chat_completions_create prompt) (outbox f) in
      let f' :=
        {| state := state f; context := context f; briefings := briefings f;
           outbox := o; semaphore := S (semaphore f); waiting := waiting f;
           in_flight := delete i (in_flight f); raised := raised f;
           results := results f; calls := calls f |} in
      Some
        match r with
        | Ok res => record_briefing task res f'
        | Raise e =>
            {| state := state f'; context := context f';
               briefings := briefings f'; outbox := outbox f';
               semaphore := semaphore f'; waiting := waiting f';
               in_flight := in_flight f'; raised := raised f' ++ [e];
               results := results f'; calls := calls f' |}
        end
  | None => None
  end.

(** The event loop picks any coroutine that can move. *)
Inductive step (f : Fanout) : Fanout -> Prop :=
| step_acquire i f' : acquire i f = Some f' -> step f f'
| step_complete i f' : complete i f = Some f' -> step f f'.

(** [asyncio.gather] has returned: no coroutine is left. *)
Definition finished (f : Fanout) : bool :=
  match waiting f, in_flight f with
  | [], [] => true
  | _, _ => false
  end.

(** Lines 351-362: the value of [create_briefings] once the fan-out is
    over; an exception of a coroutine is raised by [gather]. *)
Definition finish_briefings (f : Fanout) : result (pydict pyval) :=
  match raised f with
  | e :: _ => Raise e
  | [] => Ok (dict_set (state f) "briefings" (PDict (briefings f)))
  end.

(** [create_briefings(state)] can end in store [f] with outcome [out]. *)
Definition create_briefings (st : pydict pyval) (o : Outbox)
    (f : Fanout) (out : result (pydict pyval)) : Prop :=
  match plan_briefings (enter st o) with
  | (f0, Raise e) => f = f0 /\ out = Raise e
  | (f0, Ok _) => rtc step f0 f /\ finished f = true /\ out = finish_briefings f
  end.

(** A scheduler that admits in list order whenever a slot is free and
    otherwise completes the oldest coroutine in flight. *)
Definition fifo_step (f : Fanout) : option Fanout :=
  match acquire 0 f with
  | Some f' => Some f'
  | None => complete 0 f
  end.

Fixpoint drain (fuel : nat) (f : Fanout) : Fanout :=
  match fuel with
  | O => f
  | S fuel' =>
      match fifo_step f with
      | Some f' => drain fuel' f'
      | None => f
      end
  end.

(** One run of [create_briefings] under that scheduler. *)
Definition create_briefings_fifo (st : pydict pyval) (o : Outbox)
    : Fanout * result (pydict pyval) :=
  match plan_briefings (enter st o) with
  | (f0, Raise e) => (f0, Raise e)
  | (f0, Ok _) =>
      let f := drain (2 * length (waiting f0)) f0 in
      (f, finish_briefings f)
  end.
End Briefing.

(** ** E-commerce auditor ([backend/nodes/researchers/auditor.py]) *)

(** What a gatherer works on: the shared research state and the events
    published. *)
Record Gathering := {
  research_state : pydict pyval;
  published : list StatusEvent
}.

Definition announce (job_id : pyval) (status message : string)
    (res err : pyval) : M Gathering unit :=
  send_status_update published
    (fun l g => {| research_state := research_state g; published := l |})
    job_id status message res err.

(** [state[k] = v] *)
Definition assign (k : string) (v : pyval) : M Gathering unit :=
  modify (fun g => {| research_state := dict_set (research_state g) k v;
                      published := published g |}).

(** [AIMessage(content=c)] *)
Definition AIMessage (c : string) : pyval :=
  PDict [("type", PStr "ai"); ("content", PStr c)].

(** [messages.append(m)] *)
Definition append (messages m : pyval) : result pyval :=
  match messages with
  | PList l => Ok (PList (l ++ [m]))
  | _ => Raise (no_attribute messages "append")
  end.

(** [doc['query'] = query] *)
Definition set_query (doc : Document) (q : string) : Document :=
  {| url := url doc; title := title doc; raw_content := raw_content doc;
     content := content doc; query := Some q; source := source doc;
     score := score doc; evaluation := evaluation doc |}.

(** Lines 73-75: the documents of one query merged into the category's
    map. *)
Definition merge_documents (q : string) (documents : pydict Document)
    (auditor_data : pydict Document) : pydict Document :=
  fold_left (fun acc ud => dict_set acc (fst ud) (set_query (snd ud) q))
            documents auditor_data.

Definition documents_value (d : pydict Document) : pyval :=
  of_docs (DocsDict d).

Section Auditor.
Variable repr : pyval -> string.

(** [BaseResearcher.generate_queries(state, prompt)] and
    [BaseResearcher.search_documents(state, [query])], which are not part
    of the sources: the outcome of query planning on a state, and of the
    [n]-th search, made for [query]; a search returns a fresh map from
    URL to document. *)
Variable generate_queries : pydict pyval -> result (list string).
Variable search_documents : nat -> string -> result (pydict Document).

Definition analyst_type : string := "ecommerce_auditor".

(** Lines 56-68: the document seeded from the site scrape.  The URL is
    the key of the entry and the document's own [url]; the keys of the
    map are strings, so a URL that is not one ([None], when the state
    holds no URL for the company) is keyed by its rendering. *)
Definition seed_documents (st : pydict pyval) (company : pyval)
    : pydict Document :=
  let site_scrape := get st "site_scrape" in
  if truthy site_scrape then
    let company_url := get_or st "company_url" (PStr "company-website") in
    let field k :=
      match site_scrape with
      | PDict d => get d k
      | PDoc doc => doc_get doc k
      | _ => PNone
      end in
    let raw := if is_dict site_scrape then field "raw_content"
               else site_scrape in
    let ttl := if is_dict site_scrape then field "title"
               else get_or st "company" (PStr "Unknown Company") in
    [ (py_str repr company_url,
       {| url := text_of company_url;
          title := text_of (py_or ttl
                     (get_or st "company" (PStr "Unknown Company")));
          raw_content := text_of (py_or raw (PStr ""));
          content := None;
          query := Some ("E-commerce audit info for "
                         +:+ py_str repr company);
          source := Some "site_scrape";
          score := Some 1%Q;
          evaluation := None |}) ]
  else [].

(** Lines 71-75. *)
Fixpoint search_all (queries : list (nat * string))
    (auditor_data : pydict Document) : result (pydict Document) :=
  match queries with
  | [] => Ok auditor_data
  | (n, q) :: rest =>
      match search_documents n q with
      | Raise e => Raise e
      | Ok documents => search_all rest (merge_documents q documents auditor_data)
      end
  end.

Definition queries_value (queries : list string) : pyval :=
  PList (map PStr queries).

(** Lines 23-112: the body of the [try] block. *)
Definition gather (company websocket_manager job_id : pyval)
    : M Gathering (pydict pyval) :=
  st <- gets research_state ;;
  queries <- lift (generate_queries st) ;;
  let subqueries_msg :=
    "🔍 Subqueries for e-commerce audit:" +:+ nl
    +:+ str_join nl (map (fun q => "• " +:+ q) queries) in
  messages <- lift (append (get_or st "messages" (PList []))
                           (AIMessage subqueries_msg)) ;;
  assign "messages" messages ;;;
  when (truthy websocket_manager && truthy job_id)
    (announce job_id "processing" "E-commerce audit queries generated"
       (PDict [("step", PStr "E-commerce Auditor");
               ("analyst_type", PStr "E-commerce Auditor");
               ("queries", queries_value queries)]) PNone) ;;;
  st <- gets research_state ;;
  let seeded := seed_documents st company in
  auditor_data <- lift (search_all (enumerate queries) seeded) ;;
  let found := str_of_nat (length auditor_data) in
  let completion_msg :=
    "Completed e-commerce audit discovery with " +:+ found
    +:+ " documents" in
  when (truthy websocket_manager && truthy job_id)
    (announce job_id "processing"
       ("Used Tavily Search to find " +:+ found +:+ " documents")
       (PDict [("step", PStr "Searching");
               ("analyst_type", PStr "E-commerce Auditor");
               ("queries", queries_value queries)]) PNone) ;;;
  messages <- lift (append messages (AIMessage completion_msg)) ;;
  assign "messages" messages ;;;
  assign "auditor_data" (documents_value auditor_data) ;;;
  when (truthy websocket_manager && truthy job_id)
    (announce job_id "processing" completion_msg
       (PDict [("analyst_type", PStr "E-commerce Auditor");
               ("queries", queries_value queries);
               ("documents_found",
                PInt (Z.of_nat (length auditor_data)))]) PNone) ;;;
  ret [ ("message", PStr completion_msg);
        ("auditor_data", documents_value auditor_data);
        ("analyst_type", PStr analyst_type);
        ("queries", queries_value queries) ].

(** The event of the handler (lines 117-125). *)
Definition failure_event (job_id : pyval) (e : exn) : StatusEvent :=
  {| ev_job_id := job_id; ev_status := "error";
     ev_message := "E-commerce audit failed: " +:+ exn_str e;
     ev_result := PDict [("analyst_type", PStr "E-commerce Auditor");
                         ("error", PStr (exn_str e))];
     ev_error := PNone |}.

(** Lines 114-126: the handler. *)
Definition report_failure (websocket_manager job_id : pyval) (e : exn)
    : M Gathering (pydict pyval) :=
  let error_msg := "E-commerce audit failed: " +:+ exn_str e in
  when (truthy websocket_manager && truthy job_id)
    (announce job_id "error" error_msg
       (PDict [("analyst_type", PStr "E-commerce Auditor");
               ("error", PStr (exn_str e))]) PNone) ;;;
  raise e.

(** Lines 17-126. *)
Definition analyze : M Gathering (pydict pyval) :=
  company <- gets (fun g => get_or (research_state g) "company"
                              (PStr "Unknown Company")) ;;
  websocket_manager <- gets (fun g => get (research_state g) "websocket_manager") ;;
  job_id <- gets (fun g => get (research_state g) "job_id") ;;
  try_except (gather company websocket_manager job_id)
             (report_failure websocket_manager job_id).
End Auditor.

(** ** Orchestrator and Q&A ([application.py]) *)

Record ResearchRequest := {
  company : string;
  company_url : option string;
  industry : option string;
  hq_location : option string
}.

Record ChatRequest := { question : string }.

(** The calls made to the optional persistence service. *)
Inductive MongoCall :=
| create_job (job_id : string) (data : ResearchRequest)
| update_job (job_id : string) (status : string) (error : option string)
| store_report (job_id : string) (report_data : pydict pyval).

(** The module-level state of the application: the [job_status] registry,
    the single-slot [LATEST_REPORT], and what has been handed to the
    persistence service and to the broadcaster. *)
Record World := {
  job_status : gmap string (pydict pyval);
  LATEST_REPORT : option (pydict pyval);
  mongo_calls : list MongoCall;
  delivered : list StatusEvent
}.

(** The state of a freshly started process (lines 47-58). *)
Definition startup : World :=
  {| job_status := ∅; LATEST_REPORT := None; mongo_calls := [];
     delivered := [] |}.

(** [manager.send_status_update(...)] *)
Definition deliver (job_id : pyval) (status message : string)
    (res err : pyval) : M World unit :=
  send_status_update delivered
    (fun l w => {| job_status := job_status w;
                   LATEST_REPORT := LATEST_REPORT w;
                   mongo_calls := mongo_calls w; delivered := l |})
    job_id status message res err.

(** What one iteration of [graph.run] does: the snapshots it yields, the
    events its nodes publish through the manager, and the exception that
    ends it, if any. *)
Record GraphRun := {
  snapshots : list (pydict pyval);
  graph_events : list StatusEvent;
  graph_exn : option exn
}.

(** Lines 145-147: [state = {}], then [state.update(s)] for every snapshot. *)
Definition accumulate (snaps : list (pydict pyval)) : pydict pyval :=
  fold_left dict_update snaps [].

(** Line 150:
    [state.get('report') or (state.get('editor') or {}).get('report')] *)
Definition find_report (st : pydict pyval) : result pyval :=
  let report := get st "report" in
  if truthy report then Ok report
  else
    match py_or (get st "editor") (PDict []) with
    | PDict editor => Ok (get editor "report")
    | PDoc doc => Ok (doc_get doc "report")
    | editor => Raise (no_attribute editor "get")
    end.

(** The factory of the [defaultdict] (lines 47-55). *)
Definition default_status (now : string) : pydict pyval :=
  [ ("status", PStr "pending"); ("result", PNone); ("error", PNone);
    ("debug_info", PList []); ("company", PNone); ("report", PNone);
    ("last_update", PStr now) ].

(** [job_status[job_id]]: a missing entry is created on access. *)
Definition job_entry (now : string) (job_id : string)
    (js : gmap string (pydict pyval)) : pydict pyval :=
  match js !! job_id with
  | Some entry => entry
  | None => default_status now
  end.

Section Application.
Variable repr : pyval -> string.

(** [datetime.now().isoformat()] *)
Variable now : string.

(** The persistence service, when [MONGODB_URI] is set: what a call to
    it raises, if anything ([backend/services/mongodb.py] is not part of
    the sources). *)
Variable mongodb : option (MongoCall -> option exn).

(** [Graph(...).run(thread={})] for a job ([backend/graph.py] is not part
    of the sources). *)
Variable graph_run : string -> ResearchRequest -> GraphRun.

(** [if mongodb: mongodb.call(...)] *)
Definition mongo (c : MongoCall) : M World unit :=
  match mongodb with
  | None => ret tt
  | Some fault =>
      modify (fun w => {| job_status := job_status w;
                          LATEST_REPORT := LATEST_REPORT w;
                          mongo_calls := mongo_calls w ++ [c];
                          delivered := delivered w |}) ;;;
      match fault c with
      | Some e => raise e
      | None => ret tt
      end
  end.

(** Lines 136-147: the drive loop. *)
Definition drive (job_id : string) (data : ResearchRequest)
    : M World (pydict pyval) :=
  let run := graph_run job_id data in
  modify (fun w => {| job_status := job_status w;
                      LATEST_REPORT := LATEST_REPORT w;
                      mongo_calls := mongo_calls w;
                      delivered := delivered w ++ graph_events run |}) ;;;
  match graph_exn run with
  | Some e => raise e
  | None => ret (accumulate (snapshots run))
  end.

(** Lines 153-158. *)
Definition mark_completed (job_id : string) (data : ResearchRequest)
    (report_content : pyval) : M World unit :=
  modify (fun w =>
    {| job_status :=
         <[ job_id :=
              dict_update (job_entry now job_id (job_status w))
                [ ("status", PStr "completed");
                  ("report", report_content);
                  ("company", PStr (company data));
                  ("last_update", PStr now) ] ]> (job_status w);
       LATEST_REPORT := LATEST_REPORT w;
       mongo_calls := mongo_calls w; delivered := delivered w |}).

(** Lines 160-164. *)
Definition set_latest_report (data : ResearchRequest)
    (report_content : pyval) : M World unit :=
  modify (fun w =>
    {| job_status := job_status w;
       LATEST_REPORT := Some [ ("company", PStr (company data));
                               ("report", report_content) ];
       mongo_calls := mongo_calls w; delivered := delivered w |}).

(** Lines 128-202.  The pause of line 132 and the log lines have no effect
    on the store; a log line is kept where evaluating it can raise
    ([len(report_content)]). *)
Definition process_research (job_id : string) (data : ResearchRequest)
    : M World unit :=
  try_except
    (mongo (create_job job_id data) ;;;
     deliver (PStr job_id) "processing" "Starting research" PNone PNone ;;;
     st <- drive job_id data ;;
     report_content <- lift (find_report st) ;;
     if truthy report_content then
       _ <- lift (py_len report_content) ;;
       mark_completed job_id data report_content ;;;
       set_latest_report data report_content ;;;
       mongo (update_job job_id "completed" None) ;;;
       mongo (store_report job_id [("report", report_content)]) ;;;
       deliver (PStr job_id) "completed" "Research completed successfully"
         (PDict [("report", report_content);
                 ("company", PStr (company data))])
         PNone
     else
       let error := get st "error" in
       let error_message :=
         if truthy error then "Error: " +:+ py_str repr error
         else "No report found" in
       deliver (PStr job_id) "failed"
         "Research completed but no report was generated"
         PNone (PStr error_message))
    (fun e =>
       deliver (PStr job_id) "failed" ("Research failed: " +:+ exn_str e)
         PNone (PStr (exn_str e)) ;;;
       mongo (update_job job_id "failed" (Some (exn_str e)))).

(** The answer of the Q&A endpoint: an HTTP error, or a streaming
    response driven by the chat messages sent to the model. *)
Inductive Response :=
| HTTPException (status_code : nat) (detail : string)
| StreamingResponse (messages : list (string * string)).

(** Lines 205-262; [azure_openai_client] tells whether the client was
    configured at startup. *)
Definition qa_stream (azure_openai_client : bool) (data : ChatRequest)
    (w : World) : Response :=
  if negb azure_openai_client then
    HTTPException 503 "Q&A not configured: missing Azure OpenAI credentials"
  else
    let question := strip (question data) in
    if String.eqb question "" then HTTPException 400 "Question is required"
    else
      match LATEST_REPORT w with
      | None =>
          HTTPException 400 "No report loaded yet. Run research first."
      | Some latest =>
          if negb (truthy (PDict latest)) || negb (truthy (get latest "report"))
          then HTTPException 400 "No report loaded yet. Run research first."
          else
            let company := get_or latest "company" (PStr "the company") in
            let report_text := get_or latest "report" (PStr "") in
            StreamingResponse
              [ ("system",
                 "You are a helpful assistant. Answer using ONLY the report context provided. If the answer is not clearly supported by the report, say you don't know. Be concise and avoid speculation.");
                ("system",
                 "Report context for " +:+ py_str repr company +:+ ":"
                 +:+ nl +:+ nl +:+ py_str repr report_text);
                ("user", question) ]
      end.
End Application.

(** * Properties *)

(** ** Strings *)

Lemma length_append (s t : string) :
  String.length (s +:+ t) = String.length s + String.length t.
Proof. induction s as [| c s IH]; simpl; [reflexivity | now rewrite IH]. Qed.

Lemma len_append (s t : string) : len (s +:+ t) = (len s + len t)%Z.
Proof. unfold len. rewrite length_append. lia. Qed.

Lemma len_nonneg (s : string) : (0 <= len s)%Z.
Proof. unfold len. lia. Qed.

Lemma length_str_take (n : nat) (s : string) :
  String.length (str_take n s) = Nat.min n (String.length s).
Proof.
  revert s. induction n as [| n IH]; intros [| c s]; simpl; try reflexivity.
  now rewrite IH.
Qed.

(** A slice is a prefix of the string it is taken from. *)
Lemma str_take_prefix (n : nat) (s : string) :
  exists rest, s = str_take n s +:+ rest.
Proof.
  revert s. induction n as [| n IH]; intros s.
  - exists s. reflexivity.
  - destruct s as [| c s].
    + exists EmptyString. reflexivity.
    + destruct (IH s) as [rest Hrest]. exists rest.
      change (String c s = String c (str_take n s +:+ rest)).
      now rewrite <- Hrest.
Qed.

Lemma lstrip_all_space (s : string) :
  lstrip s = EmptyString <-> all_space s = true.
Proof.
  induction s as [| c s IH]; simpl.
  - tauto.
  - destruct (is_space c); simpl; [exact IH | split; discriminate].
Qed.

Lemma rstrip_all_space (s : string) :
  rstrip s = EmptyString <-> all_space s = true.
Proof.
  induction s as [| c s IH]; simpl.
  - tauto.
  - destruct (rstrip s) eqn:Hr.
    + destruct (is_space c); simpl.
      * split; [intros _; now apply IH | reflexivity].
      * split; discriminate.
    + split; [discriminate |].
      rewrite andb_true_iff. intros [_ Hs]. apply IH in Hs. discriminate.
Qed.

Lemma lstrip_head (s : string) :
  match lstrip s with
  | EmptyString => True
  | String c _ => is_space c = false
  end.
Proof.
  induction s as [| c s IH]; simpl; [exact I |].
  destruct (is_space c) eqn:Hc; [exact IH | exact Hc].
Qed.

(** [s.strip()] is empty exactly for a string of white space. *)
Lemma strip_empty_iff (s : string) :
  strip s = EmptyString <-> all_space s = true.
Proof.
  unfold strip. rewrite rstrip_all_space. split.
  - intros H. apply lstrip_all_space.
    pose proof (lstrip_head s) as Hh.
    destruct (lstrip s) as [| c t]; [reflexivity |].
    simpl in H. rewrite Hh in H. discriminate.
  - intros H. apply lstrip_all_space in H. now rewrite H.
Qed.

(** ** Dictionaries *)

Lemma dict_get_set_eq {V} (d : pydict V) (k : string) (v : V) :
  dict_get (dict_set d k v) k = Some v.
Proof.
  induction d as [| [k' v'] d IH]; simpl.
  - now rewrite String.eqb_refl.
  - destruct (String.eqb k' k) eqn:E; simpl.
    + now rewrite String.eqb_refl.
    + now rewrite E.
Qed.

Lemma dict_get_set_ne {V} (d : pydict V) (k k' : string) (v : V) :
  k <> k' -> dict_get (dict_set d k v) k' = dict_get d k'.
Proof.
  intros Hne. induction d as [| [k0 v0] d IH]; simpl.
  - destruct (String.eqb k k') eqn:E; [| reflexivity].
    apply String.eqb_eq in E. contradiction.
  - destruct (String.eqb k0 k) eqn:E; simpl.
    + apply String.eqb_eq in E. subst k0.
      destruct (String.eqb k k') eqn:E'; [| reflexivity].
      apply String.eqb_eq in E'. contradiction.
    + now rewrite IH.
Qed.

Lemma dict_keys_set {V} (d : pydict V) (k : string) (v : V) :
  dict_keys (dict_set d k v) =
  if existsb (String.eqb k) (dict_keys d) then dict_keys d
  else dict_keys d ++ [k].
Proof.
  unfold dict_keys.
  induction d as [| [k' v'] d IH]; simpl; [reflexivity |].
  rewrite (String.eqb_sym k k').
  destruct (String.eqb k' k) eqn:E; simpl.
  - apply String.eqb_eq in E. now subst.
  - rewrite IH. now destruct (existsb (String.eqb k) (map fst d)).
Qed.

Lemma existsb_eqb_In (k : string) (l : list string) :
  existsb (String.eqb k) l = true <-> In k l.
Proof.
  rewrite existsb_exists. split.
  - intros [x [Hin Heq]]. apply String.eqb_eq in Heq. now subst.
  - intros Hin. exists k. split; [assumption | apply String.eqb_refl].
Qed.

(** Assignment keeps the keys of a dictionary unique. *)
Lemma dict_set_NoDup {V} (d : pydict V) (k : string) (v : V) :
  NoDup (dict_keys d) -> NoDup (dict_keys (dict_set d k v)).
Proof.
  intros Hnd. rewrite dict_keys_set.
  destruct (existsb (String.eqb k) (dict_keys d)) eqn:E; [assumption |].
  apply NoDup_app; repeat split.
  - assumption.
  - intros x Hx Hin. apply list_elem_of_In in Hin. apply list_elem_of_In in Hx.
    destruct Hin as [<- | []].
    apply existsb_eqb_In in Hx. congruence.
  - apply NoDup_cons. split; [apply not_elem_of_nil | apply NoDup_nil_2].
Qed.

(** ** The built-in stable sort *)

Section SortedFacts.
Context {A : Type} (key : A -> Q).

Definition key_le (x y : A) : Prop := (key x <= key y)%Q.
Definition key_ge (x y : A) : Prop := (key y <= key x)%Q.
Definition has_key (k : Q) (x : A) : bool := Qeq_bool (key x) k.

Lemma insert_asc_perm (x : A) (l : list A) :
  Permutation (x :: l) (insert_asc key x l).
Proof.
  induction l as [| y t IH]; simpl; [reflexivity |].
  destruct (Qle_bool (key x) (key y)); [reflexivity |].
  rewrite perm_swap. now apply perm_skip.
Qed.

Lemma sort_asc_perm (l : list A) : Permutation l (sort_asc key l).
Proof.
  induction l as [| x t IH]; simpl; [reflexivity |].
  rewrite <- insert_asc_perm. now apply perm_skip.
Qed.

Lemma insert_asc_sorted (x : A) (l : list A) :
  StronglySorted key_le l -> StronglySorted key_le (insert_asc key x l).
Proof.
  induction 1 as [| y t Hs IH Hall]; simpl.
  - repeat constructor.
  - destruct (Qle_bool (key x) (key y)) eqn:E.
    + apply Qle_bool_iff in E.
      constructor; [now constructor |].
      constructor; [exact E |].
      eapply Forall_impl; [exact Hall |].
      intros z Hz. unfold key_le in *. eapply Qle_trans; eassumption.
    + constructor; [exact IH |].
      eapply Permutation_Forall; [apply insert_asc_perm |].
      constructor; [| exact Hall].
      unfold key_le. apply Qlt_le_weak. apply Qnot_le_lt.
      intros Hle. apply Qle_bool_iff in Hle. congruence.
Qed.

Lemma sort_asc_sorted (l : list A) : StronglySorted key_le (sort_asc key l).
Proof.
  induction l as [| x t IH]; simpl; [constructor |].
  now apply insert_asc_sorted.
Qed.

Lemma StronglySorted_snoc (R : A -> A -> Prop) (l : list A) (x : A) :
  StronglySorted R l -> Forall (fun y => R y x) l ->
  StronglySorted R (l ++ [x]).
Proof.
  induction 1 as [| y t Hs IH Hall]; intros Hx; simpl.
  - repeat constructor.
  - inversion Hx; subst. constructor; [now apply IH |].
    apply Forall_app. split; [assumption | now repeat constructor].
Qed.

Lemma StronglySorted_rev (R : A -> A -> Prop) (l : list A) :
  StronglySorted R l -> StronglySorted (fun x y => R y x) (rev l).
Proof.
  induction 1 as [| y t Hs IH Hall]; simpl; [constructor |].
  apply StronglySorted_snoc; [exact IH |].
  apply Forall_rev. exact Hall.
Qed.

(** Insertion passes only elements of a strictly smaller key, so the
    elements of any one key keep their order. *)
Lemma filter_insert_asc (k : Q) (x : A) (l : list A) :
  List.filter (has_key k) (insert_asc key x l) =
  List.filter (has_key k) (x :: l).
Proof.
  induction l as [| y t IH]; [reflexivity |].
  cbn [insert_asc].
  destruct (Qle_bool (key x) (key y)) eqn:E; [reflexivity |].
  cbn [List.filter] in *. rewrite IH.
  destruct (has_key k x) eqn:Hx, (has_key k y) eqn:Hy; try reflexivity.
  exfalso. unfold has_key in *.
  apply Qeq_bool_iff in Hx, Hy.
  assert (Hle : Qle_bool (key x) (key y) = true).
  { apply Qle_bool_iff. rewrite Hx, Hy. apply Qle_refl. }
  congruence.
Qed.

Lemma sort_asc_stable (k : Q) (l : list A) :
  List.filter (has_key k) (sort_asc key l) = List.filter (has_key k) l.
Proof.
  induction l as [| x t IH]; [reflexivity |].
  cbn [sort_asc fold_right]. fold (sort_asc key t).
  rewrite filter_insert_asc. cbn [List.filter]. now rewrite IH.
Qed.

Lemma sorted_perm (reverse : bool) (l : list A) :
  Permutation l (sorted key reverse l).
Proof.
  unfold sorted. destruct reverse.
  - rewrite <- Permutation_rev, <- sort_asc_perm. apply Permutation_rev.
  - apply sort_asc_perm.
Qed.

Lemma sorted_descending (l : list A) :
  StronglySorted key_ge (sorted key true l).
Proof.
  unfold sorted. apply (StronglySorted_rev key_le). apply sort_asc_sorted.
Qed.

Lemma sorted_stable (reverse : bool) (k : Q) (l : list A) :
  List.filter (has_key k) (sorted key reverse l) = List.filter (has_key k) l.
Proof.
  unfold sorted. destruct reverse.
  - rewrite filter_rev, sort_asc_stable, filter_rev. apply rev_involutive.
  - apply sort_asc_stable.
Qed.
End SortedFacts.

(** ** Ranking of the documents *)

Definition scored (ttl : string) (s : Q) : Document :=
  {| url := None; title := Some ttl; raw_content := None; content := None;
     query := None; source := None; score := None;
     evaluation := Some {| overall_score := Some s |} |}.

(** C3. The briefing synthesizer ranks the documents of a map or of a
    sequence by score, highest first, and stably: the ranked sequence is a
    rearrangement of the normalized items, no item is followed by one of a
    higher score, and for every score the items of that score appear in
    their original order.  In particular three documents scored 0.9, 0.9
    and 0.5 keep their places, and when the 0.5 comes first the two 0.9s
    move ahead of it without changing places with each other. *)
Theorem ranking_is_stable_descending (docs : Docs) :
  Permutation (items_of docs) (sorted_items docs)
  /\ StronglySorted (key_ge score_key) (sorted_items docs)
  /\ (forall k : Q,
        List.filter (has_key score_key k) (sorted_items docs) =
        List.filter (has_key score_key k) (items_of docs))
  /\ (forall a b c : string,
        sorted_items (DocsList [scored a (9 # 10); scored b (9 # 10);
                                scored c (5 # 10)]) =
          [ ("doc_0", scored a (9 # 10)); ("doc_1", scored b (9 # 10));
            ("doc_2", scored c (5 # 10)) ]
        /\ sorted_items (DocsDict [ ("u0", scored c (5 # 10));
                                    ("u1", scored a (9 # 10));
                                    ("u2", scored b (9 # 10)) ]) =
          [ ("u1", scored a (9 # 10)); ("u2", scored b (9 # 10));
            ("u0", scored c (5 # 10)) ]).
Proof.
  unfold sorted_items. repeat split.
  - apply sorted_perm.
  - apply sorted_descending.
  - intros k. apply sorted_stable.
Qed.

(** ** Documents included in the prompt *)

(** The characters taken up by a list of prompt entries. *)
Definition total_len (entries : list string) : Z :=
  fold_right (fun e acc => (len e + acc)%Z) 0%Z entries.

Lemma total_len_app (l1 l2 : list string) :
  total_len (l1 ++ l2) = (total_len l1 + total_len l2)%Z.
Proof. induction l1 as [| e l1 IH]; simpl; [reflexivity | rewrite IH; lia]. Qed.

Lemma total_len_nonneg (l : list string) : (0 <= total_len l)%Z.
Proof.
  induction l as [| e l IH]; simpl; [lia | pose proof (len_nonneg e); lia].
Qed.

(** The loop stops at the first document that does not fit and keeps
    everything before it. *)
Lemma collect_docs_prefix (items : list (string * Document))
    (acc : list string) (total : Z) :
  exists k,
    k <= length items
    /\ collect_docs items acc total =
       acc ++ map doc_entry (firstn k (map snd items))
    /\ (k = 0 \/
        (total + total_len (map doc_entry (firstn k (map snd items)))
         < max_total_length)%Z)
    /\ (forall doc, nth_error (map snd items) k = Some doc ->
        (max_total_length <=
         total + total_len (map doc_entry (firstn k (map snd items)))
         + len (doc_entry doc))%Z).
Proof.
  revert acc total.
  induction items as [| [u doc] rest IH]; intros acc total.
  - exists 0. simpl. rewrite app_nil_r.
    repeat split; [lia | now left | intros d Hd; discriminate].
  - simpl.
    destruct (total + len (doc_entry doc) <? max_total_length)%Z eqn:E.
    + destruct (IH (acc ++ [doc_entry doc]) (total + len (doc_entry doc))%Z)
        as (k & Hk & Heq & Hfit & Hstop).
      exists (S k). simpl. repeat split.
      * lia.
      * rewrite Heq, <- app_assoc. reflexivity.
      * right. apply Z.ltb_lt in E. destruct Hfit as [-> | Hfit].
        -- simpl. lia.
        -- lia.
      * intros d Hd. specialize (Hstop d Hd). lia.
    + exists 0. simpl. rewrite app_nil_r. apply Z.ltb_ge in E.
      repeat split; [lia | now left |].
      intros d Hd. injection Hd as <-. lia.
Qed.

Lemma truncate_short (body : string) :
  (len body <= max_doc_length)%Z -> truncate body = body.
Proof.
  intros H. unfold truncate.
  destruct (max_doc_length <? len body)%Z eqn:E; [| reflexivity].
  apply Z.ltb_lt in E. lia.
Qed.

Lemma truncate_long (body : string) :
  (max_doc_length < len body)%Z ->
  exists head rest,
    body = head +:+ rest /\ len head = max_doc_length
    /\ truncate body = head +:+ truncation_marker.
Proof.
  intros H. unfold truncate.
  destruct (max_doc_length <? len body)%Z eqn:E;
    [| apply Z.ltb_ge in E; lia].
  destruct (str_take_prefix (Z.to_nat max_doc_length) body) as [rest Hrest].
  exists (str_take (Z.to_nat max_doc_length) body), rest.
  repeat split; [exact Hrest |].
  unfold len in *. rewrite length_str_take. unfold max_doc_length in *. lia.
Qed.

(** C4. The documents of the prompt are a prefix of the ranked sequence,
    each as one whole entry: a body longer than 8000 characters is cut to
    its first 8000 characters followed by the truncation marker, a shorter
    one is kept as it is; entries are added in ranked order while the
    running total stays below 120000 characters, and the first document
    whose entry would bring the total to 120000 or more ends the loop, so
    that it and every document ranked after it are left out. *)
Theorem prompt_documents_are_a_ranked_prefix (docs : Docs) :
  let ranked := map snd (sorted_items docs) in
  exists k,
    k <= length ranked
    /\ doc_texts_of docs = map doc_entry (firstn k ranked)
    /\ (total_len (doc_texts_of docs) < 120000)%Z
    /\ (forall doc, nth_error ranked k = Some doc ->
        (120000 <= total_len (doc_texts_of docs) + len (doc_entry doc))%Z)
    /\ ((120000 <= total_len (map doc_entry ranked))%Z -> k < length ranked)
    /\ (forall doc,
        doc_entry doc =
          "Title: " +:+ default "" (title doc) +:+ nl +:+ nl +:+ "Content: "
          +:+ truncate (doc_content doc)
        /\ ((len (doc_content doc) <= 8000)%Z ->
            truncate (doc_content doc) = doc_content doc)
        /\ ((8000 < len (doc_content doc))%Z ->
            exists head rest,
              doc_content doc = head +:+ rest /\ len head = 8000%Z
              /\ truncate (doc_content doc) =
                 head +:+ "... [content truncated]")).
Proof.
  intros ranked. unfold doc_texts_of.
  destruct (collect_docs_prefix (sorted_items docs) [] 0%Z)
    as (k & Hk & Heq & Hfit & Hstop).
  exists k. fold ranked in Heq, Hfit, Hstop.
  simpl in Heq. rewrite Heq.
  repeat split.
  - unfold ranked. rewrite length_map. exact Hk.
  - destruct Hfit as [-> | Hfit]; [reflexivity | exact Hfit].
  - intros doc Hdoc. specialize (Hstop doc Hdoc). exact Hstop.
  - intros Hall. destruct (Nat.lt_ge_cases k (length ranked)) as [Hlt | Hge];
      [exact Hlt | exfalso].
    rewrite firstn_all2 in Hfit by exact Hge.
    destruct Hfit as [-> | Hfit]; [| unfold max_total_length in Hfit; lia].
    destruct ranked; [simpl in Hall; lia | simpl in Hge; lia].
  - apply truncate_short.
  - apply truncate_long.
Qed.

(** ** The briefing of one category *)

Lemma as_doc_dict_map (d : pydict Document) :
  as_doc_dict (map (fun kv => (fst kv, PDoc (snd kv))) d)
  = Ok (map (fun kv => (fst kv, (snd kv, None))) d).
Proof.
  induction d as [| [k doc] d IH]; simpl; [reflexivity | now rewrite IH].
Qed.

Lemma as_doc_list_map (l : list Document) :
  as_doc_list (map PDoc l) = Ok (map (fun doc => (doc, None)) l).
Proof. induction l as [| doc l IH]; simpl; [reflexivity | now rewrite IH]. Qed.

Lemma first_bad_clean (items : list ((string * Document) * option exn))
    (total : Z) :
  Forall (fun x => snd x = None) items -> first_bad items total = None.
Proof.
  intros H. revert total.
  induction H as [| [[u doc] e] items He _ IH]; intros total; simpl;
    [reflexivity |].
  simpl in He. subst e.
  destruct (_ <? _)%Z; [apply IH | reflexivity].
Qed.

(** Documents on which the loop raises nothing pass the check. *)
Lemma checked_clean (ds : Docs) (errors : list (option exn)) :
  Forall (fun e => e = None) errors -> checked ds errors = Ok ds.
Proof.
  intros H. unfold checked. rewrite first_bad_clean; [reflexivity |].
  eapply Permutation_Forall; [apply sorted_perm |].
  apply List.Forall_forall. intros [x e] Hin. simpl.
  apply in_combine_r in Hin.
  exact (proj1 (List.Forall_forall _ _) H e Hin).
Qed.

Lemma as_docs_of_docs (ds : Docs) : as_docs (of_docs ds) = Ok ds.
Proof.
  destruct ds as [d | l]; simpl.
  - unfold as_docs_dict. rewrite as_doc_dict_map, !map_map. simpl.
    rewrite checked_clean.
    + f_equal. f_equal. rewrite <- (map_id d) at 2.
      apply map_ext. now intros [k doc].
    + apply List.Forall_forall. intros e He.
      apply in_map_iff in He as (x & <- & _). reflexivity.
  - assert (Hdicts : List.find (fun v => negb (is_dict v)) (map PDoc l) = None).
    { induction l as [| doc l IH]; simpl; [reflexivity | exact IH]. }
    rewrite Hdicts, as_doc_list_map, !map_map. simpl.
    rewrite checked_clean.
    + f_equal. f_equal. apply map_id.
    + apply List.Forall_forall. intros e He.
      apply in_map_iff in He as (x & <- & _). reflexivity.
Qed.

(** The number of documents of a collection. *)
Definition docs_len (ds : Docs) : nat :=
  match ds with DocsDict d => length d | DocsList l => length l end.

Lemma py_len_of_docs (ds : Docs) : py_len (of_docs ds) = Ok (docs_len ds).
Proof. destruct ds; simpl; now rewrite length_map. Qed.

(** Unfolding of the monad's combinators. *)
Ltac run_monad :=
  unfold bind, ret, lift, when, modify, gets, raise, try_except, publish,
    send_status_update in *;
  cbn beta iota in *.

Section BriefingFacts.
Variable prompts : pyval -> pyval -> pyval -> pydict string.
Variable default_prompt : string.
Variable chat_completions_create : string -> result (list (option string)).

(** On a collection of documents the first part of the function reaches
    the model call; it sends no request itself. *)
Lemma briefing_prompt_ok (docs : Docs) (category : string)
    (context : pydict pyval) (o : Outbox) :
  exists o1 prompt,
    briefing_prompt prompts default_prompt (of_docs docs) category context o
      = (o1, Ok prompt)
    /\ requests o1 = requests o.
Proof.
  unfold briefing_prompt. run_monad.
  rewrite py_len_of_docs, as_docs_of_docs.
  destruct (truthy (get context "websocket_manager"));
    [destruct (truthy (get context "job_id")) |];
    cbn; eexists _, _; split; reflexivity.
Qed.

(** The text that the second part of the function returns for an answer
    of the model. *)
Definition briefing_text (response : result (list (option string))) : string :=
  match response with
  | Ok (Some c :: _) => strip c
  | _ => ""
  end.

Lemma briefing_completion_ok (category : string) (context : pydict pyval)
    (response : result (list (option string))) (o : Outbox) :
  exists o2,
    briefing_completion category context response o
      = (o2, Ok {| briefing_content := briefing_text response |})
    /\ requests o2 = requests o.
Proof.
  unfold briefing_completion. run_monad.
  destruct response as [[| [c |] rest] | e]; cbn;
    try (eexists; split; reflexivity).
  destruct (String.eqb (strip c) "") eqn:E.
  - apply String.eqb_eq in E. rewrite E. eexists; split; reflexivity.
  - destruct (truthy (get context "websocket_manager"));
      [destruct (truthy (get context "job_id")) |];
      cbn; eexists; split; reflexivity.
Qed.

(** C5, as amended.  Called on a collection of documents,
    [generate_category_briefing] always returns: it sends one request to
    the model and returns the stripped text of the first choice, or the
    empty text when the call raises, answers without a choice or without
    text, or answers white space only.  The returned text is non-empty
    exactly when the model answered with text that is not blank. *)
Theorem generate_category_briefing_never_raises (docs : Docs)
    (category : string) (context : pydict pyval) (o : Outbox) :
  exists o' prompt text,
    generate_category_briefing prompts default_prompt
      chat_completions_create (of_docs docs) category context o
      = (o', Ok {| briefing_content := text |})
    /\ requests o' = requests o ++ [prompt]
    /\ (forall e, chat_completions_create prompt = Raise e -> text = "")
    /\ (chat_completions_create prompt = Ok [] -> text = "")
    /\ (forall rest,
          chat_completions_create prompt = Ok (None :: rest) -> text = "")
    /\ (forall c rest,
          chat_completions_create prompt = Ok (Some c :: rest) ->
          text = strip c /\ (text = "" <-> all_space c = true))
    /\ (text <> "" <->
        exists c rest,
          chat_completions_create prompt = Ok (Some c :: rest)
          /\ all_space c = false).
Proof.
  destruct (briefing_prompt_ok docs category context o)
    as (o1 & prompt & Hprompt & Hreq1).
  destruct (briefing_completion_ok category context
              (chat_completions_create prompt)
              {| sent := sent o1; requests := requests o1 ++ [prompt] |})
    as (o2 & Hdone & Hreq2).
  exists o2, prompt, (briefing_text (chat_completions_create prompt)).
  split.
  { unfold generate_category_briefing, await_completion.
    unfold bind at 1. rewrite Hprompt.
    unfold bind, modify, ret. cbn. exact Hdone. }
  split; [rewrite Hreq2; cbn; now rewrite Hreq1 |].
  repeat split.
  - intros e ->. reflexivity.
  - intros ->. reflexivity.
  - intros rest ->. reflexivity.
  - rewrite H. reflexivity.
  - rewrite H. cbn. apply strip_empty_iff.
  - rewrite H. cbn. apply strip_empty_iff.
  - intros Hne. destruct (chat_completions_create prompt)
      as [[| [c |] rest] | e]; cbn in Hne; try congruence.
    exists c, rest. split; [reflexivity |].
    destruct (all_space c) eqn:Hs; [| reflexivity].
    apply strip_empty_iff in Hs. congruence.
  - intros (c & rest & -> & Hs). cbn. intros Hempty.
    apply strip_empty_iff in Hempty. congruence.
Qed.
End BriefingFacts.

(** ** The briefing fan-out *)

(** Steps left before a coroutine is over: two while it waits, one while
    it is in flight. *)
Definition weight (f : Fanout) : nat :=
  2 * length (waiting f) + length (in_flight f).

(** The store at the point where the coroutines are handed to [gather]. *)
Definition planned (f : Fanout) : Prop :=
  in_flight f = [] /\ raised f = [] /\ results f = [] /\ calls f = []
  /\ semaphore f = match waiting f with [] => 0 | _ => 2 end.

(** What the fan-out keeps invariant, relative to its starting store. *)
Record fan_inv (f0 f : Fanout) : Prop := {
  inv_semaphore : semaphore f + length (in_flight f) = semaphore f0;
  inv_tasks :
    length (waiting f) + length (in_flight f) + length (results f)
    + length (raised f) = length (waiting f0);
  inv_calls : map category (waiting f) ++ calls f ≡ₚ map category (waiting f0);
  inv_waiting : forall t, t ∈ waiting f -> t ∈ waiting f0;
  inv_in_flight : forall tp, tp ∈ in_flight f -> tp.1 ∈ waiting f0;
  inv_context : context f = context f0;
  inv_state :
    forall k, k ∉ map briefing_key (waiting f0) ->
              dict_get (state f) k = dict_get (state f0) k
}.

Section FanoutFacts.
Variable prompts : pyval -> pyval -> pyval -> pydict string.
Variable default_prompt : string.
Variable chat_completions_create : string -> result (list (option string)).

#[local] Abbreviation Acquire := (acquire prompts default_prompt).
#[local] Abbreviation Complete := (complete chat_completions_create).
#[local] Abbreviation Step :=
  (step prompts default_prompt chat_completions_create).
#[local] Abbreviation Drain :=
  (drain prompts default_prompt chat_completions_create).
#[local] Abbreviation Fifo :=
  (fifo_step prompts default_prompt chat_completions_create).

Lemma acquire_Some (i : nat) (f f' : Fanout) :
  Acquire i f = Some f' ->
  exists n task,
    semaphore f = S n /\ waiting f !! i = Some task
    /\ waiting f' = delete i (waiting f)
    /\ calls f' = calls f ++ [category task]
    /\ state f' = state f /\ context f' = context f
    /\ results f' = results f
    /\ ((exists prompt,
           semaphore f' = n /\ in_flight f' = in_flight f ++ [(task, prompt)]
           /\ raised f' = raised f)
        \/ (exists e,
              semaphore f' = S n /\ in_flight f' = in_flight f
              /\ raised f' = raised f ++ [e]
              /\ (briefing_prompt prompts default_prompt (curated_data task)
                    (category task) (context f) (outbox f)).2 = Raise e)).
Proof.
  unfold acquire. intros H.
  destruct (semaphore f) as [| n] eqn:Hs; [discriminate |].
  destruct (waiting f !! i) as [task |] eqn:Hw; [| discriminate].
  destruct (briefing_prompt prompts default_prompt (curated_data task)
              (category task) (context f) (outbox f)) as [o r] eqn:Hp.
  injection H as <-. exists n, task. rewrite Hp.
  destruct r as [prompt | e]; cbn; repeat split.
  - left. exists prompt. repeat split.
  - right. exists e. repeat split.
Qed.

Lemma complete_Some (i : nat) (f f' : Fanout) :
  Complete i f = Some f' ->
  exists task prompt,
    in_flight f !! i = Some (task, prompt)
    /\ semaphore f' = S (semaphore f)
    /\ in_flight f' = delete i (in_flight f)
    /\ waiting f' = waiting f /\ calls f' = calls f
    /\ context f' = context f /\ raised f' = raised f
    /\ (exists r, results f' = results f ++ [r])
    /\ (exists v, state f' = dict_set (state f) (briefing_key task) v).
Proof.
  unfold complete. intros H.
  destruct (in_flight f !! i) as [[task prompt] |] eqn:Hr; [| discriminate].
  destruct (briefing_completion_ok (category task) (context f)
              (chat_completions_create prompt) (outbox f)) as (o2 & Hc & _).
  rewrite Hc in H. injection H as <-. exists task, prompt.
  unfold record_briefing. cbn.
  repeat split; eauto.
  destruct (String.eqb _ _); eauto.
Qed.

(** Every step brings some coroutine nearer to its end. *)
Lemma step_weight (f f' : Fanout) : Step f f' -> weight f' < weight f.
Proof.
  intros [i f1 H | i f1 H]; unfold weight.
  - apply acquire_Some in H
      as (n & task & _ & Hw & -> & _ & _ & _ & _ & Hcase).
    assert (Hlen := length_delete (waiting f) i (ex_intro _ _ Hw)).
    apply lookup_lt_Some in Hw.
    destruct Hcase as [(p & _ & -> & _) | (e & _ & -> & _)];
      rewrite ?length_app; simpl; lia.
  - apply complete_Some in H
      as (task & p & Hr & _ & -> & -> & _).
    assert (Hlen := length_delete (in_flight f) i (ex_intro _ _ Hr)).
    apply lookup_lt_Some in Hr. lia.
Qed.

Lemma fan_inv_start (f0 : Fanout) : planned f0 -> fan_inv f0 f0.
Proof.
  intros (Hi & Hr & Hres & Hc & Hs).
  split; rewrite ?Hi, ?Hr, ?Hres, ?Hc; simpl; auto; try lia.
  - now rewrite app_nil_r.
  - intros tp Htp. now apply elem_of_nil in Htp.
Qed.

Lemma fan_inv_step (f0 f f' : Fanout) :
  fan_inv f0 f -> Step f f' -> fan_inv f0 f'.
Proof.
  intros [Hsem Htasks Hcalls Hwait Hfly Hctx Hstate] [i f1 H | i f1 H].
  - apply acquire_Some in H
      as (n & task & Hs & Hw & Hw' & Hc' & Hst & Hcx & Hres & Hcase).
    assert (Hlen := length_delete (waiting f) i (ex_intro _ _ Hw)).
    assert (Hperm := delete_Permutation (waiting f) i task Hw).
    assert (Hlt := lookup_lt_Some _ _ _ Hw).
    assert (Hin : task ∈ waiting f0).
    { apply Hwait. eapply list_elem_of_lookup_2. exact Hw. }
    split.
    + destruct Hcase as [(p & -> & -> & _) | (e & -> & -> & _)];
        rewrite ?length_app; simpl; lia.
    + rewrite Hw', Hres.
      destruct Hcase as [(p & _ & -> & ->) | (e & _ & -> & -> & _)];
        rewrite ?length_app; simpl; lia.
    + rewrite Hw', Hc'. etransitivity; [| exact Hcalls].
      apply (Permutation_map category) in Hperm. simpl in Hperm.
      rewrite Hperm. simpl. rewrite app_assoc. symmetry.
      apply Permutation_cons_append.
    + intros t Ht. rewrite Hw' in Ht. apply Hwait.
      eapply list_elem_of_delete_inv. exact Ht.
    + intros tp Htp.
      destruct Hcase as [(p & _ & HH & _) | (e & _ & HH & _)];
        rewrite HH in Htp; [| now apply Hfly].
      apply elem_of_app in Htp as [Htp | Htp]; [now apply Hfly |].
      apply list_elem_of_singleton in Htp. now subst.
    + congruence.
    + intros k Hk. rewrite Hst. now apply Hstate.
  - apply complete_Some in H
      as (task & p & Hr & Hs & Hr' & Hw' & Hc' & Hcx & Hrs & [r Hres]
          & [v Hst]).
    assert (Hlen := length_delete (in_flight f) i (ex_intro _ _ Hr)).
    assert (Hlt := lookup_lt_Some _ _ _ Hr).
    assert (Hin : task ∈ waiting f0).
    { apply (Hfly (task, p)). eapply list_elem_of_lookup_2. exact Hr. }
    split.
    + rewrite Hs, Hr'. lia.
    + rewrite Hw', Hr', Hres, Hrs, length_app. simpl. lia.
    + now rewrite Hw', Hc'.
    + intros t Ht. rewrite Hw' in Ht. now apply Hwait.
    + intros tp Htp. rewrite Hr' in Htp. apply Hfly.
      eapply list_elem_of_delete_inv. exact Htp.
    + congruence.
    + intros k Hk. rewrite Hst, dict_get_set_ne; [now apply Hstate |].
      intros <-. apply Hk. apply list_elem_of_fmap. now exists task.
Qed.

Lemma fan_inv_reach (f0 f : Fanout) :
  planned f0 -> rtc Step f0 f -> fan_inv f0 f.
Proof.
  intros Hp Hr.
  revert f Hr. apply (rtc_ind_r (R := Step) (fun f => fan_inv f0 f) f0).
  - now apply fan_inv_start.
  - intros y z _ Hs IH. eapply fan_inv_step; eassumption.
Qed.

Lemma acquire_enabled (i n : nat) (t : Task) (f : Fanout) :
  semaphore f = S n -> waiting f !! i = Some t ->
  exists f', Acquire i f = Some f'.
Proof.
  intros Hs Hw. unfold acquire. rewrite Hs, Hw.
  destruct (briefing_prompt _ _ _ _ _ _). eauto.
Qed.

Lemma complete_enabled (i : nat) (tp : Task * string) (f : Fanout) :
  in_flight f !! i = Some tp -> exists f', Complete i f = Some f'.
Proof.
  intros Hr. unfold complete. rewrite Hr. destruct tp as [t p].
  destruct (briefing_completion _ _ _ _). eauto.
Qed.

(** With the invariant, the scheduler in list order is never stuck
    before the end. *)
Lemma fifo_progress (f0 f : Fanout) :
  planned f0 -> fan_inv f0 f -> finished f = false ->
  exists f', Fifo f = Some f'.
Proof.
  intros (_ & _ & _ & _ & Hs0) Hinv Hnf.
  destruct Hinv as [Hsem Htasks _ _ _ _ _].
  unfold fifo_step.
  destruct (Acquire 0 f) as [f1 |] eqn:Ha; [eauto |].
  assert (Hfly : in_flight f <> []).
  { intros Hnil. unfold finished in Hnf. rewrite Hnil in *.
    destruct (waiting f) as [| t w] eqn:Hw; [discriminate |].
    destruct (semaphore f) as [| n] eqn:Hs.
    - destruct (waiting f0); simpl in *; lia.
    - destruct (acquire_enabled 0 n t f Hs) as [f' Hf'];
        [now rewrite Hw | congruence]. }
  destruct (in_flight f) as [| tp r] eqn:Hr; [contradiction |].
  apply (complete_enabled 0 tp). now rewrite Hr.
Qed.

Lemma fifo_step_step (f f' : Fanout) : Fifo f = Some f' -> Step f f'.
Proof.
  unfold fifo_step.
  destruct (Acquire 0 f) as [f1 |] eqn:Ha.
  - intros [= <-]. eapply step_acquire. exact Ha.
  - intros Hc. eapply step_complete. exact Hc.
Qed.

Lemma finished_weight (f : Fanout) : weight f = 0 -> finished f = true.
Proof.
  unfold weight, finished.
  destruct (waiting f), (in_flight f); simpl; intros; try lia; reflexivity.
Qed.

(** Enough fuel takes the scheduler to the end of the fan-out. *)
Lemma drain_finishes (f0 : Fanout) (fuel : nat) (f : Fanout) :
  planned f0 -> fan_inv f0 f -> weight f <= fuel ->
  rtc Step f (Drain fuel f) /\ finished (Drain fuel f) = true.
Proof.
  intros Hp. revert f. induction fuel as [| fuel IH]; intros f Hinv Hw.
  - simpl. split; [reflexivity | apply finished_weight; lia].
  - simpl. destruct (finished f) eqn:Hfin.
    + destruct (Fifo f) as [f' |] eqn:Hstep.
      * apply fifo_step_step in Hstep. pose proof (step_weight _ _ Hstep).
        unfold finished, weight in *.
        destruct (waiting f), (in_flight f); simpl in *; try discriminate. lia.
      * split; [reflexivity | exact Hfin].
    + destruct (fifo_progress f0 f Hp Hinv Hfin) as [f' Hstep].
      rewrite Hstep. pose proof (fifo_step_step _ _ Hstep) as Hs.
      pose proof (step_weight _ _ Hs).
      destruct (IH f') as [Hr Hf];
        [eapply fan_inv_step; eassumption | lia |].
      split; [eapply rtc_l; eassumption | exact Hf].
Qed.
End FanoutFacts.

(** ** Planning of the briefings *)

(** A category has curated input in a state. *)
Definition has_input (st : pydict pyval) (e : string * (string * string))
    : bool :=
  truthy (get_or st (curated_key (fst e)) (PDict [])).

(** The task created for a category with input. *)
Definition task_of (st : pydict pyval) (e : string * (string * string))
    : Task :=
  {| category := fst (snd e); briefing_key := snd (snd e);
     data_field := fst e;
     curated_data := get_or st (curated_key (fst e)) (PDict []) |}.

(** The categories with input, by name. *)
Definition with_input (st : pydict pyval) : list string :=
  map (fun e => fst (snd e)) (List.filter (has_input st) categories).

(** No briefing key is the curated key of a category, and the briefing
    keys differ from each other. *)
Definition keys_apart (cats : pydict (string * string)) : Prop :=
  (forall e e', In e cats -> In e' cats -> snd (snd e) <> curated_key (fst e'))
  /\ NoDup (map (fun e => snd (snd e)) cats).

Lemma categories_keys_apart : keys_apart categories.
Proof.
  split.
  - intros e e' He He'. simpl in He, He'.
    repeat (destruct He as [<- | He]; [| ]);
      try contradiction;
      repeat (destruct He' as [<- | He']; [| ]);
      try contradiction; vm_compute; discriminate.
  - simpl. repeat (constructor; [rewrite ?elem_of_cons, elem_of_nil;
                                 intuition discriminate |]).
    constructor.
Qed.

Lemma get_or_set_ne (st : pydict pyval) (k k' : string) (v d : pyval) :
  k <> k' -> get_or (dict_set st k v) k' d = get_or st k' d.
Proof. intros H. unfold get_or. now rewrite dict_get_set_ne. Qed.

Lemma plan_category_Ok (e : string * (string * string)) (f f' : Fanout)
    (u : unit) :
  plan_category e f = (f', Ok u) ->
  context f' = context f /\ outbox f' = outbox f
  /\ semaphore f' = semaphore f /\ in_flight f' = in_flight f
  /\ raised f' = raised f /\ results f' = results f /\ calls f' = calls f
  /\ ((has_input (state f) e = true /\ state f' = state f
       /\ waiting f' = waiting f ++ [task_of (state f) e])
      \/ (has_input (state f) e = false /\ waiting f' = waiting f
          /\ state f' = dict_set (state f) (snd (snd e)) (PStr ""))).
Proof.
  unfold plan_category, has_input, task_of.
  destruct (truthy (get_or (state f) (curated_key (fst e)) (PDict []))).
  - destruct (py_len _); intros [= <-]; cbn. repeat split. left. auto.
  - intros [= <-]. cbn. repeat split. right. auto.
Qed.

Lemma plan_loop (cats : pydict (string * string)) (f f' : Fanout) (u : unit) :
  keys_apart cats ->
  for_each cats plan_category f = (f', Ok u) ->
  waiting f' =
    waiting f ++ map (task_of (state f)) (List.filter (has_input (state f)) cats)
  /\ (forall e, In e cats -> has_input (state f) e = false ->
      dict_get (state f') (snd (snd e)) = Some (PStr ""))
  /\ (forall k, ~ In k (map (fun e => snd (snd e)) cats) ->
      dict_get (state f') k = dict_get (state f) k)
  /\ context f' = context f /\ outbox f' = outbox f
  /\ semaphore f' = semaphore f /\ in_flight f' = in_flight f
  /\ raised f' = raised f /\ results f' = results f /\ calls f' = calls f.
Proof.
  revert f. induction cats as [| e rest IH]; intros f [Hcur Hnd] H.
  - injection H as <-. simpl. rewrite app_nil_r. repeat split; auto.
    intros e [].
  - cbn [for_each] in H. unfold bind in H.
    destruct (plan_category e f) as [f1 [[] | ex]] eqn:H1; [| discriminate].
    apply plan_category_Ok in H1
      as (Hc1 & Ho1 & Hs1 & Hi1 & Hr1 & Hres1 & Hcl1 & Hcase).
    assert (Hrest : keys_apart rest).
    { split; [intros a b Ha Hb; apply Hcur; now right |].
      simpl in Hnd. now apply NoDup_cons_1_2 in Hnd. }
    apply IH in H as (Hw & Hempty & Hother & Hc & Ho & Hs & Hi & Hr & Hres & Hcl);
      [| exact Hrest].
    assert (Hsame : forall e', In e' (e :: rest) ->
              get_or (state f1) (curated_key (fst e')) (PDict []) =
              get_or (state f) (curated_key (fst e')) (PDict [])).
    { intros e' He'. destruct Hcase as [(_ & -> & _) | (_ & _ & ->)];
        [reflexivity |].
      apply get_or_set_ne. apply Hcur; [now left | exact He']. }
    assert (Hin : forall e', In e' rest ->
              has_input (state f1) e' = has_input (state f) e').
    { intros e' He'. unfold has_input. rewrite Hsame; [reflexivity | now right]. }
    assert (Htask : forall e', In e' rest ->
              task_of (state f1) e' = task_of (state f) e').
    { intros e' He'. unfold task_of. rewrite Hsame; [reflexivity | now right]. }
    assert (Hfresh : ~ In (snd (snd e)) (map (fun e => snd (snd e)) rest)).
    { simpl in Hnd. apply NoDup_cons_1_1 in Hnd.
      intros Hx. apply Hnd. now apply list_elem_of_In. }
    rewrite (filter_ext_in _ _ _ Hin) in Hw.
    rewrite (map_ext_in _ _ _ (fun a Ha => Htask a
               (proj1 (proj1 (filter_In _ _ _) Ha)))) in Hw.
    repeat split; try congruence.
    + rewrite Hw. cbn [List.filter].
      destruct Hcase as [(-> & _ & ->) | (-> & -> & _)];
        [now rewrite <- app_assoc | reflexivity].
    + intros e' [<- | He'] Hno.
      * rewrite Hother by exact Hfresh.
        destruct Hcase as [(Hyes & _) | (_ & _ & ->)]; [congruence |].
        apply dict_get_set_eq.
      * apply Hempty; [exact He' |]. now rewrite Hin.
    + intros k Hk. simpl in Hk.
      rewrite Hother by tauto.
      destruct Hcase as [(_ & -> & _) | (_ & _ & ->)]; [reflexivity |].
      apply dict_get_set_ne. tauto.
Qed.

Lemma plan_briefings_Ok (st : pydict pyval) (o : Outbox) (f0 : Fanout)
    (u : unit) :
  plan_briefings (enter st o) = (f0, Ok u) ->
  planned f0
  /\ waiting f0 = map (task_of st) (List.filter (has_input st) categories)
  /\ (forall e, In e categories -> has_input st e = false ->
      dict_get (state f0) (snd (snd e)) = Some (PStr "")).
Proof.
  unfold plan_briefings, bind, gets, when, modify, ret, on_outbox, enter.
  cbn -[for_each categories plan_category publish].
  set (ws := truthy (get st "websocket_manager") && truthy (get st "job_id")).
  destruct ws; cbn -[for_each categories plan_category];
    match goal with
    | |- context [for_each categories plan_category ?f] =>
        destruct (for_each categories plan_category f)
          as [f1 [[] | e]] eqn:Hloop
    end;
    intros [= <-];
    apply plan_loop in Hloop
      as (Hw & Hempty & _ & _ & _ & _ & Hi & Hr & Hres & Hcl);
    try apply categories_keys_apart;
    cbn in Hw, Hi, Hr, Hres, Hcl;
    (split; [unfold planned; cbn; rewrite Hi, Hr, Hres, Hcl; auto 10 |]);
    (split; [cbn; exact Hw | cbn; exact Hempty]).
Qed.

Section CreateBriefings.
Variable prompts : pyval -> pyval -> pyval -> pydict string.
Variable default_prompt : string.
Variable chat_completions_create : string -> result (list (option string)).

#[local] Abbreviation Step :=
  (step prompts default_prompt chat_completions_create).
#[local] Abbreviation Drain :=
  (drain prompts default_prompt chat_completions_create).

(** C6. In every store that the fan-out of [create_briefings] can reach,
    at most two coroutines are between their admission by the semaphore
    and the end of their [generate_category_briefing] call.  No
    coroutine is ever dropped: each one is waiting, in flight, or has
    ended with a value or an exception, whatever happened to the others.
    As long as one is left some step is possible, every step brings the
    end nearer, so every schedule ends with all coroutines over, and the
    list-order scheduler gets there within [weight f] steps. *)
Theorem fan_out_is_bounded_and_completes (st : pydict pyval) (o : Outbox)
    (f0 f : Fanout) :
  plan_briefings (enter st o) = (f0, Ok tt) ->
  rtc Step f0 f ->
  length (in_flight f) <= 2
  /\ length (waiting f) + length (in_flight f) + length (results f)
     + length (raised f) = length (waiting f0)
  /\ (forall f', Step f f' -> weight f' < weight f)
  /\ (finished f = false -> exists f', Step f f')
  /\ (finished f = true ->
      length (results f) + length (raised f) = length (waiting f0))
  /\ rtc Step f (Drain (weight f) f)
  /\ finished (Drain (weight f) f) = true.
Proof.
  intros Hplan Hreach.
  apply plan_briefings_Ok in Hplan as (Hp & _ & _).
  pose proof (fan_inv_reach prompts default_prompt chat_completions_create f0 f Hp Hreach) as Hinv.
  pose proof Hinv as [Hsem Htasks _ _ _ _ _].
  repeat split.
  - destruct Hp as (_ & _ & _ & _ & Hs0).
    destruct (waiting f0); rewrite Hs0 in Hsem; lia.
  - exact Htasks.
  - intros f'. apply step_weight.
  - intros Hnf.
    destruct (fifo_progress prompts default_prompt chat_completions_create f0 f Hp Hinv Hnf) as [f' Hf'].
    exists f'. now apply fifo_step_step.
  - unfold finished. intros Hfin.
    destruct (waiting f), (in_flight f); try discriminate.
    simpl in Htasks. lia.
  - apply (drain_finishes prompts default_prompt chat_completions_create f0); [exact Hp | exact Hinv | lia].
  - apply (drain_finishes prompts default_prompt chat_completions_create f0); [exact Hp | exact Hinv | lia].
Qed.

(** C7. A category without curated input (absent or empty) is given the
    empty string under its briefing key before the fan-out starts and
    keeps it through the fan-out; no task is created for it and
    [generate_category_briefing] is never called for it.  The tasks are
    exactly the categories with input, and when the fan-out is over
    [generate_category_briefing] has been called once for each of them:
    with two categories with input, twice. *)
Theorem empty_categories_get_empty_briefings (st : pydict pyval)
    (o : Outbox) (f0 f : Fanout) :
  plan_briefings (enter st o) = (f0, Ok tt) ->
  rtc Step f0 f ->
  map category (waiting f0) = with_input st
  /\ (forall field cat key,
        In (field, (cat, key)) categories ->
        truthy (get_or st (curated_key field) (PDict [])) = false ->
        dict_get (state f) key = Some (PStr "")
        /\ ~ In cat (map category (waiting f0))
        /\ ~ In cat (calls f))
  /\ (forall cat, In cat (calls f) -> In cat (with_input st))
  /\ (finished f = true ->
      Permutation (calls f) (with_input st)
      /\ length (calls f) = length (with_input st))
  /\ (length (with_input st) = 2 -> finished f = true ->
      length (calls f) = 2).
Proof.
  intros Hplan Hreach.
  apply plan_briefings_Ok in Hplan as (Hp & Hw & Hempty).
  pose proof (fan_inv_reach prompts default_prompt chat_completions_create
                f0 f Hp Hreach) as Hinv.
  pose proof Hinv as [_ _ Hcalls _ _ _ Hstate].
  assert (Hcats : map category (waiting f0) = with_input st).
  { rewrite Hw. unfold with_input. rewrite map_map. reflexivity. }
  assert (Hsame : forall e e', In e categories -> In e' categories ->
            fst (snd e') = fst (snd e) \/ snd (snd e') = snd (snd e) ->
            e' = e).
  { intros e e' He He' Heq. simpl in He, He'.
    repeat (destruct He as [<- | He]; [| ]); try contradiction;
      repeat (destruct He' as [<- | He']; [| ]); try contradiction;
      try reflexivity; destruct Heq; discriminate. }
  assert (Hno : forall e, In e categories -> has_input st e = false ->
            ~ In (fst (snd e)) (with_input st)).
  { intros e He Hne Hin. unfold with_input in Hin.
    apply in_map_iff in Hin as (e' & Heq & Hin).
    apply filter_In in Hin as [Hin Hyes].
    assert (e' = e) by (apply Hsame; auto). congruence. }
  assert (Hsub : forall cat, In cat (calls f) -> In cat (with_input st)).
  { intros cat Hin. rewrite <- Hcats.
    apply list_elem_of_In. rewrite <- Hcalls.
    apply elem_of_app. right. now apply list_elem_of_In. }
  assert (Hfin : finished f = true -> Permutation (calls f) (with_input st)).
  { unfold finished. intros Hf.
    destruct (waiting f) eqn:Hwf; [| discriminate].
    rewrite <- Hcats, <- Hcalls. reflexivity. }
  split; [exact Hcats |].
  split.
  { intros field cat key Hin Hne.
    pose proof (Hno (field, (cat, key)) Hin Hne) as Hnot. cbn in Hnot.
    split; [| split; [now rewrite Hcats | intros Hc; now apply Hnot, Hsub]].
    rewrite Hstate; [exact (Hempty (field, (cat, key)) Hin Hne) |].
    rewrite Hw, map_map. cbn [briefing_key task_of].
    intros Hk. apply list_elem_of_In in Hk.
    apply in_map_iff in Hk as (e' & Heq & Hk).
    apply filter_In in Hk as [Hk Hyes].
    assert (e' = (field, (cat, key))) by (apply Hsame; auto).
    subst e'. unfold has_input in Hyes. cbn in Hyes. congruence. }
  split; [exact Hsub |].
  split.
  { intros Hf. split; [now apply Hfin | now rewrite (Hfin Hf)]. }
  intros H2 Hf. now rewrite (Hfin Hf).
Qed.

(** [create_briefings] always has an outcome: the run under the list-order
    scheduler is one of its runs. *)
Lemma create_briefings_fifo_sound (st : pydict pyval) (o : Outbox) :
  create_briefings prompts default_prompt chat_completions_create st o
    (create_briefings_fifo prompts default_prompt chat_completions_create
       st o).1
    (create_briefings_fifo prompts default_prompt chat_completions_create
       st o).2.
Proof.
  unfold create_briefings, create_briefings_fifo.
  destruct (plan_briefings (enter st o)) as [f0 [[] | e]] eqn:Hplan;
    cbn [fst snd]; [| split; reflexivity].
  apply plan_briefings_Ok in Hplan as (Hp & _ & _).
  destruct (drain_finishes prompts default_prompt chat_completions_create
              f0 (2 * length (waiting f0)) f0 Hp)
    as [Hreach Hfin].
  - now apply fan_inv_start.
  - destruct Hp as (Hfly & _). unfold weight. rewrite Hfly. simpl. lia.
  - repeat split; assumption.
Qed.
End CreateBriefings.

(** ** The e-commerce auditor *)

Lemma dict_get_None_keys {V} (d : pydict V) (k : string) :
  dict_get d k = None <-> ~ In k (dict_keys d).
Proof.
  unfold dict_keys. induction d as [| [k' v] d IH]; simpl; [tauto |].
  destruct (String.eqb k' k) eqn:E.
  - apply String.eqb_eq in E. split; [discriminate | tauto].
  - apply String.eqb_neq in E. tauto.
Qed.

Lemma merge_documents_NoDup (q : string) (documents acc : pydict Document) :
  NoDup (dict_keys acc) -> NoDup (dict_keys (merge_documents q documents acc)).
Proof.
  unfold merge_documents. revert acc.
  induction documents as [| [u d] rest IH]; intros acc Hnd; simpl;
    [exact Hnd |].
  apply IH. now apply dict_set_NoDup.
Qed.

(** A URL that a query does not return keeps its entry. *)
Lemma merge_documents_other (q u : string) (documents acc : pydict Document) :
  dict_get documents u = None ->
  dict_get (merge_documents q documents acc) u = dict_get acc u.
Proof.
  unfold merge_documents. revert acc.
  induction documents as [| [k d] rest IH]; intros acc Hnone; simpl;
    [reflexivity |].
  simpl in Hnone. destruct (String.eqb k u) eqn:E; [discriminate |].
  rewrite IH by exact Hnone. apply dict_get_set_ne.
  now apply String.eqb_neq.
Qed.

(** A URL that a query returns gets the document of that query. *)
Lemma merge_documents_written (q u : string) (d : Document)
    (documents acc : pydict Document) :
  NoDup (dict_keys documents) -> dict_get documents u = Some d ->
  dict_get (merge_documents q documents acc) u = Some (set_query d q).
Proof.
  unfold merge_documents. revert acc.
  induction documents as [| [k v] rest IH]; intros acc Hnd Hget; simpl;
    [discriminate |].
  simpl in Hget, Hnd. apply NoDup_cons in Hnd as [Hk Hnd].
  destruct (String.eqb k u) eqn:E.
  - apply String.eqb_eq in E. subst k. injection Hget as ->.
    fold (merge_documents q rest (dict_set acc u (set_query d q))).
    rewrite merge_documents_other; [apply dict_get_set_eq |].
    apply dict_get_None_keys. intros Hin. apply Hk.
    now apply list_elem_of_In.
  - now apply IH.
Qed.

Section AuditorFacts.
Variable repr : pyval -> string.
Variable generate_queries : pydict pyval -> result (list string).
Variable search_documents : nat -> string -> result (pydict Document).

#[local] Abbreviation Search_all := (search_all search_documents).
#[local] Abbreviation Gather := (gather repr generate_queries search_documents).
#[local] Abbreviation Analyze :=
  (analyze repr generate_queries search_documents).

Lemma search_all_NoDup (queries : list (nat * string))
    (acc result : pydict Document) :
  NoDup (dict_keys acc) -> Search_all queries acc = Ok result ->
  NoDup (dict_keys result).
Proof.
  revert acc. induction queries as [| [n q] rest IH]; intros acc Hnd; simpl.
  - now intros [= <-].
  - destruct (search_documents n q) as [documents | e]; [| discriminate].
    apply IH. now apply merge_documents_NoDup.
Qed.

(** Queries that do not return a URL leave its entry alone. *)
Lemma search_all_other (u : string) (queries : list (nat * string))
    (acc result : pydict Document) :
  (forall n q documents, In (n, q) queries ->
     search_documents n q = Ok documents -> dict_get documents u = None) ->
  Search_all queries acc = Ok result ->
  dict_get result u = dict_get acc u.
Proof.
  revert acc. induction queries as [| [n q] rest IH]; intros acc Hnone; simpl.
  - now intros [= <-].
  - destruct (search_documents n q) as [documents |] eqn:Hs; [| discriminate].
    intros H. rewrite (IH _ (fun n' q' d' Hin => Hnone n' q' d' (or_intror Hin)) H).
    apply merge_documents_other. eapply Hnone; [now left | exact Hs].
Qed.

Lemma search_all_app (qs1 qs2 : list (nat * string))
    (acc result : pydict Document) :
  Search_all (qs1 ++ qs2) acc = Ok result ->
  exists mid, Search_all qs1 acc = Ok mid /\ Search_all qs2 mid = Ok result.
Proof.
  revert acc. induction qs1 as [| [n q] rest IH]; intros acc; simpl.
  - eauto.
  - destruct (search_documents n q); [apply IH | discriminate].
Qed.

(** C9. Maps have unique keys.  When the searches of a category have
    all been merged, a URL returned by some query and by no query
    processed after it has exactly one entry in the category's map, and
    the entry is the document which that query returned, tagged with that
    query: it has replaced whatever an earlier query, or the seeding from
    the site snapshot, had put under the URL. *)
Theorem url_collision_is_last_write_wins (qs1 qs2 : list (nat * string))
    (n : nat) (q u : string) (seeded result documents : pydict Document)
    (d : Document) :
  NoDup (dict_keys seeded) ->
  Search_all (qs1 ++ (n, q) :: qs2) seeded = Ok result ->
  search_documents n q = Ok documents ->
  NoDup (dict_keys documents) ->
  dict_get documents u = Some d ->
  (forall n' q' documents', In (n', q') qs2 ->
     search_documents n' q' = Ok documents' ->
     dict_get documents' u = None) ->
  dict_get result u = Some (set_query d q)
  /\ NoDup (dict_keys result)
  /\ count_occ string_dec (dict_keys result) u = 1.
Proof.
  intros Hseed Hall Hq Hdocs Hu Hlater.
  assert (Hnd : NoDup (dict_keys result))
    by exact (search_all_NoDup _ seeded result Hseed Hall).
  apply search_all_app in Hall as (mid & _ & Hrest).
  simpl in Hrest. rewrite Hq in Hrest.
  assert (Hget : dict_get result u = Some (set_query d q)).
  { rewrite (search_all_other u qs2 _ _ Hlater Hrest).
    now apply merge_documents_written. }
  repeat split; [exact Hget | exact Hnd |].
  apply NoDup_count_occ'.
  - apply NoDup_ListNoDup. exact Hnd.
  - destruct (in_dec string_dec u (dict_keys result)) as [Hin | Hout];
      [exact Hin |].
    apply dict_get_None_keys in Hout. congruence.
Qed.

(** C8. An exception raised inside the [try] block of [analyze] leaves
    [analyze] as that same exception; before it does, the handler
    publishes an [error] event carrying its text when the state holds a
    manager and a job id, and nothing otherwise. *)
Theorem gathering_exception_propagates (g g1 : Gathering) (e : exn) :
  let st := research_state g in
  let company := get_or st "company" (PStr "Unknown Company") in
  let websocket_manager := get st "websocket_manager" in
  let job_id := get st "job_id" in
  Gather company websocket_manager job_id g = (g1, Raise e) ->
  Analyze g =
    ({| research_state := research_state g1;
        published :=
          if truthy websocket_manager && truthy job_id
          then published g1 ++ [failure_event job_id e]
          else published g1 |},
     Raise e).
Proof.
  intros st company websocket_manager job_id Hraise.
  unfold analyze, bind at 1 2 3, gets, try_except.
  fold st. fold company. fold websocket_manager. fold job_id.
  rewrite Hraise. unfold report_failure, bind, when, raise, announce,
    send_status_update, modify, ret, failure_event.
  destruct (truthy websocket_manager && truthy job_id); cbn;
    [reflexivity | now destruct g1].
Qed.

(** A failure of query planning is such an exception. *)
Lemma gather_raises_on_planning (g : Gathering) (e : exn)
    (company websocket_manager job_id : pyval) :
  generate_queries (research_state g) = Raise e ->
  Gather company websocket_manager job_id g = (g, Raise e).
Proof.
  intros H. unfold gather, bind at 1 2, gets, lift. now rewrite H.
Qed.
End AuditorFacts.

(** ** The orchestrator *)

(** The non-empty report text of a final state: the text under ['report'],
    or else under the ['report'] key of the ['editor'] sub-map. *)
Definition report_text (st : pydict pyval) : option string :=
  let nonempty v :=
    match v with
    | PStr s => if String.eqb s "" then None else Some s
    | _ => None
    end in
  match nonempty (get st "report") with
  | Some s => Some s
  | None =>
      match get st "editor" with
      | PDict editor => nonempty (get editor "report")
      | _ => None
      end
  end.

(** The typing of the report entries of the research state: a report is a
    string or [None], the editor's contribution a dictionary or [None]. *)
Definition report_typed (st : pydict pyval) : bool :=
  let text_or_none v :=
    match v with PNone | PStr _ => true | _ => false end in
  text_or_none (get st "report")
  && match get st "editor" with
     | PNone => true
     | PDict editor => text_or_none (get editor "report")
     | _ => false
     end.

(** The registry holds an entry for the job with the given status. *)
Definition marked (w : World) (job_id status : string) : Prop :=
  exists entry,
    job_status w !! job_id = Some entry /\ get entry "status" = PStr status.

(** The persistence service, if configured, raises nothing. *)
Definition no_fault (mongodb : option (MongoCall -> option exn)) : Prop :=
  forall fault c, mongodb = Some fault -> fault c = None.

Lemma find_report_typed (st : pydict pyval) :
  report_typed st = true ->
  match report_text st with
  | Some s => find_report st = Ok (PStr s) /\ s <> ""
  | None => exists rc, find_report st = Ok rc /\ truthy rc = false
  end.
Proof.
  unfold report_typed, report_text, find_report, py_or.
  intros H. apply andb_true_iff in H as [Hr He].
  destruct (get st "report") as [| | | | s | | | |] eqn:Er; try discriminate;
    cbn.
  - destruct (get st "editor") as [| | | | | | | | ed] eqn:Ee; try discriminate;
      cbn.
    + exists PNone. split; reflexivity.
    + destruct ed as [| kv ed'] eqn:Eed; cbn.
      * exists PNone. split; reflexivity.
      * rewrite <- Eed in *.
        destruct (get ed "report") as [| | | | s | | | |]; try discriminate.
        -- exists PNone. split; reflexivity.
        -- destruct (String.eqb s "") eqn:Es.
           ++ exists (PStr s). cbn. now rewrite Es.
           ++ split; [reflexivity |]. now apply String.eqb_neq.
  - destruct (String.eqb s "") eqn:Es; cbn.
    + destruct (get st "editor") as [| | | | | | | | ed] eqn:Ee;
        try discriminate; cbn.
      * exists PNone. split; reflexivity.
      * destruct ed as [| kv ed'] eqn:Eed; cbn.
        -- exists PNone. split; reflexivity.
        -- rewrite <- Eed in *.
           destruct (get ed "report") as [| | | | s' | | | |]; try discriminate.
           ++ exists PNone. split; reflexivity.
           ++ destruct (String.eqb s' "") eqn:Es'.
              ** exists (PStr s'). cbn. now rewrite Es'.
              ** split; [reflexivity |]. now apply String.eqb_neq.
    + split; [reflexivity |]. now apply String.eqb_neq.
Qed.

Definition event (job_id : string) (status message : string)
    (res err : pyval) : StatusEvent :=
  {| ev_job_id := PStr job_id; ev_status := status; ev_message := message;
     ev_result := res; ev_error := err |}.

(** The error text of a job that ends without a report. *)
Definition error_message (repr : pyval -> string) (st : pydict pyval)
    : string :=
  if truthy (get st "error") then "Error: " +:+ py_str repr (get st "error")
  else "No report found".

Section ApplicationFacts.
Variable repr : pyval -> string.
Variable now : string.
Variable mongodb : option (MongoCall -> option exn).
Variable graph_run : string -> ResearchRequest -> GraphRun.

#[local] Abbreviation Process_research :=
  (process_research repr now mongodb graph_run).

(** The calls that reach a configured persistence service. *)
Definition mirrored (calls : list MongoCall) : list MongoCall :=
  match mongodb with Some _ => calls | None => [] end.

Lemma mongo_no_fault (c : MongoCall) (w : World) :
  no_fault mongodb ->
  mongo mongodb c w =
    ({| job_status := job_status w; LATEST_REPORT := LATEST_REPORT w;
        mongo_calls := mongo_calls w ++ mirrored [c];
        delivered := delivered w |}, Ok tt).
Proof.
  intros Hnf. unfold mongo, mirrored.
  destruct mongodb as [fault |] eqn:Hm.
  - unfold bind, modify, ret. rewrite (Hnf fault c eq_refl). reflexivity.
  - unfold ret. rewrite app_nil_r. now destruct w.
Qed.

(** A run whose final state holds a report, with nothing raised on the
    way. *)
Lemma process_research_completed (job_id : string) (data : ResearchRequest)
    (w : World) (rc : pyval) (n : nat) :
  let run := graph_run job_id data in
  no_fault mongodb -> graph_exn run = None ->
  find_report (accumulate (snapshots run)) = Ok rc ->
  truthy rc = true -> py_len rc = Ok n ->
  Process_research job_id data w =
    ({| job_status :=
          <[ job_id :=
               dict_update (job_entry now job_id (job_status w))
                 [ ("status", PStr "completed"); ("report", rc);
                   ("company", PStr (company data));
                   ("last_update", PStr now) ] ]> (job_status w);
        LATEST_REPORT := Some [ ("company", PStr (company data));
                                ("report", rc) ];
        mongo_calls :=
          ((mongo_calls w ++ mirrored [create_job job_id data])
           ++ mirrored [update_job job_id "completed" None])
          ++ mirrored [store_report job_id [("report", rc)]];
        delivered :=
          ((delivered w ++ [event job_id "processing" "Starting research"
                              PNone PNone])
           ++ graph_events run)
          ++ [event job_id "completed" "Research completed successfully"
                (PDict [("report", rc); ("company", PStr (company data))])
                PNone] |},
     Ok tt).
Proof.
  intros run Hnf Hg Hfind Hrc Hlen.
  unfold process_research, try_except, bind, drive, deliver,
    send_status_update, mark_completed, set_latest_report, modify, lift, ret.
  rewrite (mongo_no_fault _ _ Hnf). cbn.
  fold run. rewrite Hg, Hfind, Hrc, Hlen.
  rewrite (mongo_no_fault _ _ Hnf). cbn.
  rewrite (mongo_no_fault _ _ Hnf). cbn.
  reflexivity.
Qed.

(** A run whose final state holds no report, with nothing raised on the
    way. *)
Lemma process_research_no_report (job_id : string) (data : ResearchRequest)
    (w : World) (rc : pyval) :
  let run := graph_run job_id data in
  no_fault mongodb -> graph_exn run = None ->
  find_report (accumulate (snapshots run)) = Ok rc ->
  truthy rc = false ->
  Process_research job_id data w =
    ({| job_status := job_status w;
        LATEST_REPORT := LATEST_REPORT w;
        mongo_calls := mongo_calls w ++ mirrored [create_job job_id data];
        delivered :=
          ((delivered w ++ [event job_id "processing" "Starting research"
                              PNone PNone])
           ++ graph_events run)
          ++ [event job_id "failed"
                "Research completed but no report was generated" PNone
                (PStr (error_message repr (accumulate (snapshots run))))] |},
     Ok tt).
Proof.
  intros run Hnf Hg Hfind Hrc.
  unfold process_research, try_except, bind, drive, deliver,
    send_status_update, mark_completed, set_latest_report, modify, lift, ret.
  rewrite (mongo_no_fault _ _ Hnf). cbn.
  fold run. rewrite Hg, Hfind, Hrc. cbn.
  reflexivity.
Qed.
End ApplicationFacts.

Lemma completed_entry (d : pydict pyval) (rc c t : pyval) :
  let entry := dict_update d [ ("status", PStr "completed"); ("report", rc);
                               ("company", c); ("last_update", t) ] in
  get entry "status" = PStr "completed" /\ get entry "report" = rc.
Proof.
  unfold dict_update, get. cbn [fold_left fst snd]. split.
  - rewrite !dict_get_set_ne by discriminate. now rewrite dict_get_set_eq.
  - rewrite !dict_get_set_ne by discriminate. now rewrite dict_get_set_eq.
Qed.

Section Orchestrator.
Variable repr : pyval -> string.
Variable now : string.
Variable mongodb : option (MongoCall -> option exn).
Variable graph_run : string -> ResearchRequest -> GraphRun.

#[local] Abbreviation Process_research :=
  (process_research repr now mongodb graph_run).

(** C1, as amended.  Take a run for a fresh job id in which neither the
    graph nor the persistence service raises, and whose final state has
    report entries of the expected types.  The run returns; the registry
    marks the job completed exactly when the final state holds non-empty
    report text, under ['report'] or else under the editor's ['report'],
    and then the last event is [completed] with that text.  Without such
    text the registry is left as it was and the last event is [failed];
    its error text is "No report found" when the state has no ['error']
    entry or an empty one, and "Error: " followed by the entry when the
    entry is a non-empty string. *)
Theorem job_completes_iff_report_found (job_id : string)
    (data : ResearchRequest) (w : World) :
  let st := accumulate (snapshots (graph_run job_id data)) in
  let w' := (Process_research job_id data w).1 in
  job_status w !! job_id = None ->
  no_fault mongodb ->
  graph_exn (graph_run job_id data) = None ->
  report_typed st = true ->
  (Process_research job_id data w).2 = Ok tt
  /\ (marked w' job_id "completed" <-> report_text st <> None)
  /\ (forall text, report_text st = Some text ->
      text <> ""
      /\ last (delivered w') =
         Some (event job_id "completed" "Research completed successfully"
                 (PDict [("report", PStr text);
                         ("company", PStr (company data))]) PNone)
      /\ exists entry,
           job_status w' !! job_id = Some entry
           /\ get entry "status" = PStr "completed"
           /\ get entry "report" = PStr text)
  /\ (report_text st = None ->
      job_status w' = job_status w
      /\ last (delivered w') =
         Some (event job_id "failed"
                 "Research completed but no report was generated" PNone
                 (PStr (error_message repr st))))
  /\ (truthy (get st "error") = false ->
      error_message repr st = "No report found")
  /\ (forall e, get st "error" = PStr e -> e <> "" ->
      error_message repr st = "Error: " +:+ e).
Proof.
  intros st w' Hfresh Hnf Hg Htyped.
  pose proof (find_report_typed st Htyped) as Hfind.
  assert (Herr1 : truthy (get st "error") = false ->
            error_message repr st = "No report found").
  { intros H. unfold error_message. now rewrite H. }
  assert (Herr2 : forall e, get st "error" = PStr e -> e <> "" ->
            error_message repr st = "Error: " +:+ e).
  { intros e He Hne. unfold error_message. rewrite He. cbn.
    apply String.eqb_neq in Hne. now rewrite Hne. }
  destruct (report_text st) as [text |] eqn:Htext.
  - destruct Hfind as [Hfind Hne].
    assert (Htruthy : truthy (PStr text) = true).
    { cbn. apply String.eqb_neq in Hne. now rewrite Hne. }
    pose proof (process_research_completed repr now mongodb graph_run
                  job_id data w (PStr text) (String.length text)
                  Hnf Hg Hfind Htruthy eq_refl) as Hrun.
    subst w'. rewrite Hrun. unfold marked. cbn [fst snd delivered job_status].
    pose proof (completed_entry (job_entry now job_id (job_status w))
                  (PStr text) (PStr (company data)) (PStr now))
      as [Hstatus Hreport].
    split; [reflexivity |].
    split.
    { split; [discriminate |].
      intros _. eexists. split; [apply lookup_insert_eq | exact Hstatus]. }
    split.
    { intros text' [= <-]. split; [exact Hne |].
      split; [apply last_snoc |].
      eexists. split; [apply lookup_insert_eq | split; assumption]. }
    split; [discriminate |].
    split; assumption.
  - destruct Hfind as (rc & Hfind & Hfalsy).
    pose proof (process_research_no_report repr now mongodb graph_run
                  job_id data w rc Hnf Hg Hfind Hfalsy) as Hrun.
    subst w'. rewrite Hrun. unfold marked. cbn [fst snd delivered job_status].
    split; [reflexivity |].
    split.
    { split; [| intros H; now contradiction H].
      intros (entry & Hentry & _). congruence. }
    split; [discriminate |].
    split.
    { intros _. split; [reflexivity | apply last_snoc]. }
    split; assumption.
Qed.

(** The registry and the single slot change together, if at all: a run
    of [process_research] either leaves both as they were, or it has
    found a report in its final state, has marked its job completed and
    has put that report in the slot. *)
Lemma registry_and_slot (job_id : string) (data : ResearchRequest)
    (w : World) :
  let st := accumulate (snapshots (graph_run job_id data)) in
  let w' := (Process_research job_id data w).1 in
  (job_status w' = job_status w /\ LATEST_REPORT w' = LATEST_REPORT w)
  \/ (exists rc,
        graph_exn (graph_run job_id data) = None
        /\ find_report st = Ok rc /\ truthy rc = true
        /\ LATEST_REPORT w' = Some [ ("company", PStr (company data));
                                     ("report", rc) ]
        /\ marked w' job_id "completed").
Proof.
  intros st w'. subst w'.
  unfold process_research, try_except, bind, drive, deliver,
    send_status_update, mark_completed, set_latest_report, modify, lift,
    ret, mongo, raise.
  fold st.
  assert (Hmark : forall rc js, exists entry,
            <[ job_id := dict_update (job_entry now job_id js)
                 [ ("status", PStr "completed"); ("report", rc);
                   ("company", PStr (company data));
                   ("last_update", PStr now) ] ]> js !! job_id = Some entry
            /\ get entry "status" = PStr "completed").
  { intros rc js. eexists. split; [apply lookup_insert_eq |].
    apply completed_entry. }
  destruct mongodb as [fault |]; cbn.
  - destruct (fault (create_job job_id data)); cbn;
      [destruct (fault (update_job _ _ _)); cbn; now left |].
    destruct (graph_exn (graph_run job_id data)) eqn:Hg; cbn;
      [destruct (fault (update_job _ _ _)); cbn; now left |].
    destruct (find_report st) as [rc | e] eqn:Hfind; cbn;
      [| destruct (fault (update_job _ _ _)); cbn; now left].
    destruct (truthy rc) eqn:Hrc; cbn; [| now left].
    destruct (py_len rc); cbn;
      [| destruct (fault (update_job _ _ _)); cbn; now left].
    right. exists rc.
    split; [reflexivity |]. split; [reflexivity |]. split; [exact Hrc |].
    repeat match goal with
           | |- context [fault ?c] => destruct (fault c); cbn
           end;
      (split; [reflexivity | apply Hmark]).
  - destruct (graph_exn (graph_run job_id data)) eqn:Hg; cbn; [now left |].
    destruct (find_report st) as [rc | e] eqn:Hfind; cbn; [| now left].
    destruct (truthy rc) eqn:Hrc; cbn; [| now left].
    destruct (py_len rc); cbn; [| now left].
    right. exists rc.
    split; [reflexivity |]. split; [reflexivity |]. split; [exact Hrc |].
    split; [reflexivity | apply Hmark].
Qed.
End Orchestrator.

(** ** The latest-report slot and the Q&A endpoint *)

(** The slot is empty or its entry holds no report. *)
Definition no_report_loaded (w : World) : bool :=
  match LATEST_REPORT w with
  | None => true
  | Some latest => negb (truthy (get latest "report"))
  end.

Section LatestReport.
Variable repr : pyval -> string.
Variable now : string.
Variable mongodb : option (MongoCall -> option exn).
Variable graph_run : string -> ResearchRequest -> GraphRun.

#[local] Abbreviation Process_research :=
  (process_research repr now mongodb graph_run).
#[local] Abbreviation Qa_stream := (qa_stream repr).

Lemma qa_stream_no_report (data : ChatRequest) (w : World) :
  no_report_loaded w = true ->
  Qa_stream true data w =
    if String.eqb (strip (question data)) ""
    then HTTPException 400 "Question is required"
    else HTTPException 400 "No report loaded yet. Run research first.".
Proof.
  unfold no_report_loaded, qa_stream. cbn [negb].
  destruct (String.eqb (strip (question data)) ""); [reflexivity |].
  destruct (LATEST_REPORT w) as [latest |]; [| reflexivity].
  intros ->. now rewrite orb_true_r.
Qed.

(** The chat messages built from an entry of the slot and a question
    (lines 220-241). *)
Definition grounded_messages (latest : pydict pyval) (question : string)
    : list (string * string) :=
  [ ("system",
     "You are a helpful assistant. Answer using ONLY the report context provided. If the answer is not clearly supported by the report, say you don't know. Be concise and avoid speculation.");
    ("system",
     "Report context for "
     +:+ py_str repr (get_or latest "company" (PStr "the company")) +:+ ":"
     +:+ nl +:+ nl +:+ py_str repr (get_or latest "report" (PStr "")));
    ("user", question) ].

(** With a report in the slot, a configured endpoint answers a question
    that is not blank from that entry. *)
Lemma qa_stream_loaded (data : ChatRequest) (w : World)
    (latest : pydict pyval) :
  LATEST_REPORT w = Some latest ->
  truthy (get latest "report") = true ->
  all_space (question data) = false ->
  Qa_stream true data w =
    StreamingResponse (grounded_messages latest (strip (question data))).
Proof.
  intros Hslot Hreport Hq. unfold qa_stream, grounded_messages. cbn [negb].
  destruct (String.eqb (strip (question data)) "") eqn:E.
  - apply String.eqb_eq, strip_empty_iff in E. congruence.
  - rewrite Hslot, Hreport.
    destruct latest as [| kv latest']; [discriminate | reflexivity].
Qed.

(** The slot is written as soon as the run has found a report: what the
    persistence service does with the calls that follow does not matter. *)
Lemma slot_written (job_id : string) (data : ResearchRequest) (w : World)
    (rc : pyval) (n : nat) :
  let st := accumulate (snapshots (graph_run job_id data)) in
  let w' := (Process_research job_id data w).1 in
  (forall fault, mongodb = Some fault ->
     fault (create_job job_id data) = None) ->
  graph_exn (graph_run job_id data) = None ->
  find_report st = Ok rc -> truthy rc = true -> py_len rc = Ok n ->
  LATEST_REPORT w' = Some [ ("company", PStr (company data)); ("report", rc) ]
  /\ marked w' job_id "completed".
Proof.
  intros st w' Hc Hg Hfind Hrc Hlen. subst w'.
  unfold process_research, try_except, bind, drive, deliver,
    send_status_update, mark_completed, set_latest_report, modify, lift,
    ret, mongo, raise.
  fold st.
  assert (Hmark : forall js, exists entry,
            <[ job_id := dict_update (job_entry now job_id js)
                 [ ("status", PStr "completed"); ("report", rc);
                   ("company", PStr (company data));
                   ("last_update", PStr now) ] ]> js !! job_id = Some entry
            /\ get entry "status" = PStr "completed").
  { intros js. eexists. split; [apply lookup_insert_eq |].
    apply completed_entry. }
  destruct mongodb as [fault |]; cbn.
  - rewrite (Hc fault eq_refl). cbn. rewrite Hg. cbn.
    rewrite Hfind. cbn. rewrite Hrc, Hlen. cbn.
    repeat match goal with
           | |- context [fault ?c] => destruct (fault c); cbn
           end;
      (split; [reflexivity | apply Hmark]).
  - rewrite Hg. cbn. rewrite Hfind. cbn. rewrite Hrc, Hlen. cbn.
    split; [reflexivity | apply Hmark].
Qed.

(** A run that does not get as far leaves the slot and the registry as
    they were. *)
Lemma slot_kept (job_id : string) (data : ResearchRequest) (w : World) :
  let st := accumulate (snapshots (graph_run job_id data)) in
  let w' := (Process_research job_id data w).1 in
  (exists fault e,
     mongodb = Some fault /\ fault (create_job job_id data) = Some e)
  \/ graph_exn (graph_run job_id data) <> None
  \/ (exists e, find_report st = Raise e)
  \/ (exists rc, find_report st = Ok rc /\ truthy rc = false)
  \/ (exists rc e, find_report st = Ok rc /\ py_len rc = Raise e) ->
  LATEST_REPORT w' = LATEST_REPORT w /\ job_status w' = job_status w.
Proof.
  intros st w' Hcase. subst w'.
  unfold process_research, try_except, bind, drive, deliver,
    send_status_update, mark_completed, set_latest_report, modify, lift,
    ret, mongo, raise.
  fold st.
  destruct mongodb as [fault |]; cbn.
  - destruct (fault (create_job job_id data)) eqn:Hc; cbn;
      [destruct (fault (update_job _ _ _)); cbn; now split |].
    destruct (graph_exn (graph_run job_id data)) eqn:Hg; cbn;
      [destruct (fault (update_job _ _ _)); cbn; now split |].
    destruct (find_report st) as [rc | e] eqn:Hfind; cbn;
      [| destruct (fault (update_job _ _ _)); cbn; now split].
    destruct (truthy rc) eqn:Hrc; cbn; [| now split].
    destruct (py_len rc) eqn:Hlen; cbn;
      [| destruct (fault (update_job _ _ _)); cbn; now split].
    exfalso.
    destruct Hcase as [(f & e & [= <-] & Hf) | [H | [(e & H) | [(rc' & H & Hf)
                       | (rc' & e & H & Hl)]]]]; congruence.
  - destruct (graph_exn (graph_run job_id data)) eqn:Hg; cbn; [now split |].
    destruct (find_report st) as [rc | e] eqn:Hfind; cbn; [| now split].
    destruct (truthy rc) eqn:Hrc; cbn; [| now split].
    destruct (py_len rc) eqn:Hlen; cbn; [| now split].
    exfalso.
    destruct Hcase as [(f & e & [=] & Hf) | [H | [(e & H) | [(rc' & H & Hf)
                       | (rc' & e & H & Hl)]]]]; congruence.
Qed.

(** C10, as amended.  The latest-report slot is one module-level value.
    It is empty when the process starts.  A run of [process_research]
    writes it exactly when it has found a non-empty report in its final
    state: the slot then holds that report and the job's company,
    whatever it held before, the job is marked completed in the registry,
    and a configured [qa_stream] answers a question that is not blank
    from that report; a run whose graph raises or which finds no report
    leaves the slot as it was.  So a slot once filled is never emptied
    again.  [qa_stream] takes no job id and depends on the application
    state through the slot only; it answers from the entry of the slot,
    and with an HTTP error whenever the slot is empty or its entry holds
    no report, and whenever the question is empty or white space only. *)
Theorem latest_report_is_a_single_slot (job_id : string)
    (data : ResearchRequest) (w : World) (client : bool)
    (chat : ChatRequest) :
  let st := accumulate (snapshots (graph_run job_id data)) in
  let w' := (Process_research job_id data w).1 in
  LATEST_REPORT startup = None
  /\ (LATEST_REPORT w' = LATEST_REPORT w
      \/ exists rc,
           find_report st = Ok rc /\ truthy rc = true
           /\ LATEST_REPORT w' = Some [ ("company", PStr (company data));
                                        ("report", rc) ]
           /\ marked w' job_id "completed")
  /\ (LATEST_REPORT w <> None -> LATEST_REPORT w' <> None)
  /\ (forall w1 w2, LATEST_REPORT w1 = LATEST_REPORT w2 ->
      Qa_stream client chat w1 = Qa_stream client chat w2)
  /\ (no_report_loaded w = true ->
      (exists code detail, Qa_stream client chat w = HTTPException code detail)
      /\ (client = true -> all_space (question chat) = false ->
          Qa_stream client chat w =
            HTTPException 400 "No report loaded yet. Run research first."))
  /\ (all_space (question chat) = true ->
      (exists code detail, Qa_stream client chat w = HTTPException code detail)
      /\ (client = true ->
          Qa_stream client chat w = HTTPException 400 "Question is required"))
  /\ (forall rc n,
        (forall fault, mongodb = Some fault ->
           fault (create_job job_id data) = None) ->
        graph_exn (graph_run job_id data) = None ->
        find_report st = Ok rc -> truthy rc = true -> py_len rc = Ok n ->
        LATEST_REPORT w' = Some [ ("company", PStr (company data));
                                  ("report", rc) ]
        /\ marked w' job_id "completed"
        /\ (all_space (question chat) = false ->
            Qa_stream true chat w' =
              StreamingResponse
                [ ("system",
                   "You are a helpful assistant. Answer using ONLY the report context provided. If the answer is not clearly supported by the report, say you don't know. Be concise and avoid speculation.");
                  ("system",
                   "Report context for " +:+ company data +:+ ":"
                   +:+ nl +:+ nl +:+ py_str repr rc);
                  ("user", strip (question chat)) ]))
  /\ ((exists fault e,
         mongodb = Some fault /\ fault (create_job job_id data) = Some e)
      \/ graph_exn (graph_run job_id data) <> None
      \/ (exists e, find_report st = Raise e)
      \/ (exists rc, find_report st = Ok rc /\ truthy rc = false)
      \/ (exists rc e, find_report st = Ok rc /\ py_len rc = Raise e) ->
      LATEST_REPORT w' = LATEST_REPORT w /\ job_status w' = job_status w)
  /\ (forall latest,
        LATEST_REPORT w = Some latest ->
        truthy (get latest "report") = true ->
        all_space (question chat) = false ->
        Qa_stream true chat w =
          StreamingResponse
            (grounded_messages latest (strip (question chat)))).
Proof.
  intros st w'.
  pose proof (registry_and_slot repr now mongodb graph_run job_id data w)
    as Hslot. cbv zeta in Hslot. fold st in Hslot. fold w' in Hslot.
  split; [reflexivity |].
  split.
  { destruct Hslot as [[_ Hsame] | (rc & _ & Hfind & Hrc & Hnew & Hmark)];
      [now left | right; eauto]. }
  split.
  { destruct Hslot as [[_ ->] | (rc & _ & _ & _ & -> & _)];
      [tauto | discriminate]. }
  split.
  { intros w1 w2 Heq. unfold qa_stream. now rewrite Heq. }
  split.
  { intros Hnone. destruct client.
    - rewrite (qa_stream_no_report chat w Hnone). split.
      + destruct (String.eqb (strip (question chat)) ""); eauto.
      + intros _ Hq.
        destruct (String.eqb (strip (question chat)) "") eqn:E;
          [| reflexivity].
        apply String.eqb_eq, strip_empty_iff in E. congruence.
    - split; [cbn; eauto | discriminate]. }
  split.
  { intros Hblank. apply strip_empty_iff in Hblank.
    destruct client.
    - assert (Heq : Qa_stream true chat w =
                    HTTPException 400 "Question is required").
      { unfold qa_stream. cbn [negb]. now rewrite Hblank. }
      split; [eauto | auto].
    - split; [cbn; eauto | discriminate]. }
  split.
  { intros rc n Hc Hg Hfind Hrc Hlen.
    destruct (slot_written job_id data w rc n Hc Hg Hfind Hrc Hlen)
      as [Hnew Hmark].
    fold w' in Hnew, Hmark.
    split; [exact Hnew |]. split; [exact Hmark |].
    intros Hq.
    rewrite (qa_stream_loaded chat w' _ Hnew); [reflexivity | exact Hrc | exact Hq]. }
  split.
  { apply slot_kept. }
  intros latest. apply qa_stream_loaded.
Qed.
End LatestReport.

(** ** Concrete runs *)

Definition plain_repr (v : pyval) : string := "<object>".

Definition clock : string := "2025-01-01T00:00:00".

Definition acme : ResearchRequest :=
  {| company := "Acme"; company_url := None; industry := None;
     hq_location := None |}.

(** Scenario A: every category comes back empty, every briefing is empty,
    and compilation yields no report. *)
Definition scenario_A : GraphRun :=
  {| snapshots :=
       [ [ ("company", PStr "Acme"); ("job_id", PStr "job-1") ];
         [ ("financial_data", PDict []); ("news_data", PDict []);
           ("industry_data", PDict []); ("company_data", PDict []);
           ("auditor_data", PDict []) ];
         [ ("financial_briefing", PStr ""); ("news_briefing", PStr "");
           ("industry_briefing", PStr ""); ("company_briefing", PStr "");
           ("auditor_briefing", PStr ""); ("briefings", PDict []) ];
         [ ("report", PStr ""); ("editor", PDict [("report", PStr "")]) ] ];
     graph_events := [];
     graph_exn := None |}.

(** A run whose gathering stage raises. *)
Definition crashing_run : GraphRun :=
  {| snapshots := [ [ ("company", PStr "Acme") ] ];
     graph_events := [];
     graph_exn := Some (Exn "RuntimeError" "search failed") |}.

(** A run whose final state carries an error entry and no report. *)
Definition error_run : GraphRun :=
  {| snapshots := [ [ ("company", PStr "Acme") ];
                    [ ("error", PStr "boom") ] ];
     graph_events := [];
     graph_exn := None |}.

(** A run that compiles a report. *)
Definition report_run : GraphRun :=
  {| snapshots := [ [ ("company", PStr "Acme") ];
                    [ ("editor", PDict [("report", PStr "# Acme report")]) ];
                    [ ("report", PStr "# Acme report") ] ];
     graph_events := [];
     graph_exn := None |}.

(** C2. After Scenario A the job has been reported failed with "No report
    found", but the registry holds no entry for it, and the record that a
    later lookup creates says "pending".  The same holds after a run that
    ends in the top-level handler.  Only the completed branch writes to
    the registry. *)
Theorem failed_job_leaves_no_terminal_record :
  let run job (r : GraphRun) :=
    (process_research plain_repr clock None (fun _ _ => r) job acme startup).1 in
  last (delivered (run "job-1" scenario_A)) =
    Some (event "job-1" "failed"
            "Research completed but no report was generated" PNone
            (PStr "No report found"))
  /\ job_status (run "job-1" scenario_A) !! "job-1" = None
  /\ get (job_entry clock "job-1" (job_status (run "job-1" scenario_A)))
         "status" = PStr "pending"
  /\ last (delivered (run "job-2" crashing_run)) =
       Some (event "job-2" "failed" "Research failed: search failed" PNone
               (PStr "search failed"))
  /\ job_status (run "job-2" crashing_run) !! "job-2" = None
  /\ get (job_entry clock "job-2" (job_status (run "job-2" crashing_run)))
         "status" = PStr "pending".
Proof. repeat split; vm_compute; reflexivity. Qed.

(** The claim C1 as it stands fails on two runs: when the final state
    carries the error entry "boom" the error text is "Error: boom", and
    not "boom"; and when the graph raises, the job is reported failed
    with the text of the exception, which is neither "No report found"
    nor an error entry of the state. *)
Lemma propagated_error_text_differs :
  let run (r : GraphRun) :=
    (process_research plain_repr clock None (fun _ _ => r) "job-1" acme
       startup).1 in
  (report_text (accumulate (snapshots error_run)) = None
   /\ get (accumulate (snapshots error_run)) "error" = PStr "boom"
   /\ exists ev,
        last (delivered (run error_run)) = Some ev
        /\ ev_status ev = "failed"
        /\ ev_error ev = PStr "Error: boom"
        /\ ev_error ev <> PStr "boom")
  /\ (report_text (accumulate (snapshots crashing_run)) = None
      /\ get (accumulate (snapshots crashing_run)) "error" = PNone
      /\ exists ev,
           last (delivered (run crashing_run)) = Some ev
           /\ ev_status ev = "failed"
           /\ ev_error ev = PStr "search failed"
           /\ ev_error ev <> PStr "No report found").
Proof.
  split; (split; [reflexivity |]); (split; [reflexivity |]);
    eexists; (split; [vm_compute; reflexivity |]);
    repeat split; discriminate.
Qed.

Lemma no_fault_unconfigured : no_fault None.
Proof. intros fault c H. discriminate H. Defined.

Lemma job_completes_iff_report_found_witness :
  job_status startup !! "job-1" = None
  /\ no_fault None
  /\ graph_exn report_run = None
  /\ report_typed (accumulate (snapshots report_run)) = true
  /\ marked (process_research plain_repr clock None (fun _ _ => report_run)
               "job-1" acme startup).1 "job-1" "completed".
Proof.
  split; [reflexivity |].
  split; [exact no_fault_unconfigured |].
  split; [reflexivity |].
  split; [reflexivity |].
  apply (job_completes_iff_report_found plain_repr clock None
           (fun _ _ => report_run) "job-1" acme startup
           eq_refl no_fault_unconfigured eq_refl eq_refl).
  discriminate.
Defined.

(** *** The slot after a completed run, and after a persistence fault *)

(** The state of a process that has completed a job for another company. *)
Definition after_globex : World :=
  {| job_status := ∅;
     LATEST_REPORT := Some [ ("company", PStr "Globex");
                             ("report", PStr "# Globex report") ];
     mongo_calls := []; delivered := [] |}.

Definition acme_question : ChatRequest :=
  {| question := " What does Acme sell? " |}.

Lemma latest_report_is_a_single_slot_witness :
  let w' := (process_research plain_repr clock None (fun _ _ => report_run)
               "job-1" acme after_globex).1 in
  graph_exn report_run = None
  /\ find_report (accumulate (snapshots report_run)) = Ok (PStr "# Acme report")
  /\ LATEST_REPORT w' = Some [ ("company", PStr "Acme");
                               ("report", PStr "# Acme report") ]
  /\ qa_stream plain_repr true acme_question w' =
       StreamingResponse
         [ ("system",
            "You are a helpful assistant. Answer using ONLY the report context provided. If the answer is not clearly supported by the report, say you don't know. Be concise and avoid speculation.");
           ("system",
            "Report context for Acme:" +:+ nl +:+ nl +:+ "# Acme report");
           ("user", "What does Acme sell?") ].
Proof.
  intros w'.
  destruct (latest_report_is_a_single_slot plain_repr clock None
              (fun _ _ => report_run) "job-1" acme after_globex true
              acme_question)
    as (_ & _ & _ & _ & _ & _ & Hwritten & _).
  destruct (Hwritten (PStr "# Acme report") 13
              ltac:(discriminate) eq_refl eq_refl eq_refl eq_refl)
    as (Hslot & _ & Hqa).
  split; [reflexivity |]. split; [reflexivity |].
  split; [exact Hslot |].
  exact (Hqa eq_refl).
Defined.

(** A persistence service that refuses to record a completion. *)
Definition rejects_completed (c : MongoCall) : option exn :=
  match c with
  | update_job _ status _ =>
      if String.eqb status "completed"
      then Some (Exn "WriteError" "not primary")
      else None
  | _ => None
  end.

(** The claim C10 as it stands fails on a run that finds its report and
    fails afterwards.  The slot is written (line 161) before the
    persistence service is told of the completion (line 166); when that
    call raises, the handler reports the job failed to the observers and
    to the service, no [completed] event is ever sent, and yet the slot
    holds the report of that job and the next question is answered from
    it. *)
Lemma failed_job_fills_the_slot :
  let out := process_research plain_repr clock (Some rejects_completed)
               (fun _ _ => report_run) "job-1" acme startup in
  LATEST_REPORT startup = None
  /\ out.2 = Ok tt
  /\ map ev_status (delivered out.1) = ["processing"; "failed"]
  /\ last (delivered out.1) =
       Some (event "job-1" "failed" "Research failed: not primary" PNone
               (PStr "not primary"))
  /\ mongo_calls out.1 =
       [ create_job "job-1" acme; update_job "job-1" "completed" None;
         update_job "job-1" "failed" (Some "not primary") ]
  /\ LATEST_REPORT out.1 = Some [ ("company", PStr "Acme");
                                  ("report", PStr "# Acme report") ]
  /\ qa_stream plain_repr true acme_question out.1 =
       StreamingResponse
         [ ("system",
            "You are a helpful assistant. Answer using ONLY the report context provided. If the answer is not clearly supported by the report, say you don't know. Be concise and avoid speculation.");
           ("system",
            "Report context for Acme:" +:+ nl +:+ nl +:+ "# Acme report");
           ("user", "What does Acme sell?") ].
Proof. repeat split; vm_compute; reflexivity. Qed.

(** *** A schedule of the fan-out, move by move *)

Inductive move :=
| Admission (i : nat)
| Completion (i : nat).

Section Schedules.
Variable prompts : pyval -> pyval -> pyval -> pydict string.
Variable default_prompt : string.
Variable chat_completions_create : string -> result (list (option string)).

Definition perform (m : move) (f : Fanout) : option Fanout :=
  match m with
  | Admission i => acquire prompts default_prompt i f
  | Completion i => complete chat_completions_create i f
  end.

Fixpoint play (schedule : list move) (f : Fanout) : option Fanout :=
  match schedule with
  | [] => Some f
  | m :: rest =>
      match perform m f with
      | Some f' => play rest f'
      | None => None
      end
  end.

Lemma play_reaches (schedule : list move) (f f' : Fanout) :
  play schedule f = Some f' ->
  rtc (step prompts default_prompt chat_completions_create) f f'.
Proof.
  revert f. induction schedule as [| m rest IH]; intros f; simpl.
  - intros [= <-]. apply rtc_refl.
  - destruct (perform m f) as [f1 |] eqn:Hm; [| discriminate].
    intros Hrest. eapply rtc_l; [| exact (IH f1 Hrest)].
    destruct m as [i | i]; simpl in Hm.
    + eapply step_acquire. exact Hm.
    + eapply step_complete. exact Hm.
Defined.
End Schedules.

Definition no_templates (company industry hq_location : pyval)
    : pydict string := [].

(** A model that fails on the prompt holding the second document and
    answers every other prompt. *)
Definition sample_model (prompt : string) : result (list (option string)) :=
  match index 0 "a.example/2" prompt with
  | Some _ => Raise (Exn "RateLimitError" "too many requests")
  | None => Ok [Some "  * Acme sells anvils.  "]
  end.

Definition one_document (u : string) : pyval :=
  of_docs (DocsDict [(u, scored u (9 # 10))]).

(** Five categories with curated input. *)
Definition five_of_five : pydict pyval :=
  [ ("company", PStr "Acme"); ("job_id", PStr "job-1");
    ("websocket_manager", PObject);
    ("curated_financial_data", one_document "https://a.example/1");
    ("curated_news_data", one_document "https://a.example/2");
    ("curated_industry_data", one_document "https://a.example/3");
    ("curated_company_data", one_document "https://a.example/4");
    ("curated_auditor_data", one_document "https://a.example/5") ].

(** Scenario B: two of the five categories have curated input. *)
Definition two_of_five : pydict pyval :=
  [ ("company", PStr "Acme"); ("job_id", PStr "job-1");
    ("websocket_manager", PObject);
    ("curated_financial_data", one_document "https://a.example/1");
    ("curated_news_data", PDict []);
    ("curated_company_data", one_document "https://a.example/4") ].

Definition empty_outbox : Outbox := {| sent := []; requests := [] |}.

Definition planned_five : Fanout := (plan_briefings (enter five_of_five empty_outbox)).1.

Definition planned_two : Fanout := (plan_briefings (enter two_of_five empty_outbox)).1.

(** Three coroutines admitted and one answered. *)
Definition midway : list move :=
  [Admission 0; Admission 1; Completion 0; Admission 0].

Definition midway_store : Fanout :=
  default planned_five
    (play no_templates "" sample_model midway planned_five).

Definition final_five : Fanout :=
  drain no_templates "" sample_model (weight midway_store) midway_store.

Definition final_two : Fanout :=
  drain no_templates "" sample_model (weight planned_two) planned_two.

Lemma fan_out_is_bounded_and_completes_witness :
  plan_briefings (enter five_of_five empty_outbox) = (planned_five, Ok tt)
  /\ rtc (step no_templates "" sample_model) planned_five midway_store
  /\ length (in_flight midway_store) <= 2
  /\ length (in_flight midway_store) = 2
  /\ length (waiting midway_store) = 2
  /\ finished final_five = true
  /\ map (fun r => get r "success") (results final_five) =
       [PBool true; PBool true; PBool false; PBool true; PBool true]
  /\ map (fun r => get r "category") (results final_five) =
       [PStr "financial"; PStr "industry"; PStr "news"; PStr "company";
        PStr "auditor"]
  /\ raised final_five = [].
Proof.
  assert (Hplan : plan_briefings (enter five_of_five empty_outbox)
                  = (planned_five, Ok tt)) by (vm_compute; reflexivity).
  assert (Hreach : rtc (step no_templates "" sample_model) planned_five
                     midway_store).
  { apply (play_reaches no_templates "" sample_model midway).
    vm_compute. reflexivity. }
  pose proof (fan_out_is_bounded_and_completes no_templates ""
                sample_model five_of_five empty_outbox planned_five
                midway_store Hplan Hreach)
    as (Hbound & _ & _ & _ & _ & _ & Hend).
  split; [exact Hplan |]. split; [exact Hreach |].
  split; [exact Hbound |].
  split; [vm_compute; reflexivity |].
  split; [vm_compute; reflexivity |].
  split; [exact Hend |].
  split; [vm_compute; reflexivity |].
  split; vm_compute; reflexivity.
Defined.

Lemma empty_categories_get_empty_briefings_witness :
  plan_briefings (enter two_of_five empty_outbox) = (planned_two, Ok tt)
  /\ rtc (step no_templates "" sample_model) planned_two final_two
  /\ finished final_two = true
  /\ length (with_input two_of_five) = 2
  /\ length (calls final_two) = 2
  /\ dict_get (state final_two) "news_briefing" = Some (PStr "")
  /\ dict_get (state final_two) "auditor_briefing" = Some (PStr "").
Proof.
  assert (Hplan : plan_briefings (enter two_of_five empty_outbox)
                  = (planned_two, Ok tt)) by (vm_compute; reflexivity).
  assert (Hreach : rtc (step no_templates "" sample_model) planned_two
                     final_two).
  { apply (play_reaches no_templates "" sample_model
             [Admission 0; Admission 0; Completion 0; Completion 0]).
    vm_compute. reflexivity. }
  pose proof (empty_categories_get_empty_briefings no_templates ""
                sample_model two_of_five empty_outbox planned_two final_two
                Hplan Hreach) as (_ & Hempty & _ & _ & Htwo).
  split; [exact Hplan |]. split; [exact Hreach |].
  split; [vm_compute; reflexivity |].
  split; [vm_compute; reflexivity |].
  split; [apply Htwo; vm_compute; reflexivity |].
  split.
  - apply (Hempty "news_data" "news" "news_briefing");
      [vm_compute; tauto | vm_compute; reflexivity].
  - apply (Hempty "auditor_data" "auditor" "auditor_briefing");
      [vm_compute; tauto | vm_compute; reflexivity].
Defined.

(** *** A gathering run *)

Definition failing_planner (st : pydict pyval) : result (list string) :=
  Raise (Exn "RuntimeError" "query planner unavailable").

Definition no_documents (n : nat) (q : string)
    : result (pydict Document) := Ok [].

Definition observed_state : Gathering :=
  {| research_state := [ ("company", PStr "Acme");
                         ("websocket_manager", PObject);
                         ("job_id", PStr "job-1") ];
     published := [] |}.

Lemma gathering_exception_propagates_witness :
  let e := Exn "RuntimeError" "query planner unavailable" in
  gather plain_repr failing_planner no_documents (PStr "Acme") PObject
    (PStr "job-1") observed_state = (observed_state, Raise e)
  /\ analyze plain_repr failing_planner no_documents observed_state =
       ({| research_state := research_state observed_state;
           published := [failure_event (PStr "job-1") e] |}, Raise e).
Proof.
  intros e.
  assert (H : gather plain_repr failing_planner no_documents (PStr "Acme")
                PObject (PStr "job-1") observed_state
              = (observed_state, Raise e))
    by (apply gather_raises_on_planning; reflexivity).
  split; [exact H |].
  exact (gathering_exception_propagates plain_repr failing_planner
           no_documents observed_state observed_state e H).
Defined.

Definition page (ttl body : string) : Document :=
  {| url := None; title := Some ttl; raw_content := None;
     content := Some body; query := None; source := None;
     score := Some (1 # 2); evaluation := None |}.

(** Three searches: the first two return the company's home page, the
    third does not. *)
Definition sample_search (n : nat) (q : string) : result (pydict Document) :=
  match n with
  | 0 => Ok [ ("https://acme.example", page "Acme" "first payload") ]
  | 1 => Ok [ ("https://acme.example", page "Acme" "second payload");
              ("https://shop.example", page "Shop" "listing") ]
  | _ => Ok [ ("https://news.example", page "News" "article") ]
  end.

(** The document seeded from the site snapshot, at the same URL. *)
Definition seeded_home : pydict Document :=
  [ ("https://acme.example",
     {| url := Some "https://acme.example"; title := Some "Acme";
        raw_content := Some "snapshot"; content := None;
        query := Some "E-commerce audit info for Acme";
        source := Some "site_scrape"; score := Some 1%Q;
        evaluation := None |}) ].

Definition merged_sample : pydict Document :=
  match search_all sample_search
          [(0, "acme reviews"); (1, "acme store"); (2, "acme news")]
          seeded_home with
  | Ok result => result
  | Raise _ => []
  end.

Lemma url_collision_is_last_write_wins_witness :
  NoDup (dict_keys seeded_home)
  /\ search_all sample_search
       ([(0, "acme reviews")] ++ (1, "acme store") :: [(2, "acme news")])
       seeded_home = Ok merged_sample
  /\ dict_get merged_sample "https://acme.example" =
       Some (set_query (page "Acme" "second payload") "acme store")
  /\ count_occ string_dec (dict_keys merged_sample) "https://acme.example" = 1.
Proof.
  assert (Hseed : NoDup (dict_keys seeded_home)) by apply NoDup_singleton.
  assert (Hall : search_all sample_search
            ([(0, "acme reviews")] ++ (1, "acme store") :: [(2, "acme news")])
            seeded_home = Ok merged_sample) by reflexivity.
  assert (Hdocs : NoDup (dict_keys
            [ ("https://acme.example", page "Acme" "second payload");
              ("https://shop.example", page "Shop" "listing") ])).
  { apply NoDup_cons. split; [| apply NoDup_singleton].
    intros Hin. apply list_elem_of_singleton in Hin. discriminate. }
  assert (Hlater : forall n' q' documents',
            In (n', q') [(2, "acme news")] ->
            sample_search n' q' = Ok documents' ->
            dict_get documents' "https://acme.example" = None).
  { intros n' q' documents' [[= <- <-] | []] [= <-]. reflexivity. }
  pose proof (url_collision_is_last_write_wins sample_search
                [(0, "acme reviews")] [(2, "acme news")] 1 "acme store"
                "https://acme.example" seeded_home merged_sample _
                (page "Acme" "second payload")
                Hseed Hall eq_refl Hdocs eq_refl Hlater)
    as (Hget & _ & Hone).
  split; [exact Hseed |]. split; [exact Hall |].
  split; [exact Hget | exact Hone].
Defined.

(** *** Outcomes of one briefing *)

Example briefing_outcomes :
  let briefing model :=
    (generate_category_briefing no_templates "" model
       (one_document "https://a.example/1") "company" [] empty_outbox).2 in
  briefing (fun _ => Ok [Some "  * Acme sells anvils.  "; Some "other"]) =
    Ok {| briefing_content := "* Acme sells anvils." |}
  /\ briefing (fun _ => Raise (Exn "APITimeoutError" "timed out")) =
       Ok {| briefing_content := "" |}
  /\ briefing (fun _ => Ok [Some "   "]) = Ok {| briefing_content := "" |}
  /\ briefing (fun _ => Ok [None]) = Ok {| briefing_content := "" |}
  /\ briefing (fun _ => Ok []) = Ok {| briefing_content := "" |}.
Proof. repeat split; vm_compute; reflexivity. Qed.

(** The claim C5 as it stands fails where the [docs] argument is not a
    collection of well-formed documents.  The code that counts, ranks
    and joins the documents (lines 40-216) comes before the [try] of
    line 227, and what it raises leaves the function: a number has no
    length (line 40), a member that is not a dictionary has no [get]
    (line 195), nor has an evaluation that is [None] (line 200), and a
    content that is [None] has no length (line 209).  With a manager and
    a job id the start event has been sent by then; the model is never
    asked. *)
Lemma ill_formed_documents_raise :
  let context :=
    [ ("websocket_manager", PObject); ("job_id", PStr "job-1") ] in
  let briefing docs :=
    generate_category_briefing no_templates "" sample_model docs "news"
      context empty_outbox in
  let unrated := PList [PDict [ ("title", PStr "Acme");
                                ("content", PStr "Acme sells anvils.");
                                ("evaluation", PNone) ]] in
  let blank := PList [PDict [("title", PStr "Acme"); ("content", PNone)]] in
  (briefing (PInt 3)).2 =
    Raise (Exn "TypeError" "object of type 'int' has no len()")
  /\ (briefing (PList [PInt 3])).2 =
       Raise (Exn "AttributeError" "'int' object has no attribute 'get'")
  /\ (briefing unrated).2 =
       Raise (Exn "AttributeError"
                  "'NoneType' object has no attribute 'get'")
  /\ map ev_status (sent (briefing unrated).1) = ["briefing_start"]
  /\ requests (briefing unrated).1 = []
  /\ (briefing blank).2 =
       Raise (Exn "TypeError" "object of type 'NoneType' has no len()").
Proof. repeat split; vm_compute; reflexivity. Qed.

(** Dictionaries written out key by key are read as the documents they
    stand for: one without any key gives an entry without title and
    content, a score may be a number or its text, and content under
    [raw_content] comes before content under [content]. *)
Example untyped_documents_are_read :
  let prompt docs :=
    requests (generate_category_briefing no_templates "" sample_model docs
                "news" [] empty_outbox).1 in
  let listing entries :=
    [ nl +:+ nl
      +:+ "Analyze the following documents and extract key information. Provide only the briefing, no explanations or commentary:"
      +:+ nl +:+ nl +:+ separator +:+ str_join separator entries
      +:+ separator +:+ nl +:+ nl ] in
  prompt (PList [PDict []])
    = listing ["Title: " +:+ nl +:+ nl +:+ "Content: "]
  /\ prompt (PDict
               [ ("u1", PDict [ ("title", PStr "Low");
                                ("content", PStr "b");
                                ("evaluation",
                                 PDict [("overall_score", PStr "0.5")]) ]);
                 ("u2", PDict [ ("title", PStr "High");
                                ("raw_content", PStr "a");
                                ("content", PStr "ignored");
                                ("evaluation",
                                 PDict [("overall_score", PFloat (9 # 10))]) ]) ])
     = listing [ "Title: High" +:+ nl +:+ nl +:+ "Content: a";
                 "Title: Low" +:+ nl +:+ nl +:+ "Content: b" ].
Proof. repeat split; vm_compute; reflexivity. Qed.

(** *** Oversized input for one briefing *)

(** A document with a body of [n] characters. *)
Definition bulky (n : nat) (ttl : string) (s : Q) : Document :=
  {| url := None; title := Some ttl; raw_content := Some (str_repeat "x" n);
     content := None; query := None; source := None; score := None;
     evaluation := Some {| overall_score := Some s |} |}.

(** Sixteen documents of 9000 characters each, the last with the highest
    score. *)
Definition oversized : Docs :=
  DocsList (map (fun i => bulky (Z.to_nat 9000) (str_of_nat i)
                            (if Nat.eqb i 15 then 9 # 10 else 5 # 10))
                (seq 0 16)).

(** Every body is cut to 8000 characters and marked; fourteen whole
    entries fit below 120000 characters, starting with the best-scored
    document, and the last two documents of the ranking are left out. *)
Example oversized_keeps_fourteen :
  map (fun x => title (snd x)) (sorted_items oversized) =
    map (fun i => Some (str_of_nat i))
        [15; 0; 1; 2; 3; 4; 5; 6; 7; 8; 9; 10; 11; 12; 13; 14]
  /\ length (doc_texts_of oversized) = 14
  /\ map len (doc_texts_of oversized) =
       [8043; 8042; 8042; 8042; 8042; 8042; 8042; 8042; 8042; 8042; 8042;
        8043; 8043; 8043]%Z
  /\ total_len (doc_texts_of oversized) = 112592%Z.
Proof. repeat split; vm_compute; reflexivity. Qed.

(** * Further properties of the code *)

(** * Further properties of the code *)

(** ** Accumulation of the snapshots ([application.py], lines 145-147) *)

Lemma dict_get_set_is_Some {V} (d : pydict V) (k k' : string) (v : V) :
  is_Some (dict_get d k') -> is_Some (dict_get (dict_set d k v) k').
Proof.
  intros H. destruct (string_dec k k') as [-> | Hne].
  - rewrite dict_get_set_eq. eauto.
  - now rewrite dict_get_set_ne.
Qed.

Lemma dict_update_keeps {V} (d s : pydict V) (k : string) :
  is_Some (dict_get d k) -> is_Some (dict_get (dict_update d s) k).
Proof.
  unfold dict_update. revert d.
  induction s as [| [k' v'] s IH]; intros d H; simpl; [exact H |].
  apply IH. now apply dict_get_set_is_Some.
Qed.

Lemma dict_update_other {V} (d s : pydict V) (k : string) :
  dict_get s k = None -> dict_get (dict_update d s) k = dict_get d k.
Proof.
  unfold dict_update. revert d.
  induction s as [| [k' v'] s IH]; intros d H; simpl; [reflexivity |].
  simpl in H. destruct (String.eqb k' k) eqn:E; [discriminate |].
  rewrite IH by exact H. apply dict_get_set_ne. now apply String.eqb_neq.
Qed.

Lemma dict_update_written {V} (d s : pydict V) (k : string) (v : V) :
  NoDup (dict_keys s) -> dict_get s k = Some v ->
  dict_get (dict_update d s) k = Some v.
Proof.
  unfold dict_update. revert d.
  induction s as [| [k' v'] s IH]; intros d Hnd H; simpl; [discriminate |].
  simpl in H, Hnd. apply NoDup_cons in Hnd as [Hk Hnd].
  destruct (String.eqb k' k) eqn:E.
  - apply String.eqb_eq in E. subst k'. injection H as ->.
    change (dict_get (dict_update (dict_set d k v) s) k = Some v).
    rewrite dict_update_other; [apply dict_get_set_eq |].
    apply dict_get_None_keys. intros Hin. apply Hk. now apply list_elem_of_In.
  - now apply IH.
Qed.

Lemma dict_update_NoDup {V} (d s : pydict V) :
  NoDup (dict_keys d) -> NoDup (dict_keys (dict_update d s)).
Proof.
  unfold dict_update. revert d.
  induction s as [| [k v] s IH]; intros d H; simpl; [exact H |].
  apply IH. now apply dict_set_NoDup.
Qed.

Lemma fold_update_keeps (snaps : list (pydict pyval)) (acc : pydict pyval)
    (k : string) :
  is_Some (dict_get acc k) ->
  is_Some (dict_get (fold_left dict_update snaps acc) k).
Proof.
  revert acc. induction snaps as [| s snaps IH]; intros acc H; simpl;
    [exact H |].
  apply IH. now apply dict_update_keeps.
Qed.

Lemma fold_update_other (snaps : list (pydict pyval)) (acc : pydict pyval)
    (k : string) :
  (forall s, In s snaps -> dict_get s k = None) ->
  dict_get (fold_left dict_update snaps acc) k = dict_get acc k.
Proof.
  revert acc. induction snaps as [| s snaps IH]; intros acc H; simpl;
    [reflexivity |].
  rewrite IH by (intros s' Hs'; apply H; now right).
  apply dict_update_other. apply H. now left.
Qed.

Lemma fold_update_NoDup (snaps : list (pydict pyval)) (acc : pydict pyval) :
  NoDup (dict_keys acc) ->
  NoDup (dict_keys (fold_left dict_update snaps acc)).
Proof.
  revert acc. induction snaps as [| s snaps IH]; intros acc H; simpl;
    [exact H |].
  apply IH. now apply dict_update_NoDup.
Qed.

(** X1. The state accumulated from the snapshots of a run holds, under
    every key, the value of the last snapshot that carries the key: later
    snapshots without the key leave it alone, earlier ones are
    overwritten. *)
Theorem accumulate_last_snapshot_wins (before after : list (pydict pyval))
    (s : pydict pyval) (k : string) (v : pyval) :
  NoDup (dict_keys s) ->
  dict_get s k = Some v ->
  (forall s', In s' after -> dict_get s' k = None) ->
  dict_get (accumulate (before ++ s :: after)) k = Some v.
Proof.
  intros Hnd Hget Hafter. unfold accumulate.
  rewrite fold_left_app. simpl.
  rewrite fold_update_other by exact Hafter.
  now apply dict_update_written.
Qed.

Lemma accumulate_last_snapshot_wins_witness :
  NoDup (dict_keys [("report", PStr "final"); ("status", PStr "done")])
  /\ dict_get (accumulate
                 ([ [("report", PStr "draft"); ("company", PStr "Acme")] ]
                  ++ [("report", PStr "final"); ("status", PStr "done")]
                  :: [ [("company", PStr "Acme Inc")] ]))
              "report" = Some (PStr "final").
Proof.
  assert (Hnd : NoDup (dict_keys [("report", PStr "final");
                                  ("status", PStr "done")])).
  { apply NoDup_cons. split; [| apply NoDup_singleton].
    intros Hin. apply list_elem_of_singleton in Hin. discriminate. }
  split; [exact Hnd |].
  apply (accumulate_last_snapshot_wins _ _ _ "report" (PStr "final") Hnd
           eq_refl).
  intros s' [<- | []]. reflexivity.
Defined.

(** X2. Accumulation is monotone: a key populated by the snapshots seen
    so far is still populated after any further snapshots, and the
    accumulated state never holds a key twice. *)
Theorem accumulate_never_drops_a_key (seen more : list (pydict pyval))
    (k : string) :
  (is_Some (dict_get (accumulate seen) k) ->
   is_Some (dict_get (accumulate (seen ++ more)) k))
  /\ NoDup (dict_keys (accumulate (seen ++ more))).
Proof.
  unfold accumulate. split.
  - intros H. rewrite fold_left_app. now apply fold_update_keeps.
  - apply fold_update_NoDup. apply NoDup_nil_2.
Qed.

Lemma accumulate_never_drops_a_key_witness :
  is_Some (dict_get (accumulate [ [("company", PStr "Acme")] ]) "company")
  /\ is_Some (dict_get (accumulate ([ [("company", PStr "Acme")] ]
                                   ++ [ [("report", PStr "r")]; [] ]))
                       "company").
Proof.
  assert (H : is_Some (dict_get (accumulate [ [("company", PStr "Acme")] ])
                         "company")) by (eexists; reflexivity).
  split; [exact H |].
  exact (proj1 (accumulate_never_drops_a_key [ [("company", PStr "Acme")] ]
                  [ [("report", PStr "r")]; [] ] "company") H).
Defined.

(** ** The failure paths of [process_research]
    ([application.py], lines 128-202) *)

Section FailurePaths.
Variable repr : pyval -> string.
Variable now : string.
Variable mongodb : option (MongoCall -> option exn).
Variable graph_run : string -> ResearchRequest -> GraphRun.

#[local] Abbreviation Process_research :=
  (process_research repr now mongodb graph_run).

(** X3. When the graph raises and the persistence service does not, the
    run ends normally in the top-level handler: the events of the graph
    are followed by one [failed] event whose error text is the text of the
    exception, the failure is mirrored to a configured persistence
    service, and neither the registry nor the latest-report slot is
    touched, whatever the snapshots held before the exception. *)
Theorem graph_exception_fails_the_job (job_id : string)
    (data : ResearchRequest) (w : World) (e : exn) :
  no_fault mongodb ->
  graph_exn (graph_run job_id data) = Some e ->
  Process_research job_id data w =
    ({| job_status := job_status w;
        LATEST_REPORT := LATEST_REPORT w;
        mongo_calls :=
          (mongo_calls w ++ mirrored mongodb [create_job job_id data])
          ++ mirrored mongodb [update_job job_id "failed" (Some (exn_str e))];
        delivered :=
          ((delivered w ++ [event job_id "processing" "Starting research"
                              PNone PNone])
           ++ graph_events (graph_run job_id data))
          ++ [event job_id "failed" ("Research failed: " +:+ exn_str e)
                PNone (PStr (exn_str e))] |},
     Ok tt).
Proof.
  intros Hnf Hg.
  unfold process_research, try_except, bind, drive, deliver,
    send_status_update, modify, lift, ret, raise.
  rewrite (mongo_no_fault mongodb _ _ Hnf). cbn.
  rewrite Hg. cbn.
  rewrite (mongo_no_fault mongodb _ _ Hnf). cbn.
  reflexivity.
Qed.

(** X4. A run that ends without a report, with nothing raised, tells the
    persistence service about the creation of the job and nothing else:
    the stored job is never given a terminal status. *)
Theorem no_report_is_not_mirrored (job_id : string) (data : ResearchRequest)
    (w : World) (rc : pyval) :
  let st := accumulate (snapshots (graph_run job_id data)) in
  let w' := (Process_research job_id data w).1 in
  no_fault mongodb ->
  graph_exn (graph_run job_id data) = None ->
  find_report st = Ok rc ->
  truthy rc = false ->
  mongo_calls w' = mongo_calls w ++ mirrored mongodb [create_job job_id data]
  /\ (forall status error,
        ~ In (update_job job_id status error)
             (mirrored mongodb [create_job job_id data]))
  /\ exists ev, last (delivered w') = Some ev /\ ev_status ev = "failed".
Proof.
  intros st w' Hnf Hg Hfind Hrc. subst w'.
  rewrite (process_research_no_report repr now mongodb graph_run job_id data
             w rc Hnf Hg Hfind Hrc).
  cbn [fst mongo_calls delivered]. split; [reflexivity |]. split.
  - intros status error. unfold mirrored.
    destruct mongodb; simpl; [intros [H | []]; discriminate | intros []].
  - eexists. split; [apply last_snoc | reflexivity].
Qed.
End FailurePaths.

(** X5. When the persistence service raises while the handler mirrors a
    failure, that second exception leaves [process_research]; the [failed]
    event for the first one has been published before. *)
Theorem handler_fault_escapes_after_the_broadcast (repr : pyval -> string)
    (now : string) (fault : MongoCall -> option exn)
    (graph_run : string -> ResearchRequest -> GraphRun)
    (job_id : string) (data : ResearchRequest) (w : World) (e e2 : exn) :
  fault (create_job job_id data) = None ->
  graph_exn (graph_run job_id data) = Some e ->
  fault (update_job job_id "failed" (Some (exn_str e))) = Some e2 ->
  let out := process_research repr now (Some fault) graph_run job_id data w in
  out.2 = Raise e2
  /\ last (delivered out.1) =
       Some (event job_id "failed" ("Research failed: " +:+ exn_str e)
               PNone (PStr (exn_str e)))
  /\ job_status out.1 = job_status w.
Proof.
  intros Hc Hg Hu.
  unfold process_research, try_except, bind, drive, deliver,
    send_status_update, modify, lift, ret, raise, mongo.
  rewrite Hc. cbn. rewrite Hg. cbn. rewrite Hu. cbn.
  split; [reflexivity |]. split; [apply last_snoc | reflexivity].
Qed.

(** A persistence service that is down. *)
Definition mongo_down (c : MongoCall) : option exn :=
  match c with
  | update_job _ _ _ => Some (Exn "ServerSelectionTimeoutError" "no servers")
  | _ => None
  end.

Lemma graph_exception_fails_the_job_witness :
  no_fault None
  /\ graph_exn crashing_run = Some (Exn "RuntimeError" "search failed")
  /\ (process_research plain_repr clock None (fun _ _ => crashing_run)
        "job-2" acme startup).2 = Ok tt.
Proof.
  split; [exact no_fault_unconfigured |]. split; [reflexivity |].
  rewrite (graph_exception_fails_the_job plain_repr clock None
             (fun _ _ => crashing_run) "job-2" acme startup _
             no_fault_unconfigured eq_refl).
  reflexivity.
Defined.

(** A persistence service that accepts every call. *)
Definition mongo_up (c : MongoCall) : option exn := None.

Lemma no_report_is_not_mirrored_witness :
  let w' := (process_research plain_repr clock (Some mongo_up)
               (fun _ _ => scenario_A) "job-1" acme startup).1 in
  no_fault (Some mongo_up)
  /\ graph_exn scenario_A = None
  /\ find_report (accumulate (snapshots scenario_A)) = Ok (PStr "")
  /\ mongo_calls w' = [create_job "job-1" acme]
  /\ exists ev, last (delivered w') = Some ev /\ ev_status ev = "failed".
Proof.
  intros w'.
  assert (Hup : no_fault (Some mongo_up)).
  { intros fault c [= <-]. reflexivity. }
  destruct (no_report_is_not_mirrored plain_repr clock (Some mongo_up)
              (fun _ _ => scenario_A) "job-1" acme startup (PStr "")
              Hup eq_refl eq_refl eq_refl)
    as (Hcalls & _ & Hlast).
  split; [exact Hup |]. split; [reflexivity |]. split; [reflexivity |].
  split; [exact Hcalls | exact Hlast].
Defined.

Lemma handler_fault_escapes_after_the_broadcast_witness :
  mongo_down (create_job "job-2" acme) = None
  /\ graph_exn crashing_run = Some (Exn "RuntimeError" "search failed")
  /\ (process_research plain_repr clock (Some mongo_down)
        (fun _ _ => crashing_run) "job-2" acme startup).2 =
     Raise (Exn "ServerSelectionTimeoutError" "no servers").
Proof.
  split; [reflexivity |]. split; [reflexivity |].
  exact (proj1 (handler_fault_escapes_after_the_broadcast plain_repr clock
                  mongo_down (fun _ _ => crashing_run) "job-2" acme startup
                  _ _ eq_refl eq_refl eq_refl)).
Defined.

(** ** Retrieval routes ([application.py], lines 308-329) *)

(** What a route gives back: a JSON body, or an [HTTPException]. *)
Inductive Answer :=
| Body (v : pyval)
| HTTPError (status_code : nat) (detail : string).

(** The read side of the persistence service: [mongodb.get_job] and
    [mongodb.get_report], which answer [None] for an unknown id. *)
Record MongoReads := {
  get_job : string -> pyval;
  get_report : string -> pyval
}.

(** Lines 308-315. *)
Definition get_research (mongodb : option MongoReads) (job_id : string)
    : Answer :=
  match mongodb with
  | None => HTTPError 501 "Database persistence not configured"
  | Some db =>
      let job := get_job db job_id in
      if truthy job then Body job
      else HTTPError 404 "Research job not found"
  end.

(** Lines 317-329. *)
Definition get_research_report (mongodb : option MongoReads)
    (job_id : string) (w : World) : Answer :=
  match mongodb with
  | None =>
      match job_status w !! job_id with
      | Some result =>
          let report := get result "report" in
          if truthy report then Body (PDict [("report", report)])
          else HTTPError 404 "Report not found"
      | None => HTTPError 404 "Report not found"
      end
  | Some db =>
      let report := get_report db job_id in
      if truthy report then Body report
      else HTTPError 404 "Research report not found"
  end.

(** ** The status stream ([application.py], lines 281-306) *)

(** The calls made to the manager's registration table. *)
Inductive ManagerCall :=
| connect (websocket : nat) (job_id : string)
| disconnect (websocket : nat) (job_id : string).

(** The application state together with the registrations asked of the
    manager. *)
Record Hub := {
  app : World;
  manager_calls : list ManagerCall
}.

(** How a connection ends: the client goes away, or reading fails. *)
Inductive Closing :=
| WebSocketDisconnect
| ReceiveError (e : exn).

(** One client connection: what [accept] raises if anything, the text
    frames the client sends, and how the connection ends. *)
Record Client := {
  accept : option exn;
  frames : list string;
  closing : Closing
}.

Definition note (c : ManagerCall) : M Hub unit :=
  modify (fun h => {| app := app h; manager_calls := manager_calls h ++ [c] |}).

(** Run a computation on the application state inside the hub. *)
Definition on_app {A} (m : M World A) : M Hub A :=
  fun h => let (w, r) := m (app h) in
           ({| app := w; manager_calls := manager_calls h |}, r).

(** [d[k]] *)
Definition item (d : pydict pyval) (k : string) : result pyval :=
  match dict_get d k with
  | Some v => Ok v
  | None => Raise (Exn "KeyError" k)
  end.

(** Lines 297-302: the frames are read and dropped until the connection
    ends. *)
Fixpoint receive_loop (websocket : nat) (job_id : string)
    (incoming : list string) (ending : Closing) : M Hub unit :=
  match incoming with
  | _ :: rest => receive_loop websocket job_id rest ending
  | [] =>
      match ending with
      | WebSocketDisconnect => note (disconnect websocket job_id)
      | ReceiveError e => raise e
      end
  end.

Section StatusStream.
Variable repr : pyval -> string.

(** Lines 287-295: the last known status, sent to the observers of the
    job. *)
Definition replay_status (job_id : string) : M Hub unit :=
  fun h =>
    match job_status (app h) !! job_id with
    | None => (h, Ok tt)
    | Some status =>
        (st <- lift (item status "status") ;;
         err <- lift (item status "error") ;;
         res <- lift (item status "result") ;;
         on_app (deliver (PStr job_id) (py_str repr st)
                   "Connected to status stream" res err)) h
    end.

(** Lines 281-306. *)
Definition websocket_endpoint (websocket : nat) (job_id : string)
    (client : Client) : M Hub unit :=
  try_except
    (lift (match accept client with Some e => Raise e | None => Ok tt end) ;;;
     note (connect websocket job_id) ;;;
     replay_status job_id ;;;
     receive_loop websocket job_id (frames client) (closing client))
    (fun e => note (disconnect websocket job_id)).
End StatusStream.

Lemma receive_loop_outcome (websocket : nat) (job_id : string)
    (incoming : list string) (ending : Closing) (h : Hub) :
  receive_loop websocket job_id incoming ending h =
    match ending with
    | WebSocketDisconnect =>
        ({| app := app h;
            manager_calls := manager_calls h ++ [disconnect websocket job_id] |},
         Ok tt)
    | ReceiveError e => (h, Raise e)
    end.
Proof.
  induction incoming as [| frame rest IH]; simpl; [| exact IH].
  destruct ending; reflexivity.
Qed.

Section StreamFacts.
Variable repr : pyval -> string.

Lemma replay_status_frame (job_id : string) (h : Hub) :
  let out := replay_status repr job_id h in
  job_status (app out.1) = job_status (app h)
  /\ LATEST_REPORT (app out.1) = LATEST_REPORT (app h)
  /\ manager_calls out.1 = manager_calls h.
Proof.
  unfold replay_status.
  destruct (job_status (app h) !! job_id) as [status |]; [| now cbn].
  unfold bind, lift, on_app, deliver, send_status_update, modify, item.
  destruct (dict_get status "status"); [| now cbn].
  destruct (dict_get status "error"); [| now cbn].
  destruct (dict_get status "result"); now cbn.
Qed.

(** X6. A connection to the status stream never fails and always ends
    with the removal of its registration: whatever the client does, the
    manager is asked to connect at most once, when the handshake succeeds,
    and to disconnect exactly once, last.  Frames sent by the client are
    dropped, and neither the registry nor the latest-report slot is
    changed; in particular no record is created for an unknown job id. *)
Theorem status_stream_always_unregisters (websocket : nat) (job_id : string)
    (client : Client) (h : Hub) :
  let out := websocket_endpoint repr websocket job_id client h in
  out.2 = Ok tt
  /\ manager_calls out.1 =
       manager_calls h
       ++ match accept client with
          | None => [connect websocket job_id]
          | Some _ => []
          end
       ++ [disconnect websocket job_id]
  /\ job_status (app out.1) = job_status (app h)
  /\ LATEST_REPORT (app out.1) = LATEST_REPORT (app h).
Proof.
  unfold websocket_endpoint, try_except, bind, lift, note, modify.
  destruct (accept client) as [e |]; [now cbn |].
  set (h1 := {| app := app h;
                manager_calls := manager_calls h ++ [connect websocket job_id] |}).
  pose proof (replay_status_frame job_id h1) as (Hjs & Hlr & Hmc).
  cbv zeta in Hjs, Hlr, Hmc.
  destruct (replay_status repr job_id h1) as [h2 [[] | e]]; cbn [fst snd] in *.
  - rewrite receive_loop_outcome.
    destruct (closing client); cbn; rewrite Hjs, Hlr, Hmc; subst h1; cbn;
      rewrite <- ?app_assoc; auto.
  - cbn [fst snd app manager_calls]. rewrite Hjs, Hlr, Hmc. subst h1. cbn.
    rewrite <- ?app_assoc. auto.
Qed.

(** X7. For a job without an entry in the registry nothing is replayed
    to a new observer, and the lookup creates no entry. *)
Theorem unknown_job_gets_no_replay (websocket : nat) (job_id : string)
    (client : Client) (h : Hub) :
  job_status (app h) !! job_id = None ->
  let out := websocket_endpoint repr websocket job_id client h in
  delivered (app out.1) = delivered (app h)
  /\ job_status (app out.1) !! job_id = None.
Proof.
  intros Hnone out. subst out.
  unfold websocket_endpoint, try_except, bind, lift, note, modify.
  destruct (accept client) as [e |]; [now cbn |].
  unfold replay_status. cbn [app]. rewrite Hnone.
  rewrite receive_loop_outcome. now destruct (closing client).
Qed.
End StreamFacts.

Section AfterTheRun.
Variable repr : pyval -> string.
Variable now : string.
Variable mongodb : option (MongoCall -> option exn).
Variable graph_run : string -> ResearchRequest -> GraphRun.

#[local] Abbreviation Process_research :=
  (process_research repr now mongodb graph_run).

(** X8. An observer that connects after its job has completed is sent one
    event: status "completed", message "Connected to status stream", and
    neither result nor error, since the registry keeps the report under
    ['report'] and never fills ['result']. *)
Theorem completed_job_is_replayed_without_report (job_id : string)
    (data : ResearchRequest) (w : World) (rc : pyval) (n : nat)
    (websocket : nat) (client : Client) (calls : list ManagerCall) :
  let st := accumulate (snapshots (graph_run job_id data)) in
  let w' := (Process_research job_id data w).1 in
  job_status w !! job_id = None ->
  no_fault mongodb ->
  graph_exn (graph_run job_id data) = None ->
  find_report st = Ok rc -> truthy rc = true -> py_len rc = Ok n ->
  accept client = None ->
  delivered (app (websocket_endpoint repr websocket job_id client
                    {| app := w'; manager_calls := calls |}).1) =
    delivered w'
    ++ [event job_id "completed" "Connected to status stream" PNone PNone].
Proof.
  intros st w' Hfresh Hnf Hg Hfind Hrc Hlen Hacc. subst w'.
  rewrite (process_research_completed repr now mongodb graph_run job_id data
             w rc n Hnf Hg Hfind Hrc Hlen).
  cbn [fst].
  unfold websocket_endpoint, try_except, bind, lift, note, modify.
  rewrite Hacc.
  unfold replay_status. cbn [app job_status].
  rewrite lookup_insert_eq.
  unfold job_entry. rewrite Hfresh.
  unfold bind, lift, item, on_app, deliver, send_status_update, modify.
  cbn.
  rewrite receive_loop_outcome. now destruct (closing client).
Qed.

(** X9. With persistence unset, the report route answers for a job id new
    to the registry exactly what its run found: the report when the run
    completed, and "Report not found" (404) when the graph raised or the
    final state held no report. *)
Theorem report_route_matches_the_run (job_id : string)
    (data : ResearchRequest) (w : World) :
  let run := graph_run job_id data in
  let st := accumulate (snapshots run) in
  let w' := (process_research repr now None graph_run job_id data w).1 in
  job_status w !! job_id = None ->
  (forall rc n,
     graph_exn run = None -> find_report st = Ok rc ->
     truthy rc = true -> py_len rc = Ok n ->
     get_research_report None job_id w' = Body (PDict [("report", rc)]))
  /\ ((graph_exn run <> None
       \/ exists rc, find_report st = Ok rc /\ truthy rc = false) ->
      get_research_report None job_id w' = HTTPError 404 "Report not found").
Proof.
  intros run st w' Hfresh. split.
  - intros rc n Hg Hfind Hrc Hlen. subst w'.
    rewrite (process_research_completed repr now None graph_run job_id data
               w rc n no_fault_unconfigured Hg Hfind Hrc Hlen).
    cbn [fst]. unfold get_research_report. cbn [job_status].
    rewrite lookup_insert_eq.
    destruct (completed_entry (job_entry now job_id (job_status w)) rc
                (PStr (company data)) (PStr now)) as [_ Hreport].
    cbv zeta in Hreport. rewrite Hreport, Hrc. reflexivity.
  - intros Hcase.
    destruct (registry_and_slot repr now None graph_run job_id data w)
      as [[Hsame _] | (rc & Hg & Hfind & Hrc & _)].
    + fold w' in Hsame. unfold get_research_report.
      now rewrite Hsame, Hfresh.
    + exfalso. cbv zeta in Hg, Hfind. unfold st, run in Hcase.
      destruct Hcase as [Hraise | (rc' & Hfind' & Hfalsy)];
        [contradiction | congruence].
Qed.

(** X10. After a completed run that found the report text [text], a
    configured Q&A route given a question that is not blank streams an
    answer whose context is that text and the company of that run, and
    whose question is the stripped question: whatever the slot held
    before, from this job or another, has been replaced. *)
Theorem qa_answers_against_the_last_completed_run (job_id : string)
    (data : ResearchRequest) (w : World) (text : string) (chat : ChatRequest) :
  let st := accumulate (snapshots (graph_run job_id data)) in
  let w' := (Process_research job_id data w).1 in
  no_fault mongodb ->
  graph_exn (graph_run job_id data) = None ->
  find_report st = Ok (PStr text) -> text <> "" ->
  all_space (question chat) = false ->
  qa_stream repr true chat w' =
    StreamingResponse
      [ ("system",
         "You are a helpful assistant. Answer using ONLY the report context provided. If the answer is not clearly supported by the report, say you don't know. Be concise and avoid speculation.");
        ("system",
         "Report context for " +:+ company data +:+ ":" +:+ nl +:+ nl
         +:+ text);
        ("user", strip (question chat)) ].
Proof.
  intros st w' Hnf Hg Hfind Hne Hq. subst w'.
  assert (Htruthy : truthy (PStr text) = true).
  { cbn. apply String.eqb_neq in Hne. now rewrite Hne. }
  rewrite (process_research_completed repr now mongodb graph_run job_id data
             w (PStr text) (String.length text) Hnf Hg Hfind Htruthy eq_refl).
  cbn [fst]. unfold qa_stream. cbn [negb LATEST_REPORT].
  destruct (String.eqb (strip (question chat)) "") eqn:E.
  - apply String.eqb_eq, strip_empty_iff in E. congruence.
  - cbn. apply String.eqb_neq in Hne. rewrite Hne. reflexivity.
Qed.
End AfterTheRun.

Definition browser : Client :=
  {| accept := None; frames := ["ping"; "ping"];
     closing := WebSocketDisconnect |}.

Lemma unknown_job_gets_no_replay_witness :
  let h := {| app := (process_research plain_repr clock None
                        (fun _ _ => scenario_A) "job-1" acme startup).1;
              manager_calls := [] |} in
  job_status (app h) !! "job-1" = None
  /\ delivered (app (websocket_endpoint plain_repr 7 "job-1" browser h).1) =
       delivered (app h).
Proof.
  intros h.
  assert (H : job_status (app h) !! "job-1" = None) by (vm_compute; reflexivity).
  split; [exact H |].
  exact (proj1 (unknown_job_gets_no_replay plain_repr 7 "job-1" browser h H)).
Defined.

Lemma completed_job_is_replayed_without_report_witness :
  job_status startup !! "job-1" = None
  /\ no_fault None
  /\ graph_exn report_run = None
  /\ find_report (accumulate (snapshots report_run)) = Ok (PStr "# Acme report")
  /\ accept browser = None
  /\ last (delivered (app (websocket_endpoint plain_repr 7 "job-1" browser
             {| app := (process_research plain_repr clock None
                          (fun _ _ => report_run) "job-1" acme startup).1;
                manager_calls := [] |}).1)) =
       Some (event "job-1" "completed" "Connected to status stream"
               PNone PNone).
Proof.
  split; [reflexivity |]. split; [exact no_fault_unconfigured |].
  split; [reflexivity |]. split; [reflexivity |]. split; [reflexivity |].
  rewrite (completed_job_is_replayed_without_report plain_repr clock None
             (fun _ _ => report_run) "job-1" acme startup
             (PStr "# Acme report") 13 7 browser []
             eq_refl no_fault_unconfigured eq_refl eq_refl eq_refl eq_refl
             eq_refl).
  apply last_snoc.
Defined.

Lemma report_route_matches_the_run_witness :
  job_status startup !! "job-1" = None
  /\ get_research_report None "job-1"
       (process_research plain_repr clock None (fun _ _ => report_run)
          "job-1" acme startup).1 =
     Body (PDict [("report", PStr "# Acme report")])
  /\ get_research_report None "job-1"
       (process_research plain_repr clock None (fun _ _ => scenario_A)
          "job-1" acme startup).1 =
     HTTPError 404 "Report not found".
Proof.
  split; [reflexivity |]. split.
  - apply (proj1 (report_route_matches_the_run plain_repr clock
                    (fun _ _ => report_run) "job-1" acme startup eq_refl)
             (PStr "# Acme report") 13); reflexivity.
  - apply (proj2 (report_route_matches_the_run plain_repr clock
                    (fun _ _ => scenario_A) "job-1" acme startup eq_refl)).
    right. exists (PStr ""). split; reflexivity.
Defined.

Lemma qa_answers_against_the_last_completed_run_witness :
  no_fault None
  /\ graph_exn report_run = None
  /\ find_report (accumulate (snapshots report_run)) = Ok (PStr "# Acme report")
  /\ "# Acme report" <> ""
  /\ all_space " Who buys anvils? " = false
  /\ exists messages,
       qa_stream plain_repr true {| question := " Who buys anvils? " |}
         (process_research plain_repr clock None (fun _ _ => report_run)
            "job-9" acme
            {| job_status := ∅;
               LATEST_REPORT := Some [ ("company", PStr "Globex");
                                       ("report", PStr "old report") ];
               mongo_calls := []; delivered := [] |}).1 =
       StreamingResponse messages
       /\ last messages = Some ("user", "Who buys anvils?").
Proof.
  split; [exact no_fault_unconfigured |]. split; [reflexivity |].
  split; [reflexivity |]. split; [discriminate |]. split; [reflexivity |].
  eexists. split.
  - apply (qa_answers_against_the_last_completed_run plain_repr clock None
             (fun _ _ => report_run) "job-9" acme _ "# Acme report"
             {| question := " Who buys anvils? " |}
             no_fault_unconfigured eq_refl eq_refl);
      [discriminate | reflexivity].
  - reflexivity.
Defined.

(** ** The token stream of the Q&A route ([application.py], lines 223-260) *)

(** One chunk of the streamed completion: for each of its choices the text
    of the delta ([None]: no delta; [Some None]: a delta without text), or
    a chunk whose fields cannot be read. *)
Inductive Chunk :=
| Readable (choices : list (option (option string)))
| Unreadable (e : exn).

(** [text.encode("utf-8")] for code points below 256; a byte string is a
    string of bytes. *)
Definition utf8_char (c : ascii) : string :=
  let n := N_of_ascii c in
  if (n <? 128)%N then String c EmptyString
  else String (ascii_of_N (192 + n / 64))
         (String (ascii_of_N (128 + n mod 64)) EmptyString).

Fixpoint encode_utf8 (s : string) : string :=
  match s with
  | EmptyString => EmptyString
  | String c t => utf8_char c +:+ encode_utf8 t
  end.

(** Lines 248-257: the body of the loop; the text yielded for a chunk, if
    any. *)
Definition chunk_text (chunk : Chunk) : option string :=
  match chunk with
  | Unreadable _ => None
  | Readable [] => None
  | Readable (None :: _) => None
  | Readable (Some None :: _) => None
  | Readable (Some (Some text) :: _) =>
      if String.eqb text "" then None else Some text
  end.

(** The line yielded by the handler of line 258. *)
Definition error_line (e : exn) : string :=
  encode_utf8 (nl +:+ "[Error] " +:+ exn_str e).

(** Lines 247-257: the chunks of a stream that ends normally or with an
    exception. *)
Fixpoint stream_tokens (chunks : list Chunk) (ending : option exn)
    : list string :=
  match chunks with
  | [] => match ending with Some e => [error_line e] | None => [] end
  | chunk :: rest =>
      match chunk_text chunk with
      | Some text => encode_utf8 text :: stream_tokens rest ending
      | None => stream_tokens rest ending
      end
  end.

(** Lines 223-260: what the generator yields, given the outcome of the
    completion call. *)
Definition token_generator (response : result (list Chunk * option exn))
    : list string :=
  match response with
  | Raise e => [error_line e]
  | Ok (chunks, ending) => stream_tokens chunks ending
  end.

(** The parts of a list joined without separator. *)
Definition join_all (parts : list string) : string :=
  fold_right String.append EmptyString parts.

Lemma append_assoc (a b c : string) : (a +:+ b) +:+ c = a +:+ (b +:+ c).
Proof.
  induction a as [| x a IH]; [reflexivity |].
  change (String x ((a +:+ b) +:+ c) = String x (a +:+ (b +:+ c))).
  now rewrite IH.
Qed.

Lemma append_empty_r (a : string) : a +:+ EmptyString = a.
Proof.
  induction a as [| x a IH]; [reflexivity |].
  change (String x (a +:+ EmptyString) = String x a). now rewrite IH.
Qed.

Lemma encode_utf8_append (a b : string) :
  encode_utf8 (a +:+ b) = encode_utf8 a +:+ encode_utf8 b.
Proof.
  induction a as [| c a IH]; [reflexivity |].
  change (String c a +:+ b) with (String c (a +:+ b)).
  cbn [encode_utf8]. now rewrite IH, append_assoc.
Qed.

Lemma encode_utf8_nonempty (s : string) :
  s <> EmptyString -> encode_utf8 s <> EmptyString.
Proof.
  destruct s as [| c t]; [congruence |]. intros _. simpl. unfold utf8_char.
  destruct (N_of_ascii c <? 128)%N; discriminate.
Qed.

(** X11. The bytes streamed for an answer are the UTF-8 encoding of the
    texts of the chunks put together in order, where a chunk counts for
    the text of the delta of its first choice and for nothing when it has
    no choice, no delta, no text or cannot be read; a stream that breaks
    off adds one error line after the tokens already sent.  No empty item
    is ever yielded, and when the completion call itself raises, the error
    line is all that is sent. *)
Theorem streamed_bytes_are_the_answer (chunks : list Chunk)
    (ending : option exn) (e : exn) :
  join_all (token_generator (Ok (chunks, ending))) =
    encode_utf8 (join_all (omap chunk_text chunks))
    +:+ match ending with Some e' => error_line e' | None => EmptyString end
  /\ Forall (fun item => item <> EmptyString)
            (token_generator (Ok (chunks, ending)))
  /\ length (token_generator (Ok (chunks, ending))) <=
       length chunks + match ending with Some _ => 1 | None => 0 end
  /\ token_generator (Raise e) = [error_line e].
Proof.
  unfold token_generator. repeat split.
  - induction chunks as [| chunk rest IH]; simpl.
    + destruct ending as [e' |]; [| reflexivity].
      change (error_line e' +:+ EmptyString = error_line e').
      apply append_empty_r.
    + destruct (chunk_text chunk) as [text |]; simpl; [| exact IH].
      rewrite IH, encode_utf8_append, append_assoc. reflexivity.
  - induction chunks as [| chunk rest IH]; simpl.
    + destruct ending; constructor; [| constructor].
      unfold error_line. apply encode_utf8_nonempty. discriminate.
    + destruct (chunk_text chunk) as [text |] eqn:Ht; [| exact IH].
      constructor; [| exact IH].
      apply encode_utf8_nonempty.
      destruct chunk as [[| [[t |] |] cs] | ex]; simpl in Ht; try discriminate.
      destruct (String.eqb t "") eqn:E; [discriminate |].
      injection Ht as <-. now apply String.eqb_neq.
  - induction chunks as [| chunk rest IH]; simpl.
    + destruct ending; simpl; lia.
    + destruct (chunk_text chunk); simpl; lia.
Qed.

Example streamed_answer :
  token_generator
    (Ok ([ Readable []; Readable [Some (Some "Anv")]; Unreadable (Exn "E" "x");
           Readable [Some None]; Readable [Some (Some "")];
           Readable [Some (Some "ils"); Some (Some "ignored")];
           Readable [None] ],
         Some (Exn "APIError" "stream reset"))) =
    ["Anv"; "ils"; nl +:+ "[Error] stream reset"].
Proof. reflexivity. Qed.

(** ** Configuration at start-up ([application.py], lines 60-83;
    [briefing.py], lines 15-30) *)

(** [os.getenv(k)] *)
Definition getenv (environ : pydict string) (k : string) : option string :=
  dict_get environ k.

(** The truth value of what [os.getenv] returns. *)
Definition is_set (v : option string) : bool :=
  match v with
  | Some s => negb (String.eqb s "")
  | None => false
  end.

(** The arguments of [AsyncAzureOpenAI(...)]. *)
Record AzureClient := {
  api_key : string;
  azure_endpoint : string;
  api_version : string
}.

Definition azure_client (key endpoint : option string) : AzureClient :=
  {| api_key := default "" key; azure_endpoint := default "" endpoint;
     api_version := "2025-04-01-preview" |}.

Section Startup.
(** What the constructor of the client raises, if anything, and what
    [MongoDBService(uri)] gives. *)
Variable construct : AzureClient -> option exn.
Variable MongoDBService : string -> result MongoReads.

(** [application.py], lines 68-83. *)
Definition init_azure_openai_client (environ : pydict string)
    : option AzureClient :=
  let azure_key := getenv environ "AZURE_OPENAI_KEY" in
  let azure_endpoint := getenv environ "AZURE_OPENAI_ENDPOINT" in
  if is_set azure_key && is_set azure_endpoint then
    match construct (azure_client azure_key azure_endpoint) with
    | None => Some (azure_client azure_key azure_endpoint)
    | Some _ => None
    end
  else None.

(** [application.py], lines 60-66. *)
Definition init_mongodb (environ : pydict string) : option MongoReads :=
  match getenv environ "MONGODB_URI" with
  | Some mongo_uri =>
      if String.eqb mongo_uri "" then None
      else match MongoDBService mongo_uri with
           | Ok db => Some db
           | Raise _ => None
           end
  | None => None
  end.

(** The attributes of a [Briefing] node. *)
Record BriefingNode := {
  node_max_doc_length : Z;
  openai_client : AzureClient
}.

(** [Briefing.__init__] ([briefing.py], lines 15-30). *)
Definition Briefing_init (environ : pydict string) : result BriefingNode :=
  let azure_openai_key := getenv environ "AZURE_OPENAI_KEY" in
  let azure_openai_endpoint := getenv environ "AZURE_OPENAI_ENDPOINT" in
  if negb (is_set azure_openai_key) then
    Raise (Exn "ValueError" "AZURE_OPENAI_KEY environment variable is not set")
  else if negb (is_set azure_openai_endpoint) then
    Raise (Exn "ValueError"
               "AZURE_OPENAI_ENDPOINT environment variable is not set")
  else
    match construct (azure_client azure_openai_key azure_openai_endpoint) with
    | Some e => Raise e
    | None =>
        Ok {| node_max_doc_length := 8000;
              openai_client :=
                azure_client azure_openai_key azure_openai_endpoint |}
    end.

(** X12. The Q&A route answers 503 exactly when the process started
    without a usable client: a key or endpoint that is unset or empty, or
    a client constructor that raised.  Likewise the job route answers 501
    exactly when [MONGODB_URI] is unset or empty or the service could not
    be created. *)
Theorem startup_decides_availability (repr : pyval -> string)
    (environ : pydict string) (chat : ChatRequest) (w : World)
    (job_id : string) :
  let key := getenv environ "AZURE_OPENAI_KEY" in
  let endpoint := getenv environ "AZURE_OPENAI_ENDPOINT" in
  let client := init_azure_openai_client environ in
  (qa_stream repr (bool_decide (is_Some client)) chat w =
     HTTPException 503 "Q&A not configured: missing Azure OpenAI credentials"
   <-> (is_set key = false \/ is_set endpoint = false
        \/ is_Some (construct (azure_client key endpoint))))
  /\ (get_research (init_mongodb environ) job_id =
        HTTPError 501 "Database persistence not configured"
      <-> (is_set (getenv environ "MONGODB_URI") = false
           \/ exists uri e,
                getenv environ "MONGODB_URI" = Some uri
                /\ MongoDBService uri = Raise e)).
Proof.
  intros key endpoint client. split.
  - subst client. unfold init_azure_openai_client. fold key. fold endpoint.
    destruct (is_set key) eqn:Hk, (is_set endpoint) eqn:He; cbn [andb];
      try (split; [intros _; auto | reflexivity]).
    destruct (construct (azure_client key endpoint)) as [e |] eqn:Hc.
    + split; [intros _; right; right; eauto | reflexivity].
    + split.
      * unfold qa_stream.
        rewrite bool_decide_eq_true_2 by eauto. cbn [negb].
        destruct (String.eqb _ _); [discriminate |].
        destruct (LATEST_REPORT w); [| discriminate].
        destruct (_ || _); discriminate.
      * intros [H | [H | [x H]]]; discriminate.
  - unfold init_mongodb, get_research, is_set.
    destruct (getenv environ "MONGODB_URI") as [uri |] eqn:Hu;
      [| split; [auto | reflexivity]].
    destruct (String.eqb uri "") eqn:E; cbn [negb];
      [split; [auto | reflexivity] |].
    destruct (MongoDBService uri) as [db | e] eqn:Hs.
    + split.
      * destruct (truthy (get_job db job_id)); discriminate.
      * intros [H | (uri' & e & [= <-] & H)]; [discriminate | congruence].
    + split; [intros _; right; eauto | reflexivity].
Qed.

(** X13. A [Briefing] node can be constructed exactly when the Q&A client
    of the application can, from the same environment.  Otherwise it
    raises at once: a [ValueError] naming the key when the key is unset or
    empty, whatever the endpoint; one naming the endpoint when only that
    is missing; and the exception of the client constructor when both are
    set.  A node that is constructed cuts documents at 8000 characters,
    the bound that [truncate] applies. *)
Theorem briefing_node_needs_credentials (environ : pydict string) :
  let key := getenv environ "AZURE_OPENAI_KEY" in
  let endpoint := getenv environ "AZURE_OPENAI_ENDPOINT" in
  ((exists node, Briefing_init environ = Ok node)
   <-> is_Some (init_azure_openai_client environ))
  /\ (is_set key = false ->
      Briefing_init environ =
        Raise (Exn "ValueError"
                   "AZURE_OPENAI_KEY environment variable is not set"))
  /\ (is_set key = true -> is_set endpoint = false ->
      Briefing_init environ =
        Raise (Exn "ValueError"
                   "AZURE_OPENAI_ENDPOINT environment variable is not set"))
  /\ (forall e, is_set key = true -> is_set endpoint = true ->
      construct (azure_client key endpoint) = Some e ->
      Briefing_init environ = Raise e)
  /\ (forall node, Briefing_init environ = Ok node ->
      node_max_doc_length node = max_doc_length
      /\ Some (openai_client node) = init_azure_openai_client environ).
Proof.
  intros key endpoint.
  unfold Briefing_init, init_azure_openai_client. fold key. fold endpoint.
  destruct (is_set key) eqn:Hk, (is_set endpoint) eqn:He; cbn [negb andb];
    try destruct (construct (azure_client key endpoint)) as [e |] eqn:Hc;
    repeat split; try discriminate; try reflexivity;
    try (intros [node H]; discriminate);
    try (intros [x H]; discriminate);
    try (intros; congruence);
    try (intros; eexists; reflexivity).
  all: injection H as <-; reflexivity.
Qed.
End Startup.

Example startup_without_endpoint :
  let environ := [("AZURE_OPENAI_KEY", "k-123"); ("MONGODB_URI", "")] in
  init_azure_openai_client (fun _ => None) environ = None
  /\ Briefing_init (fun _ => None) environ =
       Raise (Exn "ValueError"
                  "AZURE_OPENAI_ENDPOINT environment variable is not set")
  /\ get_research
       (init_mongodb (fun _ => Ok {| get_job := fun _ => PNone;
                                     get_report := fun _ => PNone |})
          environ) "job-1" =
     HTTPError 501 "Database persistence not configured".
Proof. repeat split. Qed.

(** ** Events of one briefing ([briefing.py], lines 42-53 and 249-260) *)

Definition briefing_start_event (job_id : pyval) (category : string)
    (total_docs : nat) : StatusEvent :=
  {| ev_job_id := job_id; ev_status := "briefing_start";
     ev_message := "Generating " +:+ category +:+ " briefing";
     ev_result := PDict [("step", PStr "Briefing"); ("category", PStr category);
                         ("total_docs", PInt (Z.of_nat total_docs))];
     ev_error := PNone |}.

Definition briefing_complete_event (job_id : pyval) (category : string)
    : StatusEvent :=
  {| ev_job_id := job_id; ev_status := "briefing_complete";
     ev_message := "Completed " +:+ category +:+ " briefing";
     ev_result := PDict [("step", PStr "Briefing"); ("category", PStr category)];
     ev_error := PNone |}.

Section BriefingEvents.
Variable prompts : pyval -> pyval -> pyval -> pydict string.
Variable default_prompt : string.
Variable chat_completions_create : string -> result (list (option string)).

(** X14. With a manager and a job id in its context, a briefing publishes
    a start event that counts the documents handed in, and a completion
    event only when it returns text: a briefing that fails or comes back
    blank is never announced as complete.  Without a manager or without a
    job id it publishes nothing. *)
Theorem briefing_is_announced_only_when_it_has_text (docs : Docs)
    (category : string) (context : pydict pyval) (o : Outbox) :
  let out := generate_category_briefing prompts default_prompt
               chat_completions_create (of_docs docs) category context o in
  let job_id := get context "job_id" in
  let observed := truthy (get context "websocket_manager") && truthy job_id in
  exists text,
    out.2 = Ok {| briefing_content := text |}
    /\ sent out.1 =
         sent o
         ++ (if observed
             then briefing_start_event job_id category (docs_len docs)
                  :: (if String.eqb text "" then []
                      else [briefing_complete_event job_id category])
             else []).
Proof.
  intros out job_id observed. subst out observed job_id.
  unfold generate_category_briefing, briefing_prompt, await_completion,
    briefing_completion, first_content.
  unfold bind, ret, lift, when, modify, try_except, publish,
    send_status_update.
  rewrite py_len_of_docs, as_docs_of_docs.
  set (ws := truthy (get context "websocket_manager")).
  set (job := truthy (get context "job_id")).
  destruct ws, job; cbn;
    match goal with
    | |- context [chat_completions_create ?p] =>
        destruct (chat_completions_create p) as [[| [c |] rest] | e]
    end; cbn;
    try (exists ""; split; [reflexivity |]; cbn; now rewrite ?app_nil_r);
    destruct (String.eqb (strip c) "") eqn:E; cbn;
    try (exists ""; split; [reflexivity |]; cbn; now rewrite ?app_nil_r);
    exists (strip c); rewrite ?E; (split; [reflexivity |]); cbn;
    rewrite <- ?app_assoc, ?app_nil_r; reflexivity.
Qed.
End BriefingEvents.

Example announced_briefings :
  let context := [ ("websocket_manager", PObject); ("job_id", PStr "job-1") ] in
  let events model :=
    map ev_status
      (sent (generate_category_briefing no_templates "" model
               (one_document "https://a.example/1") "news" context
               empty_outbox).1) in
  events (fun _ => Ok [Some "* Acme opens a plant."]) =
    ["briefing_start"; "briefing_complete"]
  /\ events (fun _ => Raise (Exn "APIError" "overloaded")) = ["briefing_start"]
  /\ events (fun _ => Ok [Some "  "]) = ["briefing_start"].
Proof. repeat split. Qed.

(** ** What [create_briefings] leaves in the state
    ([briefing.py], lines 267-362) *)

(** A task has been finished: its briefing key holds a string, and
    [briefings] holds that string under the category unless it is empty. *)
Definition settled (f : Fanout) (t : Task) : Prop :=
  exists c,
    dict_get (state f) (briefing_key t) = Some (PStr c)
    /\ dict_get (briefings f) (category t) =
       if String.eqb c "" then None else Some (PStr c).

(** The tasks that are not over. *)
Definition pending (f : Fanout) : list Task :=
  waiting f ++ map fst (in_flight f).

(** Every curated entry with content is a collection of documents. *)
Definition curated_typed (st : pydict pyval) : Prop :=
  forall e, In e categories -> has_input st e = true ->
    exists ds, get_or st (curated_key (fst e)) (PDict []) = of_docs ds.

Record settle_inv (f0 f : Fanout) : Prop := {
  si_nodup : NoDup (map category (pending f));
  si_pending : forall t, In t (pending f) ->
      In t (waiting f0) /\ dict_get (briefings f) (category t) = None;
  si_settled : forall t, In t (waiting f0) -> In t (pending f) \/ settled f t;
  si_raised : raised f = [];
  si_others : forall k, ~ In k (map category (waiting f0)) ->
      dict_get (briefings f) k = None
}.

Lemma NoDup_map_inj {A B} (g : A -> B) (l : list A) (x y : A) :
  NoDup (map g l) -> In x l -> In y l -> g x = g y -> x = y.
Proof.
  induction l as [| a l IH]; simpl; [tauto |].
  intros Hnd Hx Hy Heq. apply NoDup_cons in Hnd as [Ha Hnd].
  assert (Hfresh : forall z, In z l -> g z <> g a).
  { intros z Hz Hza. apply Ha. rewrite <- Hza.
    apply list_elem_of_In. now apply in_map. }
  destruct Hx as [-> | Hx], Hy as [-> | Hy]; auto.
  - exfalso. apply (Hfresh y Hy). now symmetry.
  - exfalso. now apply (Hfresh x Hx).
Qed.

Lemma NoDup_map_filter {A B} (g : A -> B) (p : A -> bool) (l : list A) :
  NoDup (map g l) -> NoDup (map g (List.filter p l)).
Proof.
  induction l as [| a l IH]; simpl; [auto |].
  intros Hnd. apply NoDup_cons in Hnd as [Ha Hnd].
  destruct (p a); simpl; [| now apply IH].
  apply NoDup_cons. split; [| now apply IH].
  intros Hin. apply Ha. apply list_elem_of_In in Hin. apply list_elem_of_In.
  apply in_map_iff in Hin as (x & Hx & Hin). apply filter_In in Hin as [Hin _].
  apply in_map_iff. eauto.
Qed.

Section Settling.
Variable prompts : pyval -> pyval -> pyval -> pydict string.
Variable default_prompt : string.
Variable chat_completions_create : string -> result (list (option string)).

#[local] Abbreviation Acquire := (acquire prompts default_prompt).
#[local] Abbreviation Complete := (complete chat_completions_create).
#[local] Abbreviation Step :=
  (step prompts default_prompt chat_completions_create).

Lemma acquire_typed (i : nat) (f f' : Fanout) :
  Acquire i f = Some f' ->
  (forall t, In t (waiting f) -> exists ds, curated_data t = of_docs ds) ->
  exists task prompt,
    waiting f !! i = Some task
    /\ waiting f' = delete i (waiting f)
    /\ in_flight f' = in_flight f ++ [(task, prompt)]
    /\ raised f' = raised f /\ state f' = state f
    /\ briefings f' = briefings f
    /\ requests (outbox f') = requests (outbox f) ++ [prompt].
Proof.
  unfold acquire. intros H Htyped.
  destruct (semaphore f) as [| n]; [discriminate |].
  destruct (waiting f !! i) as [task |] eqn:Hw; [| discriminate].
  destruct (Htyped task) as [ds Hds].
  { apply list_elem_of_In. eapply list_elem_of_lookup_2. exact Hw. }
  rewrite Hds in H.
  destruct (briefing_prompt_ok prompts default_prompt ds (category task)
              (context f) (outbox f)) as (o1 & prompt & Hp & Hreq).
  rewrite Hp in H. injection H as <-. exists task, prompt. cbn.
  rewrite Hreq. repeat split.
Qed.

Lemma complete_settles (i : nat) (f f' : Fanout) :
  Complete i f = Some f' ->
  exists task prompt c,
    in_flight f !! i = Some (task, prompt)
    /\ waiting f' = waiting f
    /\ in_flight f' = delete i (in_flight f)
    /\ raised f' = raised f
    /\ state f' = dict_set (state f) (briefing_key task) (PStr c)
    /\ briefings f' =
       (if String.eqb c "" then briefings f
        else dict_set (briefings f) (category task) (PStr c))
    /\ requests (outbox f') = requests (outbox f).
Proof.
  unfold complete. intros H.
  destruct (in_flight f !! i) as [[task prompt] |] eqn:Hr; [| discriminate].
  destruct (briefing_completion_ok (category task) (context f)
              (chat_completions_create prompt) (outbox f)) as (o2 & Hc & Hreq).
  rewrite Hc in H. injection H as <-.
  exists task, prompt, (briefing_text (chat_completions_create prompt)).
  unfold record_briefing. cbn.
  destruct (String.eqb (briefing_text (chat_completions_create prompt)) "")
    eqn:E; repeat split; auto.
  apply String.eqb_eq in E. now rewrite E.
Qed.

Lemma settle_inv_step (f0 f f' : Fanout) :
  NoDup (map category (waiting f0)) ->
  NoDup (map briefing_key (waiting f0)) ->
  (forall t, In t (waiting f0) -> exists ds, curated_data t = of_docs ds) ->
  settle_inv f0 f -> Step f f' -> settle_inv f0 f'.
Proof.
  intros Hcat Hkey Htyped [Hnd Hpend Hset Hraised Hothers] [i f1 H | i f1 H].
  - apply acquire_typed in H
      as (task & prompt & Hw & Hw' & Hfly & Hr & Hst & Hbr & _).
    2:{ intros t Ht. apply Htyped. apply Hpend. unfold pending.
        apply in_or_app. now left. }
    assert (Hperm : Permutation (pending f1) (pending f)).
    { unfold pending. rewrite Hw', Hfly, map_app. simpl.
      etransitivity;
        [| symmetry;
           apply (Permutation_app_tail _
                    (delete_Permutation (waiting f) i task Hw))].
      simpl. rewrite app_assoc. symmetry. apply Permutation_cons_append. }
    split.
    + now rewrite Hperm.
    + intros t Ht. rewrite Hbr. apply Hpend.
      apply list_elem_of_In. rewrite <- Hperm. now apply list_elem_of_In.
    + intros t Ht. destruct (Hset t Ht) as [Hp | (c & Hs & Hb)].
      * left. apply list_elem_of_In. rewrite Hperm. now apply list_elem_of_In.
      * right. exists c. now rewrite Hst, Hbr.
    + congruence.
    + intros k Hk. rewrite Hbr. now apply Hothers.
  - apply complete_settles in H
      as (task & prompt & c & Hr & Hw' & Hfly & Hrs & Hst & Hbr & _).
    assert (Hperm : Permutation (pending f) (task :: pending f1)).
    { unfold pending. rewrite Hw', Hfly.
      rewrite (delete_Permutation (in_flight f) i (task, prompt) Hr) at 1.
      simpl. symmetry. apply Permutation_middle. }
    assert (Hnd' : NoDup (map category (task :: pending f1)))
      by now rewrite <- Hperm.
    simpl in Hnd'. apply NoDup_cons in Hnd' as [Hfresh Hnd'].
    assert (Htask : In task (pending f)).
    { apply list_elem_of_In. rewrite Hperm. left. }
    destruct (Hpend task Htask) as [Htask0 Hnone].
    assert (Hother : forall k, k <> category task ->
              dict_get (briefings f1) k = dict_get (briefings f) k).
    { intros k Hk. rewrite Hbr. destruct (String.eqb c ""); [reflexivity |].
      apply dict_get_set_ne. congruence. }
    split.
    + exact Hnd'.
    + intros t Ht.
      assert (Ht' : In t (pending f)).
      { apply list_elem_of_In. rewrite Hperm. right. now apply list_elem_of_In. }
      destruct (Hpend t Ht') as [Ht0 Htn]. split; [exact Ht0 |].
      rewrite Hother; [exact Htn |].
      intros Heq. apply Hfresh. rewrite <- Heq.
      apply list_elem_of_In. now apply in_map.
    + intros t Ht.
      destruct (string_dec (briefing_key t) (briefing_key task)) as [Heq | Hne].
      * assert (t = task)
          by exact (NoDup_map_inj briefing_key (waiting f0) t task Hkey Ht
                      Htask0 Heq).
        subst t.
        right. exists c. split; [rewrite Hst; apply dict_get_set_eq |].
        rewrite Hbr. destruct (String.eqb c ""); [exact Hnone |].
        apply dict_get_set_eq.
      * destruct (Hset t Ht) as [Hp | (c0 & Hs & Hb)].
        -- left. apply list_elem_of_In in Hp. rewrite Hperm in Hp.
           apply elem_of_cons in Hp as [-> | Hp]; [congruence |].
           now apply list_elem_of_In.
        -- right. exists c0. split.
           ++ rewrite Hst, dict_get_set_ne; [exact Hs | congruence].
           ++ rewrite Hother; [exact Hb |].
              intros Hc. apply Hne. f_equal.
              exact (NoDup_map_inj category (waiting f0) t task Hcat Ht
                       Htask0 Hc).
    + congruence.
    + intros k Hk. rewrite Hother; [now apply Hothers |].
      intros ->. apply Hk. now apply in_map.
Qed.

Lemma settle_inv_reach (f0 f : Fanout) :
  NoDup (map category (waiting f0)) ->
  NoDup (map briefing_key (waiting f0)) ->
  (forall t, In t (waiting f0) -> exists ds, curated_data t = of_docs ds) ->
  planned f0 -> briefings f0 = [] ->
  rtc Step f0 f -> settle_inv f0 f.
Proof.
  intros Hcat Hkey Htyped (Hfly & Hr & _) Hbr.
  revert f. apply (rtc_ind_r (R := Step) (fun f => settle_inv f0 f) f0).
  - assert (Hp : pending f0 = waiting f0).
    { unfold pending. rewrite Hfly. simpl. apply app_nil_r. }
    split; rewrite ?Hp, ?Hbr; auto.
  - intros y z _ Hs IH. eapply settle_inv_step; eassumption.
Qed.

(** Without tasks nothing can move. *)
Lemma no_task_no_step (f f' : Fanout) :
  waiting f = [] -> in_flight f = [] -> ~ Step f f'.
Proof.
  intros Hw Hf [i f1 H | i f1 H].
  - unfold acquire in H. rewrite Hw in H.
    destruct (semaphore f); discriminate.
  - unfold complete in H. rewrite Hf in H. discriminate.
Qed.
End Settling.

Lemma for_each_plan_briefings_frame (cats : pydict (string * string))
    (f f' : Fanout) (r : result unit) :
  for_each cats plan_category f = (f', r) ->
  briefings f' = briefings f /\ outbox f' = outbox f.
Proof.
  revert f. induction cats as [| e rest IH]; intros f H.
  - injection H as <- _. auto.
  - cbn [for_each] in H. unfold bind in H.
    destruct (plan_category e f) as [f1 r1] eqn:H1.
    assert (Hf1 : briefings f1 = briefings f /\ outbox f1 = outbox f).
    { unfold plan_category in H1.
      destruct (truthy _); [destruct (py_len _) |];
        injection H1 as <- _; auto. }
    destruct r1 as [[] | ex].
    + apply IH in H as [-> ->]. exact Hf1.
    + injection H as <- _. exact Hf1.
Qed.

(** On a typed state the planning loop does not raise. *)
Lemma plan_loop_total (st0 : pydict pyval) (cats : pydict (string * string))
    (f : Fanout) :
  keys_apart cats ->
  (forall e, In e cats ->
     get_or (state f) (curated_key (fst e)) (PDict []) =
     get_or st0 (curated_key (fst e)) (PDict [])) ->
  (forall e, In e cats -> has_input st0 e = true ->
     exists ds, get_or st0 (curated_key (fst e)) (PDict []) = of_docs ds) ->
  exists f', for_each cats plan_category f = (f', Ok tt).
Proof.
  revert f. induction cats as [| e rest IH]; intros f [Hcur Hnd] Hsame Htyped.
  - eexists. reflexivity.
  - cbn [for_each]. unfold bind.
    assert (Hrest : keys_apart rest).
    { split; [intros a b Ha Hb; apply Hcur; now right |].
      simpl in Hnd. now apply NoDup_cons_1_2 in Hnd. }
    assert (H1 : exists f1, plan_category e f = (f1, Ok tt)
              /\ forall e', In e' rest ->
                   get_or (state f1) (curated_key (fst e')) (PDict []) =
                   get_or st0 (curated_key (fst e')) (PDict [])).
    { unfold plan_category. rewrite (Hsame e) by now left.
      destruct (truthy (get_or st0 (curated_key (fst e)) (PDict []))) eqn:Ht.
      - destruct (Htyped e (or_introl eq_refl) Ht) as [ds Hds].
        rewrite Hds, py_len_of_docs. eexists. split; [reflexivity |].
        intros e' He'. cbn. apply Hsame. now right.
      - eexists. split; [reflexivity |]. intros e' He'. cbn.
        rewrite get_or_set_ne; [apply Hsame; now right |].
        apply Hcur; [now left | now right]. }
    destruct H1 as (f1 & -> & Hsame1).
    apply IH; [exact Hrest | exact Hsame1 |].
    intros e' He'. apply Htyped. now right.
Qed.

Lemma plan_briefings_typed (st : pydict pyval) (o : Outbox) :
  curated_typed st ->
  exists f0,
    plan_briefings (enter st o) = (f0, Ok tt)
    /\ briefings f0 = [] /\ requests (outbox f0) = requests o.
Proof.
  intros Htyped.
  unfold plan_briefings, bind, gets, when, modify, ret, on_outbox, enter.
  cbn -[for_each categories plan_category publish].
  set (ws := truthy (get st "websocket_manager") && truthy (get st "job_id")).
  destruct ws; cbn -[for_each categories plan_category];
    match goal with
    | |- context [for_each categories plan_category ?f] =>
        destruct (plan_loop_total st categories f categories_keys_apart
                    (fun e _ => eq_refl) Htyped) as [f1 Hloop];
        rewrite Hloop;
        apply for_each_plan_briefings_frame in Hloop as [Hb Ho]
    end;
    eexists; (split; [reflexivity |]); cbn; rewrite Hb, Ho; auto.
Qed.

Lemma task_categories_NoDup (st : pydict pyval) :
  NoDup (map category
           (map (task_of st) (List.filter (has_input st) categories))).
Proof.
  rewrite map_map. cbn [category task_of].
  apply NoDup_map_filter. simpl.
  repeat (constructor; [rewrite ?elem_of_cons, elem_of_nil;
                        intuition discriminate |]).
  constructor.
Qed.

Lemma task_keys_NoDup (st : pydict pyval) :
  NoDup (map briefing_key
           (map (task_of st) (List.filter (has_input st) categories))).
Proof.
  rewrite map_map. cbn [briefing_key task_of].
  apply NoDup_map_filter. apply categories_keys_apart.
Qed.

Lemma tasks_typed (st : pydict pyval) (t : Task) :
  curated_typed st ->
  In t (map (task_of st) (List.filter (has_input st) categories)) ->
  exists ds, curated_data t = of_docs ds.
Proof.
  intros Htyped Ht. apply in_map_iff in Ht as (e & <- & He).
  apply filter_In in He as [He Hin]. exact (Htyped e He Hin).
Qed.

(** Two entries of [categories] with the same category or the same
    briefing key are the same entry. *)
Lemma categories_same (e e' : string * (string * string)) :
  In e categories -> In e' categories ->
  fst (snd e') = fst (snd e) \/ snd (snd e') = snd (snd e) -> e' = e.
Proof.
  intros He He' Heq. simpl in He, He'.
  repeat (destruct He as [<- | He]; [| ]); try contradiction;
    repeat (destruct He' as [<- | He']; [| ]); try contradiction;
    try reflexivity; destruct Heq; discriminate.
Qed.

Lemma no_input_no_task (st : pydict pyval) (e : string * (string * string)) :
  In e categories -> has_input st e = false ->
  ~ In (fst (snd e))
      (map category (map (task_of st) (List.filter (has_input st) categories)))
  /\ ~ In (snd (snd e))
      (map briefing_key
         (map (task_of st) (List.filter (has_input st) categories))).
Proof.
  intros He Hno. rewrite !map_map. cbn [category briefing_key task_of].
  split; intros Hin; apply in_map_iff in Hin as (e' & Heq & Hin);
    apply filter_In in Hin as [Hin Hyes];
    assert (e' = e) by (apply categories_same; auto); congruence.
Qed.

Lemma briefing_keys_not_briefings (e : string * (string * string)) :
  In e categories -> "briefings" <> snd (snd e).
Proof.
  intros He. simpl in He.
  repeat (destruct He as [<- | He]; [discriminate |]). contradiction.
Qed.

Section CreateBriefingsResult.
Variable prompts : pyval -> pyval -> pyval -> pydict string.
Variable default_prompt : string.
Variable chat_completions_create : string -> result (list (option string)).

#[local] Abbreviation Step :=
  (step prompts default_prompt chat_completions_create).

(** Each admission sends one request and each completion none. *)
Lemma requests_step (f f' : Fanout) :
  (forall t, In t (waiting f) -> exists ds, curated_data t = of_docs ds) ->
  Step f f' ->
  length (requests (outbox f')) + length (waiting f')
  = length (requests (outbox f)) + length (waiting f).
Proof.
  intros Htyped [i f1 H | i f1 H].
  - apply acquire_typed in H
      as (task & prompt & Hw & -> & _ & _ & _ & _ & ->); [| exact Htyped].
    rewrite length_app, length_delete by eauto. simpl.
    apply lookup_lt_Some in Hw. lia.
  - apply complete_settles in H
      as (task & prompt & c & _ & -> & _ & _ & _ & _ & ->). reflexivity.
Qed.

Lemma requests_reach (f0 f : Fanout) :
  (forall t, In t (waiting f0) -> exists ds, curated_data t = of_docs ds) ->
  planned f0 -> rtc Step f0 f ->
  length (requests (outbox f)) + length (waiting f)
  = length (requests (outbox f0)) + length (waiting f0).
Proof.
  intros Htyped Hp.
  revert f. apply (rtc_ind_r (R := Step)
    (fun f => length (requests (outbox f)) + length (waiting f)
              = length (requests (outbox f0)) + length (waiting f0)) f0).
  - reflexivity.
  - intros y z Hreach Hs IH. rewrite <- IH. apply requests_step; [| exact Hs].
    intros t Ht. apply Htyped. apply list_elem_of_In.
    apply (inv_waiting f0 y
             (fan_inv_reach prompts default_prompt chat_completions_create
                f0 y Hp Hreach)).
    now apply list_elem_of_In.
Qed.

(** X15. When every curated entry with content is a collection of
    documents, [create_briefings] does not raise, whatever the model
    answers and in whatever order the coroutines run.  The state it
    returns holds the collected briefings under [briefings]; every one of
    the five briefing keys holds a string; a category is in [briefings]
    exactly when that string is not empty, and then with that string; a
    category without curated input has the empty string; and [briefings]
    has no other key. *)
Theorem create_briefings_settles_every_category (st : pydict pyval)
    (o : Outbox) (f : Fanout) (out : result (pydict pyval)) :
  curated_typed st ->
  create_briefings prompts default_prompt chat_completions_create st o f out ->
  exists st',
    out = Ok st'
    /\ dict_get st' "briefings" = Some (PDict (briefings f))
    /\ (forall field cat key, In (field, (cat, key)) categories ->
        exists c,
          dict_get st' key = Some (PStr c)
          /\ dict_get (briefings f) cat =
             (if String.eqb c "" then None else Some (PStr c))
          /\ (has_input st (field, (cat, key)) = false -> c = ""))
    /\ (forall k, ~ In k (map (fun e => fst (snd e)) categories) ->
        dict_get (briefings f) k = None).
Proof.
  intros Htyped Hrun. unfold create_briefings in Hrun.
  destruct (plan_briefings_typed st o Htyped) as (f0 & Hplan & Hbr0 & _).
  rewrite Hplan in Hrun. destruct Hrun as (Hreach & Hfin & ->).
  pose proof (plan_briefings_Ok st o f0 tt Hplan) as (Hp & Hw & Hempty).
  pose proof (fan_inv_reach prompts default_prompt chat_completions_create
                f0 f Hp Hreach) as Hinv.
  assert (Hs : settle_inv f0 f).
  { apply (settle_inv_reach prompts default_prompt chat_completions_create);
      auto; rewrite Hw.
    - apply task_categories_NoDup.
    - apply task_keys_NoDup.
    - intros t. now apply tasks_typed. }
  destruct Hs as [_ _ Hset Hraised Hothers].
  assert (Hdone : pending f = []).
  { unfold pending, finished in *.
    destruct (waiting f), (in_flight f); try discriminate. reflexivity. }
  unfold finish_briefings. rewrite Hraised. eexists. split; [reflexivity |].
  split; [apply dict_get_set_eq |]. split.
  - intros field cat key Hin.
    rewrite dict_get_set_ne by exact (briefing_keys_not_briefings _ Hin).
    destruct (has_input st (field, (cat, key))) eqn:Hyes.
    + destruct (Hset (task_of st (field, (cat, key)))) as [Hpend | (c & Hc & Hb)].
      * rewrite Hw. apply in_map. apply filter_In. auto.
      * rewrite Hdone in Hpend. destruct Hpend.
      * exists c. cbn [briefing_key category task_of fst snd] in Hc, Hb.
        split; [exact Hc |]. split; [exact Hb | discriminate].
    + exists "".
      destruct (no_input_no_task st _ Hin Hyes) as [Hcat Hkey].
      rewrite <- Hw in Hcat, Hkey. cbn [fst snd] in Hcat, Hkey.
      split; [| split; [now apply Hothers | reflexivity]].
      rewrite (inv_state f0 f Hinv).
      * exact (Hempty _ Hin Hyes).
      * intros Hk. apply Hkey. now apply list_elem_of_In.
  - intros k Hk. apply Hothers. rewrite Hw, map_map.
    cbn [category task_of]. intros Hin. apply Hk.
    apply in_map_iff in Hin as (e & <- & He). apply filter_In in He as [He _].
    exact (in_map (fun e => fst (snd e)) categories e He).
Qed.

(** X16. Under the same condition the model is asked exactly once for
    each category with curated input before [create_briefings] returns,
    in every schedule: nothing is asked for a category without input, and
    nothing at all when no category has input. *)
Theorem one_model_request_per_category_with_input (st : pydict pyval)
    (o : Outbox) (f : Fanout) (out : result (pydict pyval)) :
  curated_typed st ->
  create_briefings prompts default_prompt chat_completions_create st o f out ->
  length (requests (outbox f))
  = length (requests o) + length (with_input st)
  /\ (with_input st = [] -> requests (outbox f) = requests o).
Proof.
  intros Htyped Hrun. unfold create_briefings in Hrun.
  destruct (plan_briefings_typed st o Htyped) as (f0 & Hplan & _ & Hreq0).
  rewrite Hplan in Hrun. destruct Hrun as (Hreach & Hfin & _).
  pose proof (plan_briefings_Ok st o f0 tt Hplan) as (Hp & Hw & _).
  assert (Hlen : length (waiting f0) = length (with_input st)).
  { rewrite Hw. unfold with_input. now rewrite !length_map. }
  split.
  - pose proof (requests_reach f0 f) as Hcount.
    rewrite Hreq0, Hlen in Hcount. rewrite <- Hcount; auto.
    + unfold finished in Hfin. destruct (waiting f); [simpl; lia | discriminate].
    + intros t. rewrite Hw. now apply tasks_typed.
  - intros Hnone. rewrite Hnone in Hlen.
    destruct (waiting f0) eqn:Hw0; [| discriminate].
    destruct Hp as (Hfly & _).
    apply rtc_inv in Hreach as [<- | (f1 & Hstep & _)]; [exact Hreq0 |].
    exfalso. eapply no_task_no_step; eassumption.
Qed.
End CreateBriefingsResult.

Lemma two_of_five_typed : curated_typed two_of_five.
Proof.
  intros e He Hin. simpl in He.
  repeat (destruct He as [<- | He];
          [first [ vm_compute in Hin; discriminate
                 | eexists (DocsDict [(_, _)]); reflexivity ] |]).
  contradiction.
Defined.

Lemma two_of_five_run :
  create_briefings no_templates "" sample_model two_of_five empty_outbox
    final_two (finish_briefings final_two).
Proof.
  unfold create_briefings.
  assert (Hplan : plan_briefings (enter two_of_five empty_outbox)
                  = (planned_two, Ok tt)) by (vm_compute; reflexivity).
  rewrite Hplan. split; [| split; [vm_compute; reflexivity | reflexivity]].
  apply (play_reaches no_templates "" sample_model
           [Admission 0; Admission 0; Completion 0; Completion 0]).
  vm_compute. reflexivity.
Defined.

Lemma create_briefings_settles_every_category_witness :
  curated_typed two_of_five
  /\ create_briefings no_templates "" sample_model two_of_five empty_outbox
       final_two (finish_briefings final_two)
  /\ exists st',
       finish_briefings final_two = Ok st'
       /\ dict_get st' "briefings" = Some (PDict (briefings final_two))
       /\ (forall field cat key, In (field, (cat, key)) categories ->
           exists c,
             dict_get st' key = Some (PStr c)
             /\ dict_get (briefings final_two) cat =
                (if String.eqb c "" then None else Some (PStr c))
             /\ (has_input two_of_five (field, (cat, key)) = false -> c = ""))
       /\ (forall k, ~ In k (map (fun e => fst (snd e)) categories) ->
           dict_get (briefings final_two) k = None).
Proof.
  split; [exact two_of_five_typed |]. split; [exact two_of_five_run |].
  exact (create_briefings_settles_every_category no_templates "" sample_model
           two_of_five empty_outbox final_two (finish_briefings final_two)
           two_of_five_typed two_of_five_run).
Defined.

Lemma one_model_request_per_category_with_input_witness :
  curated_typed two_of_five
  /\ create_briefings no_templates "" sample_model two_of_five empty_outbox
       final_two (finish_briefings final_two)
  /\ length (requests (outbox final_two)) = 2.
Proof.
  split; [exact two_of_five_typed |]. split; [exact two_of_five_run |].
  exact (proj1 (one_model_request_per_category_with_input no_templates ""
                  sample_model two_of_five empty_outbox final_two
                  (finish_briefings final_two)
                  two_of_five_typed two_of_five_run)).
Defined.

(** ** The auditor's searches and what they leave in the state
    ([backend/nodes/researchers/auditor.py], lines 17-126) *)

Lemma dict_set_keys_iff {V} (d : pydict V) (k u : string) (v : V) :
  In u (dict_keys (dict_set d k v)) <-> In u (dict_keys d) \/ u = k.
Proof.
  unfold dict_keys. induction d as [| [k' v'] d IH]; simpl.
  - split; [intros [<- | []]; auto | intros [[] | ->]; auto].
  - destruct (String.eqb k' k) eqn:E; simpl.
    + apply String.eqb_eq in E. subst k'. intuition congruence.
    + rewrite IH. tauto.
Qed.

Lemma merge_documents_keys (q u : string) (documents acc : pydict Document) :
  In u (dict_keys (merge_documents q documents acc))
  <-> In u (dict_keys acc) \/ In u (dict_keys documents).
Proof.
  unfold merge_documents. revert acc.
  induction documents as [| [k d] rest IH]; intros acc; simpl; [tauto |].
  rewrite IH, dict_set_keys_iff. intuition congruence.
Qed.

(** Line 37. *)
Definition subqueries_message (queries : list string) : pyval :=
  AIMessage ("🔍 Subqueries for e-commerce audit:" +:+ nl
             +:+ str_join nl (map (fun q => "• " +:+ q) queries)).

(** Line 77. *)
Definition completion_text (found : nat) : string :=
  "Completed e-commerce audit discovery with " +:+ str_of_nat found
  +:+ " documents".

(** Lines 44-53: the event sent once the queries are known. *)
Definition queries_event (job_id : pyval) (queries : list string)
    : StatusEvent :=
  {| ev_job_id := job_id; ev_status := "processing";
     ev_message := "E-commerce audit queries generated";
     ev_result := PDict [("step", PStr "E-commerce Auditor");
                         ("analyst_type", PStr "E-commerce Auditor");
                         ("queries", queries_value queries)];
     ev_error := PNone |}.

Lemma get_set_ne (st : pydict pyval) (k k' : string) (v : pyval) :
  k <> k' -> get (dict_set st k v) k' = get st k'.
Proof. intros H. unfold get. now rewrite dict_get_set_ne. Qed.

(** The seeding does not read the messages. *)
Lemma seed_documents_messages (repr : pyval -> string) (st : pydict pyval)
    (company v : pyval) :
  seed_documents repr (dict_set st "messages" v) company
  = seed_documents repr st company.
Proof.
  unfold seed_documents.
  rewrite get_set_ne by discriminate.
  rewrite !get_or_set_ne by discriminate. reflexivity.
Qed.

Section AuditorRuns.
Variable repr : pyval -> string.
Variable generate_queries : pydict pyval -> result (list string).
Variable search_documents : nat -> string -> result (pydict Document).

#[local] Abbreviation Search_all := (search_all search_documents).
#[local] Abbreviation Analyze :=
  (analyze repr generate_queries search_documents).

(** X17. The searches of a category neither lose nor invent a URL: when
    they have all succeeded, the URLs of the category's map are exactly
    those it held before the first search (the seeded site snapshot)
    together with those returned by the queries. *)
Theorem searches_collect_exactly_the_returned_urls
    (queries : list (nat * string)) (acc result : pydict Document)
    (u : string) :
  Search_all queries acc = Ok result ->
  In u (dict_keys result)
  <-> In u (dict_keys acc)
      \/ exists n q documents,
           In (n, q) queries /\ search_documents n q = Ok documents
           /\ In u (dict_keys documents).
Proof.
  revert acc. induction queries as [| [n q] rest IH]; intros acc; simpl.
  - intros [= <-]. split; [auto | intros [H | (n & q & d & [] & _)]; exact H].
  - destruct (search_documents n q) as [documents | e] eqn:Hs;
      [| discriminate].
    intros Hrest. rewrite (IH _ Hrest), merge_documents_keys. split.
    + intros [[H | H] | (n' & q' & d & Hin & Hd & Hu)]; [auto | |].
      * right. exists n, q, documents. auto.
      * right. exists n', q', d. auto.
    + intros [H | (n' & q' & d & [[= <- <-] | Hin] & Hd & Hu)]; [auto | |].
      * rewrite Hs in Hd. injection Hd as <-. auto.
      * right. exists n', q', d. auto.
Qed.

(** X18. When a search raises after the queries were planned, [analyze]
    raises that exception and the state keeps what the [try] block had
    written by then: the sub-queries message has been appended to
    [messages], every other key, [auditor_data] among them, is as it was
    on entry, and with a manager and a job id the events sent are the one
    for the queries and then the error. *)
Theorem failed_search_leaves_auditor_data_alone (g : Gathering)
    (queries : list string) (msgs : list pyval) (e : exn) :
  let st := research_state g in
  let job_id := get st "job_id" in
  generate_queries st = Ok queries ->
  get_or st "messages" (PList []) = PList msgs ->
  Search_all (enumerate queries)
    (seed_documents repr st (get_or st "company" (PStr "Unknown Company")))
  = Raise e ->
  exists g',
    Analyze g = (g', Raise e)
    /\ dict_get (research_state g') "messages"
       = Some (PList (msgs ++ [subqueries_message queries]))
    /\ (forall k, k <> "messages" ->
        dict_get (research_state g') k = dict_get st k)
    /\ dict_get (research_state g') "auditor_data" = dict_get st "auditor_data"
    /\ published g' =
       published g ++
       (if truthy (get st "websocket_manager") && truthy job_id
        then [queries_event job_id queries; failure_event job_id e]
        else []).
Proof.
  intros st job_id Hq Hm Hs.
  destruct (truthy (get st "websocket_manager") && truthy job_id) eqn:Hws.
  all: eexists; split;
    [ unfold analyze, gather, report_failure, announce, send_status_update,
        assign, when, bind, gets, lift, try_except, modify, ret, raise;
      fold st; rewrite Hq; cbv beta iota zeta; rewrite Hm;
      cbn [append]; fold job_id; rewrite Hws;
      cbv beta iota zeta; cbn [research_state published];
      rewrite seed_documents_messages, Hs; rewrite ?Hws; reflexivity |].
  all: cbn [research_state published].
  all: split; [apply dict_get_set_eq |].
  all: split; [intros k Hk; now apply dict_get_set_ne |].
  all: split; [now apply dict_get_set_ne |].
  - unfold queries_event, failure_event. now rewrite <- app_assoc.
  - now rewrite app_nil_r.
Qed.

(** X19. When the queries are planned and every search succeeds,
    [analyze] returns, and what it returns is what it has recorded: the
    map of documents is under [auditor_data] in the result and in the
    state, the message gives the number of documents of that map, the
    sub-queries message and that message have been appended to
    [messages] in this order, no other key of the state has changed, and
    with a manager and a job id exactly three events have been sent. *)
Theorem audit_records_what_it_returns (g : Gathering)
    (queries : list string) (msgs : list pyval) (data : pydict Document) :
  let st := research_state g in
  generate_queries st = Ok queries ->
  get_or st "messages" (PList []) = PList msgs ->
  Search_all (enumerate queries)
    (seed_documents repr st (get_or st "company" (PStr "Unknown Company")))
  = Ok data ->
  exists g' result,
    Analyze g = (g', Ok result)
    /\ dict_get result "auditor_data" = Some (documents_value data)
    /\ dict_get (research_state g') "auditor_data"
       = Some (documents_value data)
    /\ dict_get result "message"
       = Some (PStr (completion_text (length data)))
    /\ dict_get (research_state g') "messages"
       = Some (PList (msgs ++ [subqueries_message queries;
                               AIMessage (completion_text (length data))]))
    /\ (forall k, k <> "messages" -> k <> "auditor_data" ->
        dict_get (research_state g') k = dict_get st k)
    /\ length (published g') =
       length (published g) +
       (if truthy (get st "websocket_manager") && truthy (get st "job_id")
        then 3 else 0).
Proof.
  intros st Hq Hm Hs.
  destruct (truthy (get st "websocket_manager") && truthy (get st "job_id"))
    eqn:Hws.
  all: eexists; eexists; split;
    [ unfold analyze, gather, announce, send_status_update,
        assign, when, bind, gets, lift, try_except, modify, ret;
      fold st; rewrite Hq; cbv beta iota zeta; rewrite Hm;
      cbn [append]; rewrite Hws;
      cbv beta iota zeta; cbn [research_state published];
      rewrite seed_documents_messages, Hs; reflexivity |].
  all: cbn [research_state published].
  all: split; [reflexivity |].
  all: split; [apply dict_get_set_eq |].
  all: split; [reflexivity |].
  all: split;
    [rewrite dict_get_set_ne by discriminate;
     rewrite dict_get_set_eq, <- app_assoc; reflexivity |].
  all: split;
    [intros k Hk Hk'; rewrite !dict_get_set_ne by congruence; reflexivity |].
  - rewrite !length_app. simpl. lia.
  - lia.
Qed.
End AuditorRuns.

Definition two_queries (st : pydict pyval) : result (list string) :=
  Ok ["acme reviews"; "acme store"].

(** A search service that answers the first query and fails on the
    second. *)
Definition flaky_search (n : nat) (q : string) : result (pydict Document) :=
  match n with
  | 0 => Ok [ ("https://acme.example", page "Acme" "first payload") ]
  | _ => Raise (Exn "TimeoutError" "search timed out")
  end.

Lemma searches_collect_exactly_the_returned_urls_witness :
  search_all sample_search
    [(0, "acme reviews"); (1, "acme store"); (2, "acme news")] seeded_home
  = Ok merged_sample
  /\ (In "https://news.example" (dict_keys merged_sample)
      <-> In "https://news.example" (dict_keys seeded_home)
          \/ exists n q documents,
               In (n, q) [(0, "acme reviews"); (1, "acme store");
                          (2, "acme news")]
               /\ sample_search n q = Ok documents
               /\ In "https://news.example" (dict_keys documents)).
Proof.
  split; [reflexivity |].
  apply (searches_collect_exactly_the_returned_urls sample_search
           [(0, "acme reviews"); (1, "acme store"); (2, "acme news")]
           seeded_home merged_sample "https://news.example").
  reflexivity.
Defined.

Lemma failed_search_leaves_auditor_data_alone_witness :
  let e := Exn "TimeoutError" "search timed out" in
  let queries := ["acme reviews"; "acme store"] in
  exists g',
    analyze plain_repr two_queries flaky_search observed_state = (g', Raise e)
    /\ dict_get (research_state g') "messages"
       = Some (PList [subqueries_message queries])
    /\ dict_get (research_state g') "auditor_data" = None
    /\ published g' =
       [queries_event (PStr "job-1") queries; failure_event (PStr "job-1") e].
Proof.
  intros e queries.
  destruct (failed_search_leaves_auditor_data_alone plain_repr two_queries
              flaky_search observed_state queries [] e
              eq_refl eq_refl eq_refl)
    as (g' & Hrun & Hm & _ & Ha & Hp).
  exists g'. repeat split; assumption.
Defined.

Lemma audit_records_what_it_returns_witness :
  exists g' result,
    analyze plain_repr two_queries sample_search observed_state
    = (g', Ok result)
    /\ dict_get result "message"
       = Some (PStr "Completed e-commerce audit discovery with 2 documents")
    /\ dict_get (research_state g') "auditor_data"
       = dict_get result "auditor_data"
    /\ length (published g') = 3.
Proof.
  destruct (audit_records_what_it_returns plain_repr two_queries
              sample_search observed_state ["acme reviews"; "acme store"] []
              [ ("https://acme.example",
                 set_query (page "Acme" "second payload") "acme store");
                ("https://shop.example",
                 set_query (page "Shop" "listing") "acme store") ]
              eq_refl eq_refl eq_refl)
    as (g' & result & Hrun & Hr & Hs & Hmsg & _ & _ & Hp).
  exists g', result. repeat split; try assumption.
  now rewrite Hr, Hs.
Defined.
